(** * Chat backend: friend graph, room directory, message log, presence

    A shallow embedding of the model and handler code of the chat backend
    ([app/models/*.py], [app/routes/chat.py], [app/routes/friends.py],
    [app/socketio_events.py], [app/utils/auth.py]) together with the
    properties its design document states about it.

    The MongoDB collections are lists of documents in natural (insertion)
    order; every repository method is a function on those lists.  Handlers
    are functions from the database (and, for the realtime handlers, the
    process-wide globals) to a response and a new database. *)

From Stdlib Require Import String Ascii List Bool ZArith Arith Lia.
Import ListNotations.

Set Implicit Arguments.

Open Scope string_scope.
Open Scope list_scope.
Open Scope nat_scope.

(* ================================================================== *)
(** * bson.ObjectId *)
(* ================================================================== *)

Module Bson.

(** An [ObjectId] is kept as the text [str(oid)] gives: 24 lowercase
    hexadecimal digits.  [str] is therefore the identity and the Python
    comparison [str(a) < str(b)] is the lexicographic order on that text. *)
Definition ObjectId := string.

Definition str (oid : ObjectId) : string := oid.

Definition oid_eqb (a b : ObjectId) : bool := String.eqb a b.

Definition is_digit (n : nat) : bool := (48 <=? n) && (n <=? 57).
Definition is_upper_hex (n : nat) : bool := (65 <=? n) && (n <=? 70).
Definition is_lower_hex (n : nat) : bool := (97 <=? n) && (n <=? 102).

Definition is_hex (c : ascii) : bool :=
  let n := nat_of_ascii c in
  is_digit n || is_upper_hex n || is_lower_hex n.

Definition lower (c : ascii) : ascii :=
  let n := nat_of_ascii c in
  if is_upper_hex n then ascii_of_nat (n + 32) else c.

Fixpoint all_hex (s : string) : bool :=
  match s with
  | EmptyString => true
  | String c r => is_hex c && all_hex r
  end.

Fixpoint lowercase (s : string) : string :=
  match s with
  | EmptyString => EmptyString
  | String c r => String (lower c) (lowercase r)
  end.

(** [ObjectId(id_string)]: a string is accepted when it has 24 characters,
    all hexadecimal digits; anything else raises [InvalidId] ([None]).
    Upper-case digits denote the same twelve bytes as lower-case ones. *)
Definition ObjectId_of (id_string : string) : option ObjectId :=
  if (String.length id_string =? 24) && all_hex id_string
  then Some (lowercase id_string)
  else None.

(** The order used by [str(a) < str(b)]. *)
Definition str_lt (a b : ObjectId) : bool := String.ltb (str a) (str b).

End Bson.

Import Bson.

(* ================================================================== *)
(** * app/utils/auth.py *)
(* ================================================================== *)

(** [validate_object_id]: [True] when [ObjectId(id_string)] does not raise. *)
Definition validate_object_id (id_string : string) : bool :=
  match ObjectId_of id_string with
  | Some _ => true
  | None => false
  end.

(* ================================================================== *)
(** * The part of pymongo the repositories rely on *)
(* ================================================================== *)

Module Mongo.

Section Collection.
Variable doc : Type.
Variable id_of : doc -> ObjectId.

Definition collection := list doc.

(** [find_one(filter)]: the first matching document in natural order. *)
Definition find_one (q : doc -> bool) (c : collection) : option doc :=
  List.find q c.

(** [find(filter)]: every matching document, in natural order. *)
Definition find (q : doc -> bool) (c : collection) : list doc :=
  List.filter q c.

(** [insert_one(doc)]: appends; the unique index on [_id] makes a
    second document with the same [_id] raise [DuplicateKeyError]. *)
Definition insert_one (d : doc) (c : collection) : option collection :=
  if existsb (fun x => oid_eqb (id_of x) (id_of d)) c
  then None
  else Some (c ++ [d]).

(** [update_one(filter, update)]: rewrites the first match only. *)
Fixpoint update_one (q : doc -> bool) (upd : doc -> doc) (c : collection)
  : collection :=
  match c with
  | [] => []
  | d :: r => if q d then upd d :: r else d :: update_one q upd r
  end.

(** [update_many(filter, update)]: rewrites every match. *)
Definition update_many (q : doc -> bool) (upd : doc -> doc) (c : collection)
  : collection :=
  List.map (fun d => if q d then upd d else d) c.

(** [delete_one(filter)]: drops the first match only. *)
Fixpoint delete_one (q : doc -> bool) (c : collection) : collection :=
  match c with
  | [] => []
  | d :: r => if q d then r else d :: delete_one q r
  end.

(** [delete_many(filter)]. *)
Definition delete_many (q : doc -> bool) (c : collection) : collection :=
  List.filter (fun d => negb (q d)) c.

(** [count_documents(filter)]. *)
Definition count_documents (q : doc -> bool) (c : collection) : nat :=
  List.length (List.filter q c).

(** ** Cursor modifiers *)

(** [sort(key, -1)]: descending by [key]; documents with equal keys keep
    their natural order. *)
Fixpoint insert_desc (key : doc -> Z) (d : doc) (l : list doc) : list doc :=
  match l with
  | [] => [d]
  | x :: r =>
      if (key x <=? key d)%Z then d :: x :: r
      else x :: insert_desc key d r
  end.

Definition sort_desc (key : doc -> Z) (l : list doc) : list doc :=
  List.fold_right (insert_desc key) [] l.

(** [skip(n)]: a negative [n] raises [ValueError]. *)
Definition skip (n : Z) (l : list doc) : option (list doc) :=
  if (n <? 0)%Z then None else Some (List.skipn (Z.to_nat n) l).

(** [limit(n)]: at most [|n|] documents; a limit of [0] is no limit. *)
Definition limit (n : Z) (l : list doc) : list doc :=
  if (n =? 0)%Z then l else List.firstn (Z.to_nat (Z.abs n)) l.

End Collection.

(** ** Query and update operators on an array field *)

(** [{"field": v}] on an array field: some element equals [v]. *)
Definition contains (v : ObjectId) (arr : list ObjectId) : bool :=
  existsb (oid_eqb v) arr.

(** [{"field": {"$ne": v}}] on an array field: no element equals [v]. *)
Definition ne_array (v : ObjectId) (arr : list ObjectId) : bool :=
  negb (contains v arr).

(** [{"field": {"$all": vs}}]. *)
Definition all (vs : list ObjectId) (arr : list ObjectId) : bool :=
  forallb (fun v => contains v arr) vs.

(** [{"field": {"$size": n}}]. *)
Definition size (n : nat) (arr : list ObjectId) : bool :=
  List.length arr =? n.

(** [{"$addToSet": {"field": v}}]. *)
Definition addToSet (v : ObjectId) (arr : list ObjectId) : list ObjectId :=
  if contains v arr then arr else arr ++ [v].

(** [{"$pull": {"field": v}}]. *)
Definition pull (v : ObjectId) (arr : list ObjectId) : list ObjectId :=
  List.filter (fun x => negb (oid_eqb x v)) arr.

End Mongo.

(* ================================================================== *)
(** * app/models/message.py *)
(* ================================================================== *)

Module Message.
Record t := mk {
  _id : ObjectId;
  sender_id : ObjectId;
  room_id : ObjectId;
  content : string;
  message_type : string;
  created_at : Z;
  read_by : list ObjectId
}.

Definition set_read_by (f : list ObjectId -> list ObjectId) (m : t) : t :=
  mk (_id m) (sender_id m) (room_id m) (content m) (message_type m)
     (created_at m) (f (read_by m)).
End Message.

Module MessageRepository.
Definition collection := list Message.t.

(** [create]: [insert_one(message.to_dict())]. *)
Definition create (message : Message.t) (c : collection)
  : option (string * collection) :=
  match Mongo.insert_one Message._id message c with
  | Some c' => Some (str (Message._id message), c')
  | None => None
  end.

(** [find_by_room]: newest first, skip, limit, then
    [reversed(list(messages))]. *)
Definition find_by_room (room_id : ObjectId) (limit skip : Z)
    (c : collection) : option (list Message.t) :=
  let sorted :=
    Mongo.sort_desc Message.created_at
      (Mongo.find (fun m => oid_eqb (Message.room_id m) room_id) c) in
  match Mongo.skip skip sorted with
  | Some skipped => Some (List.rev (Mongo.limit limit skipped))
  | None => None
  end.

(** [find_by_id]. *)
Definition find_by_id (message_id : string) (c : collection)
  : option (option Message.t) :=
  match ObjectId_of message_id with
  | Some oid => Some (Mongo.find_one (fun m => oid_eqb (Message._id m) oid) c)
  | None => None
  end.

(** [mark_as_read]: [$addToSet] on the message with that id;
    [ObjectId(message_id)] raises on a malformed id. *)
Definition mark_as_read (message_id : string) (user_id : ObjectId)
    (c : collection) : option collection :=
  match ObjectId_of message_id with
  | Some oid =>
      Some (Mongo.update_one (fun m => oid_eqb (Message._id m) oid)
              (Message.set_read_by (Mongo.addToSet user_id)) c)
  | None => None
  end.

(** [mark_room_messages_as_read]: one [update_many]. *)
Definition mark_room_messages_as_read (room_id user_id : ObjectId)
    (c : collection) : collection :=
  Mongo.update_many
    (fun m => oid_eqb (Message.room_id m) room_id
              && Mongo.ne_array user_id (Message.read_by m))
    (Message.set_read_by (Mongo.addToSet user_id)) c.

(** [get_unread_count]. *)
Definition get_unread_count (room_id user_id : ObjectId) (c : collection)
  : nat :=
  Mongo.count_documents
    (fun m => oid_eqb (Message.room_id m) room_id
              && Mongo.ne_array user_id (Message.read_by m)
              && negb (oid_eqb (Message.sender_id m) user_id)) c.

(** [delete_by_room]. *)
Definition delete_by_room (room_id : ObjectId) (c : collection)
  : collection :=
  Mongo.delete_many (fun m => oid_eqb (Message.room_id m) room_id) c.
End MessageRepository.

(* ================================================================== *)
(** * app/models/user.py *)
(* ================================================================== *)

Module User.
(** The fields the messaging core reads or writes; credentials and
    provider data are left to the identity subsystem. *)
Record t := mk {
  _id : ObjectId;
  username : string;
  status : string
}.

Definition set_status (s : string) (u : t) : t :=
  mk (_id u) (username u) s.
End User.

Module UserRepository.
Definition collection := list User.t.

(** [find_by_id]: [ObjectId(user_id)] raises on a malformed id (outer
    [None]); an unknown id gives Python's [None] (inner [None]). *)
Definition find_by_id (user_id : string) (c : collection)
  : option (option User.t) :=
  match ObjectId_of user_id with
  | Some oid => Some (Mongo.find_one (fun u => oid_eqb (User._id u) oid) c)
  | None => None
  end.

(** [update_status]. *)
Definition update_status (user_id : string) (status : string)
    (c : collection) : option collection :=
  match ObjectId_of user_id with
  | Some oid =>
      Some (Mongo.update_one (fun u => oid_eqb (User._id u) oid)
              (User.set_status status) c)
  | None => None
  end.
End UserRepository.

(* ================================================================== *)
(** * app/models/room.py *)
(* ================================================================== *)

Module Room.
Record preview := mk_preview {
  p_content : string;
  p_sender_name : string;
  p_created_at : Z
}.

Record t := mk {
  _id : ObjectId;
  name : option string;
  room_type : string;
  members : list ObjectId;
  created_by : ObjectId;
  created_at : Z;
  last_message : option preview
}.

Definition set_members (f : list ObjectId -> list ObjectId) (r : t) : t :=
  mk (_id r) (name r) (room_type r) (f (members r)) (created_by r)
     (created_at r) (last_message r).

Definition set_last_message (p : preview) (r : t) : t :=
  mk (_id r) (name r) (room_type r) (members r) (created_by r)
     (created_at r) (Some p).
End Room.

Module RoomRepository.
Definition collection := list Room.t.

Definition create (room : Room.t) (c : collection)
  : option (string * collection) :=
  match Mongo.insert_one Room._id room c with
  | Some c' => Some (str (Room._id room), c')
  | None => None
  end.

Definition find_by_id (room_id : string) (c : collection)
  : option (option Room.t) :=
  match ObjectId_of room_id with
  | Some oid => Some (Mongo.find_one (fun r => oid_eqb (Room._id r) oid) c)
  | None => None
  end.

(** The filter of [find_private_room]:
    [{"room_type": "private",
      "members": {"$all": [user1_id, user2_id], "$size": 2}}]. *)
Definition private_room_filter (user1_id user2_id : ObjectId) (r : Room.t)
  : bool :=
  String.eqb (Room.room_type r) "private"
  && Mongo.all [user1_id; user2_id] (Room.members r)
  && Mongo.size 2 (Room.members r).

Definition find_private_room (user1_id user2_id : ObjectId)
    (c : collection) : option Room.t :=
  Mongo.find_one (private_room_filter user1_id user2_id) c.

Definition add_member (room_id : string) (user_id : ObjectId)
    (c : collection) : option collection :=
  match ObjectId_of room_id with
  | Some oid =>
      Some (Mongo.update_one (fun r => oid_eqb (Room._id r) oid)
              (Room.set_members (Mongo.addToSet user_id)) c)
  | None => None
  end.

Definition remove_member (room_id : string) (user_id : ObjectId)
    (c : collection) : option collection :=
  match ObjectId_of room_id with
  | Some oid =>
      Some (Mongo.update_one (fun r => oid_eqb (Room._id r) oid)
              (Room.set_members (Mongo.pull user_id)) c)
  | None => None
  end.

Definition update_last_message (room_id : string) (p : Room.preview)
    (c : collection) : option collection :=
  match ObjectId_of room_id with
  | Some oid =>
      Some (Mongo.update_one (fun r => oid_eqb (Room._id r) oid)
              (Room.set_last_message p) c)
  | None => None
  end.

(** [is_member]: a room with that id that lists the user. *)
Definition is_member (room_id : string) (user_id : ObjectId)
    (c : collection) : option bool :=
  match ObjectId_of room_id with
  | Some oid =>
      match Mongo.find_one
              (fun r => oid_eqb (Room._id r) oid
                        && Mongo.contains user_id (Room.members r)) c with
      | Some _ => Some true
      | None => Some false
      end
  | None => None
  end.
End RoomRepository.

(* ================================================================== *)
(** * app/models/friendship.py *)
(* ================================================================== *)

Module FriendRequest.
Record t := mk {
  _id : ObjectId;
  from_user_id : ObjectId;
  to_user_id : ObjectId;
  status : string;
  created_at : Z;
  updated_at : Z
}.

Definition set_status (s : string) (now : Z) (r : t) : t :=
  mk (_id r) (from_user_id r) (to_user_id r) s (created_at r) now.
End FriendRequest.

Module Friendship.
Record t := mk {
  _id : ObjectId;
  user1_id : ObjectId;
  user2_id : ObjectId;
  created_at : Z
}.

(** [Friendship.__init__]: the two ids are stored smaller text first. *)
Definition init (user1 user2 : ObjectId) (id : ObjectId) (now : Z) : t :=
  if str_lt user1 user2
  then mk id user1 user2 now
  else mk id user2 user1 now.

(** [Friendship.from_dict]: goes through [__init__] again. *)
Definition from_dict (d : t) : t :=
  init (user1_id d) (user2_id d) (_id d) (created_at d).
End Friendship.

Module FriendRequestRepository.
Definition collection := list FriendRequest.t.

Definition create (r : FriendRequest.t) (c : collection)
  : option (string * collection) :=
  match Mongo.insert_one FriendRequest._id r c with
  | Some c' => Some (str (FriendRequest._id r), c')
  | None => None
  end.

Definition find_by_id (request_id : string) (c : collection)
  : option (option FriendRequest.t) :=
  match ObjectId_of request_id with
  | Some oid =>
      Some (Mongo.find_one (fun r => oid_eqb (FriendRequest._id r) oid) c)
  | None => None
  end.

(** The [$or] filter of [find_existing_request]. *)
Definition existing_request_filter (from_user_id to_user_id : ObjectId)
    (r : FriendRequest.t) : bool :=
  (oid_eqb (FriendRequest.from_user_id r) from_user_id
   && oid_eqb (FriendRequest.to_user_id r) to_user_id
   && String.eqb (FriendRequest.status r) "pending")
  || (oid_eqb (FriendRequest.from_user_id r) to_user_id
      && oid_eqb (FriendRequest.to_user_id r) from_user_id
      && String.eqb (FriendRequest.status r) "pending").

Definition find_existing_request (from_user_id to_user_id : ObjectId)
    (c : collection) : option FriendRequest.t :=
  Mongo.find_one (existing_request_filter from_user_id to_user_id) c.

Definition update_status (request_id : string) (status : string) (now : Z)
    (c : collection) : option collection :=
  match ObjectId_of request_id with
  | Some oid =>
      Some (Mongo.update_one (fun r => oid_eqb (FriendRequest._id r) oid)
              (FriendRequest.set_status status now) c)
  | None => None
  end.

Definition delete (request_id : string) (c : collection)
  : option collection :=
  match ObjectId_of request_id with
  | Some oid =>
      Some (Mongo.delete_one (fun r => oid_eqb (FriendRequest._id r) oid) c)
  | None => None
  end.
End FriendRequestRepository.

Module FriendshipRepository.
Definition collection := list Friendship.t.

Definition create (f : Friendship.t) (c : collection)
  : option (string * collection) :=
  match Mongo.insert_one Friendship._id f c with
  | Some c' => Some (str (Friendship._id f), c')
  | None => None
  end.

(** The "consistent ordering" both [find_friendship] and
    [delete_friendship] compute before querying. *)
Definition ordered (user1_id user2_id : ObjectId) : ObjectId * ObjectId :=
  if str_lt user1_id user2_id
  then (user1_id, user2_id)
  else (user2_id, user1_id).

Definition pair_filter (u : ObjectId * ObjectId) (f : Friendship.t) : bool :=
  oid_eqb (Friendship.user1_id f) (fst u)
  && oid_eqb (Friendship.user2_id f) (snd u).

Definition find_friendship (user1_id user2_id : ObjectId) (c : collection)
  : option Friendship.t :=
  option_map Friendship.from_dict
    (Mongo.find_one (pair_filter (ordered user1_id user2_id)) c).

Definition are_friends (user1_id user2_id : ObjectId) (c : collection)
  : bool :=
  match find_friendship user1_id user2_id c with
  | Some _ => true
  | None => false
  end.

Definition delete_friendship (user1_id user2_id : ObjectId)
    (c : collection) : collection :=
  Mongo.delete_one (pair_filter (ordered user1_id user2_id)) c.
End FriendshipRepository.

(* ================================================================== *)
(** * The database and handler results *)
(* ================================================================== *)

Record db := mk_db {
  users : UserRepository.collection;
  rooms : RoomRepository.collection;
  messages : MessageRepository.collection;
  friend_requests : FriendRequestRepository.collection;
  friendships : FriendshipRepository.collection
}.

Definition empty_db : db := mk_db [] [] [] [] [].

Definition set_rooms (c : RoomRepository.collection) (d : db) : db :=
  mk_db (users d) c (messages d) (friend_requests d) (friendships d).
Definition set_messages (c : MessageRepository.collection) (d : db) : db :=
  mk_db (users d) (rooms d) c (friend_requests d) (friendships d).
Definition set_friend_requests (c : FriendRequestRepository.collection)
    (d : db) : db :=
  mk_db (users d) (rooms d) (messages d) c (friendships d).
Definition set_friendships (c : FriendshipRepository.collection) (d : db)
  : db :=
  mk_db (users d) (rooms d) (messages d) (friend_requests d) c.
Definition set_users (c : UserRepository.collection) (d : db) : db :=
  mk_db c (rooms d) (messages d) (friend_requests d) (friendships d).

(** What [jsonify(...)] carries. *)
Inductive body :=
| Error (error : string)
| Msg (message : string)
| RoomBody (room : Room.t) (message : string)
| RequestBody (message : string) (request_id : string)
| FriendshipBody (message : string) (friendship_id : string).

(** A handler returns a body with a status code, or an exception escapes
    it (an invalid id given to [ObjectId], a duplicate key). *)
Inductive result :=
| Response (b : body) (code : nat)
| Raised.

(** Python truthiness of an optional JSON string: [None] and the empty
    string are falsy. *)
Definition truthy (s : option string) : bool :=
  match s with
  | Some EmptyString => false
  | Some _ => true
  | None => false
  end.

(* ================================================================== *)
(** * app/routes/chat.py *)
(* ================================================================== *)

Module Chat.

(** The JSON body of [POST /api/chat/rooms]: [data.get("room_type",
    "private")], [data.get("members", [])] (a list of id strings) and
    [data.get("name")]. *)
Record create_room_data := mk_data {
  d_room_type : option string;
  d_members : list string;
  d_name : option string
}.

(** [data.get("room_type", "private")]. *)
Definition requested_room_type (data : create_room_data) : string :=
  match d_room_type data with
  | Some t => t
  | None => "private"
  end.

Definition member_name (mid : string) (d : db) : string :=
  match UserRepository.find_by_id mid (users d) with
  | Some (Some member) => User.username member
  | _ => "Unknown user"
  end.

(** The loop over [member_ids]: an id that does not validate is passed
    over; a valid id that is not a friend of the caller ends the request
    with 403; every other id is appended to [all_members]. *)
Fixpoint collect_members (d : db) (current_user_obj_id : ObjectId)
    (member_ids : list string) (all_members : list ObjectId)
  : result + list ObjectId :=
  match member_ids with
  | [] => inr all_members
  | mid :: rest =>
      if validate_object_id mid then
        match ObjectId_of mid with
        | Some member_obj_id =>
            if negb (FriendshipRepository.are_friends current_user_obj_id
                       member_obj_id (friendships d))
            then inl (Response
                        (Error ("You can only create rooms with your friends. You are not friends with "
                                ++ member_name mid d ++ ".")%string)
                        403)
            else collect_members d current_user_obj_id rest
                   (all_members ++ [member_obj_id])
        | None => inl Raised
        end
      else collect_members d current_user_obj_id rest all_members
  end.

(** [create_room].  [user_id] is the JWT identity; [new_id] is the value
    [ObjectId()] produces for the new room and [now] the clock. *)
Definition create_room (user_id : string) (data : create_room_data)
    (new_id : ObjectId) (now : Z) (d : db) : result * db :=
  let room_type := requested_room_type data in
  let member_ids := d_members data in
  match member_ids with
  | [] => (Response (Error "At least one member is required") 400, d)
  | _ =>
      match ObjectId_of user_id with
      | None => (Raised, d)
      | Some current_user_obj_id =>
          match collect_members d current_user_obj_id member_ids
                  [current_user_obj_id] with
          | inl r => (r, d)
          | inr all_members =>
              let existing_room :=
                if String.eqb room_type "private"
                   && (List.length all_members =? 2)
                then
                  match all_members with
                  | m0 :: m1 :: _ =>
                      RoomRepository.find_private_room m0 m1 (rooms d)
                  | _ => None
                  end
                else None in
              match existing_room with
              | Some room => (Response (RoomBody room "Room already exists") 200, d)
              | None =>
                  let room :=
                    Room.mk new_id (d_name data) room_type all_members
                      current_user_obj_id now None in
                  match RoomRepository.create room (rooms d) with
                  | Some (_, rooms') =>
                      (Response (RoomBody room "Room created successfully") 201,
                       set_rooms rooms' d)
                  | None => (Raised, d)
                  end
              end
          end
      end
  end.

(** [mark_as_read] ([POST /rooms/<room_id>/read]). *)
Definition mark_as_read (user_id : string) (room_id : string) (d : db)
  : result * db :=
  if negb (validate_object_id room_id)
  then (Response (Error "Invalid room ID") 400, d)
  else
    match ObjectId_of user_id, ObjectId_of room_id with
    | Some uid, Some rid =>
        match RoomRepository.is_member room_id uid (rooms d) with
        | Some true =>
            (Response (Msg "Messages marked as read") 200,
             set_messages
               (MessageRepository.mark_room_messages_as_read rid uid
                  (messages d)) d)
        | Some false => (Response (Error "Access denied") 403, d)
        | None => (Raised, d)
        end
    | _, _ => (Raised, d)
    end.

(** [add_room_member] ([POST /rooms/<room_id>/members]); [new_member_id]
    is [data.get("user_id")]. *)
Definition add_room_member (user_id : string) (room_id : string)
    (new_member_id : option string) (d : db) : result * db :=
  if negb (validate_object_id room_id)
  then (Response (Error "Invalid room ID") 400, d)
  else
    match RoomRepository.find_by_id room_id (rooms d) with
    | None => (Raised, d)
    | Some None => (Response (Error "Room not found") 404, d)
    | Some (Some room) =>
        if negb (String.eqb (Room.room_type room) "group")
        then (Response (Error "Cannot add members to private chats") 400, d)
        else
          match ObjectId_of user_id with
          | None => (Raised, d)
          | Some current_user_obj_id =>
              match RoomRepository.is_member room_id current_user_obj_id
                      (rooms d) with
              | None => (Raised, d)
              | Some false => (Response (Error "Access denied") 403, d)
              | Some true =>
                  match new_member_id with
                  | Some nm =>
                      if negb (truthy new_member_id)
                         || negb (validate_object_id nm)
                      then (Response (Error "Valid user_id is required") 400, d)
                      else
                        match ObjectId_of nm with
                        | None => (Raised, d)
                        | Some new_member_obj_id =>
                            if negb (FriendshipRepository.are_friends
                                       current_user_obj_id new_member_obj_id
                                       (friendships d))
                            then (Response
                                    (Error ("You can only add friends to group chats. You are not friends with "
                                            ++ member_name nm d ++ ".")%string)
                                    403, d)
                            else
                              match RoomRepository.add_member room_id
                                      new_member_obj_id (rooms d) with
                              | Some rooms' =>
                                  (Response (Msg "Member added successfully") 200,
                                   set_rooms rooms' d)
                              | None => (Raised, d)
                              end
                        end
                  | None =>
                      (Response (Error "Valid user_id is required") 400, d)
                  end
              end
          end
    end.

(** [leave_room] ([POST /rooms/<room_id>/leave]). *)
Definition leave_room (user_id : string) (room_id : string) (d : db)
  : result * db :=
  if negb (validate_object_id room_id)
  then (Response (Error "Invalid room ID") 400, d)
  else
    match RoomRepository.find_by_id room_id (rooms d) with
    | None => (Raised, d)
    | Some None => (Response (Error "Room not found") 404, d)
    | Some (Some _) =>
        match ObjectId_of user_id with
        | None => (Raised, d)
        | Some uid =>
            match RoomRepository.remove_member room_id uid (rooms d) with
            | Some rooms' =>
                (Response (Msg "Left room successfully") 200, set_rooms rooms' d)
            | None => (Raised, d)
            end
        end
    end.

End Chat.

(* ================================================================== *)
(** * app/routes/friends.py *)
(* ================================================================== *)

Module Friends.

(** [send_friend_request]; [current_user] is the JWT identity and
    [to_user] is [data.get("user_id")]. *)
Definition send_friend_request (current_user : string)
    (to_user : option string) (new_id : ObjectId) (now : Z) (d : db)
  : result * db :=
  match ObjectId_of current_user with
  | None => (Raised, d)
  | Some current_user_id =>
      match to_user with
      | None => (Response (Error "Valid user_id is required") 400, d)
      | Some tu =>
          if negb (truthy to_user) || negb (validate_object_id tu)
          then (Response (Error "Valid user_id is required") 400, d)
          else
            match ObjectId_of tu with
            | None => (Raised, d)
            | Some to_user_id =>
                if oid_eqb current_user_id to_user_id
                then (Response (Error "Cannot send friend request to yourself")
                        400, d)
                else
                  match UserRepository.find_by_id (str to_user_id) (users d) with
                  | None => (Raised, d)
                  | Some None => (Response (Error "User not found") 404, d)
                  | Some (Some _) =>
                      if FriendshipRepository.are_friends current_user_id
                           to_user_id (friendships d)
                      then (Response
                              (Error "You are already friends with this user")
                              409, d)
                      else
                        match FriendRequestRepository.find_existing_request
                                current_user_id to_user_id
                                (friend_requests d) with
                        | Some existing_request =>
                            if String.eqb
                                 (str (FriendRequest.from_user_id
                                         existing_request))
                                 (str current_user_id)
                            then (Response
                                    (Error "Friend request already sent") 409, d)
                            else (Response
                                    (Error "This user has already sent you a friend request")
                                    409, d)
                        | None =>
                            let friend_request :=
                              FriendRequest.mk new_id current_user_id
                                to_user_id "pending" now now in
                            match FriendRequestRepository.create friend_request
                                    (friend_requests d) with
                            | Some (request_id, reqs') =>
                                (Response
                                   (RequestBody
                                      "Friend request sent successfully"
                                      request_id) 201,
                                 set_friend_requests reqs' d)
                            | None => (Raised, d)
                            end
                        end
                  end
            end
      end
  end.

(** The checks [accept], [decline] and [cancel] share: a valid id, an
    existing request, the right party, and status [pending]. *)
Definition pending_request_of (party : FriendRequest.t -> ObjectId)
    (current_user_id : ObjectId) (request_id : string) (d : db)
  : result + FriendRequest.t :=
  if negb (validate_object_id request_id)
  then inl (Response (Error "Invalid request ID") 400)
  else
    match FriendRequestRepository.find_by_id request_id (friend_requests d) with
    | None => inl Raised
    | Some None => inl (Response (Error "Friend request not found") 404)
    | Some (Some friend_request) =>
        if negb (oid_eqb (party friend_request) current_user_id)
        then inl (Response (Error "Access denied") 403)
        else if negb (String.eqb (FriendRequest.status friend_request) "pending")
        then inl (Response (Error "Friend request is no longer pending") 400)
        else inr friend_request
    end.

(** [accept_friend_request]: the friendship is inserted first, then the
    request is marked [accepted]. *)
Definition accept_friend_request (current_user : string)
    (request_id : string) (new_id : ObjectId) (now : Z) (d : db)
  : result * db :=
  match ObjectId_of current_user with
  | None => (Raised, d)
  | Some current_user_id =>
      match pending_request_of FriendRequest.to_user_id current_user_id
              request_id d with
      | inl r => (r, d)
      | inr friend_request =>
          let friendship :=
            Friendship.init (FriendRequest.from_user_id friend_request)
              (FriendRequest.to_user_id friend_request) new_id now in
          match FriendshipRepository.create friendship (friendships d) with
          | None => (Raised, d)
          | Some (friendship_id, fs') =>
              let d1 := set_friendships fs' d in
              match FriendRequestRepository.update_status request_id
                      "accepted" now (friend_requests d1) with
              | Some reqs' =>
                  (Response
                     (FriendshipBody "Friend request accepted" friendship_id)
                     200,
                   set_friend_requests reqs' d1)
              | None => (Raised, d1)
              end
          end
      end
  end.

(** [decline_friend_request]. *)
Definition decline_friend_request (current_user : string)
    (request_id : string) (now : Z) (d : db) : result * db :=
  match ObjectId_of current_user with
  | None => (Raised, d)
  | Some current_user_id =>
      match pending_request_of FriendRequest.to_user_id current_user_id
              request_id d with
      | inl r => (r, d)
      | inr _ =>
          match FriendRequestRepository.update_status request_id "declined"
                  now (friend_requests d) with
          | Some reqs' =>
              (Response (Msg "Friend request declined") 200,
               set_friend_requests reqs' d)
          | None => (Raised, d)
          end
      end
  end.

(** [cancel_friend_request]. *)
Definition cancel_friend_request (current_user : string)
    (request_id : string) (d : db) : result * db :=
  match ObjectId_of current_user with
  | None => (Raised, d)
  | Some current_user_id =>
      match pending_request_of FriendRequest.from_user_id current_user_id
              request_id d with
      | inl r => (r, d)
      | inr _ =>
          match FriendRequestRepository.delete request_id (friend_requests d) with
          | Some reqs' =>
              (Response (Msg "Friend request cancelled") 200,
               set_friend_requests reqs' d)
          | None => (Raised, d)
          end
      end
  end.

(** [remove_friend]. *)
Definition remove_friend (current_user : string) (friend_id : string)
    (d : db) : result * db :=
  match ObjectId_of current_user with
  | None => (Raised, d)
  | Some current_user_id =>
      if negb (validate_object_id friend_id)
      then (Response (Error "Invalid friend ID") 400, d)
      else
        match ObjectId_of friend_id with
        | None => (Raised, d)
        | Some friend_obj_id =>
            if negb (FriendshipRepository.are_friends current_user_id
                       friend_obj_id (friendships d))
            then (Response (Error "You are not friends with this user") 404, d)
            else
              (Response (Msg "Friend removed successfully") 200,
               set_friendships
                 (FriendshipRepository.delete_friendship current_user_id
                    friend_obj_id (friendships d)) d)
        end
  end.

End Friends.

(* ================================================================== *)
(** * app/socketio_events.py *)
(* ================================================================== *)

Module PyDict.
(** A Python [dict] from strings to booleans, in insertion order. *)
Definition t := list (string * bool).

Definition keys (d : t) : list string := List.map fst d.

Fixpoint get (k : string) (d : t) : option bool :=
  match d with
  | [] => None
  | (k', v) :: r => if String.eqb k' k then Some v else get k r
  end.

(** [d[k] = v]: an existing key keeps its position. *)
Fixpoint set (k : string) (v : bool) (d : t) : t :=
  match d with
  | [] => [(k, v)]
  | (k', v') :: r =>
      if String.eqb k' k then (k', v) :: r else (k', v') :: set k v r
  end.

(** [d.pop(k, None)]. *)
Fixpoint pop (k : string) (d : t) : t :=
  match d with
  | [] => []
  | (k', v') :: r => if String.eqb k' k then r else (k', v') :: pop k r
  end.
End PyDict.

Module SocketIO.

Inductive target :=
| ToSender
| ToRoom (room : string)
| Broadcast.

(** One [emit(event, data, ...)]. *)
Record emission := mk_emit {
  event : string;
  data : list (string * string);
  to : target
}.

(** The process: the database, the module-level [connected_users], the
    transport's room table (pairs of session id and room name; a live
    session is in the room that carries its own id) and what was emitted,
    oldest first. *)
Record world := mk_world {
  store : db;
  connected_users : PyDict.t;
  sio_rooms : list (string * string);
  outbox : list emission
}.

Definition initial (d : db) : world := mk_world d [] [] [].

Definition with_store (d : db) (w : world) : world :=
  mk_world d (connected_users w) (sio_rooms w) (outbox w).
Definition with_connected (c : PyDict.t) (w : world) : world :=
  mk_world (store w) c (sio_rooms w) (outbox w).

(** [join_room(room)] for the session the handler runs for. *)
Definition join_room (sid room : string) (w : world) : world :=
  mk_world (store w) (connected_users w) (sio_rooms w ++ [(sid, room)])
    (outbox w).

Definition emit (e : emission) (w : world) : world :=
  mk_world (store w) (connected_users w) (sio_rooms w) (outbox w ++ [e]).

Definition user_status (user_id status : string) : emission :=
  mk_emit "user_status" [("user_id", user_id); ("status", status)] Broadcast.

Definition messages_read (room_id user_id : string) : emission :=
  mk_emit "messages_read" [("room_id", room_id); ("user_id", user_id)]
    (ToRoom room_id).

Definition is_live (sid : string) (w : world) : bool :=
  existsb (fun p => String.eqb (fst p) sid && String.eqb (snd p) sid)
    (sio_rooms w).

Section Handlers.

(** [decode_token(token)["sub"]], or [None] when decoding raises. *)
Variable decode_token : string -> option string.

(** [handle_connect(auth)], run for session [sid]; [token] is
    [auth.get("token")] when [auth] is given.  An exception after the
    assignment to [connected_users] is caught and leaves the entry. *)
Definition handle_connect (sid : string) (token : option string) (w : world)
  : world :=
  if truthy token then
    match token with
    | Some tk =>
        match decode_token tk with
        | Some user_id =>
            let w1 :=
              with_connected (PyDict.set user_id true (connected_users w)) w in
            match UserRepository.update_status user_id "online"
                    (users (store w1)) with
            | Some users' =>
                let w2 := with_store (set_users users' (store w1)) w1 in
                let w3 := join_room sid ("user_" ++ user_id)%string w2 in
                emit (user_status user_id "online") w3
            | None => w1
            end
        | None => w
        end
    | None => w
    end
  else w.

(** The loop of [handle_disconnect] over [list(connected_users.keys())]:
    the first key whose entry is truthy is popped, set offline and
    announced, and the loop breaks. *)
Fixpoint disconnect_loop (keys : list string) (w : world) : world :=
  match keys with
  | [] => w
  | user_id :: rest =>
      match PyDict.get user_id (connected_users w) with
      | Some true =>
          let w1 :=
            with_connected (PyDict.pop user_id (connected_users w)) w in
          match UserRepository.update_status user_id "offline"
                  (users (store w1)) with
          | Some users' =>
              emit (user_status user_id "offline")
                (with_store (set_users users' (store w1)) w1)
          | None => w1
          end
      | _ => disconnect_loop rest w
      end
  end.

(** [handle_disconnect()]: it takes no argument and reads nothing about
    the session that closed. *)
Definition handle_disconnect (w : world) : world :=
  disconnect_loop (PyDict.keys (connected_users w)) w.

(** The transport around the two handlers: a new session enters the room
    of its own id before [connect] runs; a closed session leaves every
    room after [disconnect] ran. *)
Definition client_connects (sid : string) (token : option string)
    (w : world) : world :=
  handle_connect sid token
    (mk_world (store w) (connected_users w) (sio_rooms w ++ [(sid, sid)])
       (outbox w)).

Definition client_disconnects (sid : string) (w : world) : world :=
  let w1 := handle_disconnect w in
  mk_world (store w1) (connected_users w1)
    (List.filter (fun p => negb (String.eqb (fst p) sid)) (sio_rooms w1))
    (outbox w1).

(** [handle_mark_read(data)]; [room_id] and [user_id] are
    [data.get("room_id")] and [data.get("user_id")].  A malformed id makes
    [ObjectId] raise before anything is written or emitted. *)
Definition handle_mark_read (room_id user_id : option string) (w : world)
  : world :=
  if negb (truthy room_id) || negb (truthy user_id) then w
  else
    match room_id, user_id with
    | Some r, Some u =>
        match ObjectId_of r, ObjectId_of u with
        | Some rid, Some uid =>
            let d := store w in
            let d' :=
              set_messages
                (MessageRepository.mark_room_messages_as_read rid uid
                   (messages d)) d in
            emit (messages_read r u) (with_store d' w)
        | _, _ => w
        end
    | _, _ => w
    end.

End Handlers.

End SocketIO.

(* ================================================================== *)
(** * The design document's notions *)
(* ================================================================== *)

Module Design.

(** ** Message log *)

(** The window of [page(room, limit, offset)] in the document's words:
    the room's messages newest first, [offset] skipped, [limit] taken,
    the result reversed to chronological order. *)
Definition page (room : ObjectId) (limit offset : nat)
    (c : MessageRepository.collection) : list Message.t :=
  let newest_first :=
    Mongo.sort_desc Message.created_at
      (List.filter (fun m => oid_eqb (Message.room_id m) room) c) in
  List.rev (List.firstn limit (List.skipn offset newest_first)).

(** A message counts as unread for [user]: it is in [room], someone else
    wrote it, and [user] is not among its readers. *)
Definition unread (room user : ObjectId) (m : Message.t) : Prop :=
  Message.room_id m = room
  /\ Message.sender_id m <> user
  /\ ~ In user (Message.read_by m).

Definition unread_dec (room user : ObjectId) (m : Message.t)
  : {unread room user m} + {~ unread room user m}.
Proof.
  unfold unread.
  destruct (string_dec (Message.room_id m) room) as [Hr | Hr];
    [ | right; intros [H _]; exact (Hr H) ].
  destruct (string_dec (Message.sender_id m) user) as [Hs | Hs];
    [ right; intros [_ [H _]]; exact (H Hs) | ].
  destruct (in_dec string_dec user (Message.read_by m)) as [Hi | Hi];
    [ right; intros [_ [_ H]]; exact (H Hi) | ].
  left; repeat split; assumption.
Defined.

Definition unreadCount (room user : ObjectId)
    (c : MessageRepository.collection) : nat :=
  List.length
    (List.filter (fun m => if unread_dec room user m then true else false) c).

(** Growth of one document: same message, at least the old readers. *)
Definition grows (m m' : Message.t) : Prop :=
  Message._id m' = Message._id m
  /\ Message.sender_id m' = Message.sender_id m
  /\ Message.room_id m' = Message.room_id m
  /\ incl (Message.read_by m) (Message.read_by m').

(** The writing operations of the message log. *)
Inductive log_op :=
| Append (message : Message.t)
| MarkRead (message_id : string) (user : ObjectId)
| MarkAllRead (room user : ObjectId).

Definition run (op : log_op) (c : MessageRepository.collection)
  : option MessageRepository.collection :=
  match op with
  | Append m => option_map snd (MessageRepository.create m c)
  | MarkRead mid u => MessageRepository.mark_as_read mid u c
  | MarkAllRead r u =>
      Some (MessageRepository.mark_room_messages_as_read r u c)
  end.

(** ** Friend graph *)

(** [f] is the row the [Friendship] constructor builds for the pair. *)
Definition row_of (a b : ObjectId) (f : Friendship.t) : Prop :=
  exists id now, f = Friendship.init a b id now.

(** A friendship row for the unordered pair exists. *)
Definition friendship_exists (a b : ObjectId)
    (c : FriendshipRepository.collection) : Prop :=
  exists f, In f c /\ (row_of a b f \/ row_of b a f).

(** A pending request between the two exists, in either direction. *)
Definition pending_between (a b : ObjectId)
    (c : FriendRequestRepository.collection) : Prop :=
  exists r, In r c
    /\ FriendRequest.status r = "pending"
    /\ ((FriendRequest.from_user_id r = a /\ FriendRequest.to_user_id r = b)
        \/ (FriendRequest.from_user_id r = b /\ FriendRequest.to_user_id r = a)).

Definition user_exists (u : ObjectId) (c : UserRepository.collection) : Prop :=
  exists usr, In usr c /\ User._id usr = u.

(** ** Room directory *)

Definition is_private (r : Room.t) : Prop := Room.room_type r = "private".

(** A private room has exactly two distinct members. *)
Definition two_distinct_members (r : Room.t) : Prop :=
  List.length (Room.members r) = 2 /\ NoDup (Room.members r).

(** The private rooms of the unordered pair [{a, b}]. *)
Definition private_rooms_of (a b : ObjectId) (c : RoomRepository.collection)
  : list Room.t :=
  List.filter
    (fun r => String.eqb (Room.room_type r) "private"
              && Mongo.contains a (Room.members r)
              && Mongo.contains b (Room.members r)) c.

(** The invariant of the room directory as the document states it. *)
Definition room_invariant (c : RoomRepository.collection) : Prop :=
  (forall r, In r c -> is_private r -> two_distinct_members r)
  /\ (forall a b, a <> b -> List.length (private_rooms_of a b c) <= 1).

(** The part of it that concerns two-member private rooms only: at most
    one private room whose member list is exactly the pair. *)
Definition unique_private_pair (c : RoomRepository.collection) : Prop :=
  forall a b, a <> b ->
    Mongo.count_documents (RoomRepository.private_room_filter a b) c <= 1.

(** An id as [ObjectId()] or a stored document carries it: reading its
    own text back gives the same id. *)
Definition well_formed (o : ObjectId) : Prop := ObjectId_of (str o) = Some o.

(** A request for a private room with the one other member [member]. *)
Definition private_with (member : string) (data : Chat.create_room_data)
  : Prop :=
  Chat.requested_room_type data = "private" /\ Chat.d_members data = [member].

(** The ids among the requested members that [ObjectId] accepts. *)
Fixpoint valid_ids (member_ids : list string) : list ObjectId :=
  match member_ids with
  | [] => []
  | mid :: rest =>
      match ObjectId_of mid with
      | Some oid => oid :: valid_ids rest
      | None => valid_ids rest
      end
  end.

(** A value of [ObjectId()] not yet used as an [_id] of the collection. *)
Definition fresh (doc : Type) (id_of : doc -> ObjectId) (id : ObjectId)
    (c : list doc) : Prop :=
  forall x, In x c -> id_of x <> id.

End Design.

(* ================================================================== *)
(** * Sample data *)
(* ================================================================== *)

Module Examples.

Definition alice : ObjectId := "aaaaaaaaaaaaaaaaaaaaaaaa".
Definition bob : ObjectId := "bbbbbbbbbbbbbbbbbbbbbbbb".
Definition carol : ObjectId := "cccccccccccccccccccccccc".

Definition db0 : db :=
  mk_db [User.mk alice "alice" "offline"; User.mk bob "bob" "offline";
         User.mk carol "carol" "offline"] [] [] [] [].

(** Alice and Bob become friends, then Alice and Carol, through the
    handlers. *)
Definition request1 : ObjectId := "f00000000000000000000001".
Definition request2 : ObjectId := "f00000000000000000000002".
Definition friendship1 : ObjectId := "e00000000000000000000001".
Definition friendship2 : ObjectId := "e00000000000000000000002".

Definition db_requested : db :=
  snd (Friends.send_friend_request alice (Some bob) request1 10 db0).

Definition db_ab : db :=
  snd (Friends.accept_friend_request bob request1 friendship1 11 db_requested).

Definition db_abc : db :=
  snd (Friends.accept_friend_request carol request2 friendship2 13
         (snd (Friends.send_friend_request alice (Some carol) request2 12
                 db_ab))).

Definition room1 : ObjectId := "c00000000000000000000001".
Definition room2 : ObjectId := "c00000000000000000000002".

Definition private_request (member_ids : list string)
  : Chat.create_room_data :=
  Chat.mk_data (Some "private") member_ids None.

(** Alice and Bob have their private room. *)
Definition db_room : db :=
  snd (Chat.create_room alice (private_request [bob]) room1 20 db_abc).

(** A 24-digit id for message number [n]. *)
Definition hex_digit (n : nat) : ascii :=
  nth n (list_ascii_of_string "0123456789abcdef") "0"%char.

Fixpoint hex_of (digits n : nat) (acc : string) : string :=
  match digits with
  | 0 => acc
  | S k => hex_of k (n / 16) (String (hex_digit (n mod 16)) acc)
  end.

Definition message_id (n : nat) : ObjectId := hex_of 24 n "".

(** Message number [n] of [room1], sent by Alice at time [n]. *)
Definition message (n : nat) : Message.t :=
  Message.mk (message_id n) alice room1 "hi" "text" (Z.of_nat n) [].

Definition log (n : nat) : MessageRepository.collection :=
  List.map message (List.seq 0 n).

(** The room of Alice and Bob with three messages in it. *)
Definition db_log : db := set_messages (log 3) db_room.

(** A group request that mixes Bob's id with two strings that are not
    ids, and a private request that carries no id at all. *)
Definition mixed_request : Chat.create_room_data :=
  Chat.mk_data (Some "group") ["not-an-id"; bob; "123"] (Some "team").

Definition no_valid_id_request : Chat.create_room_data :=
  private_request ["nobody"].

(** A token is the id of its user. *)
Definition decode (token : string) : option string := Some token.

(** Alice is connected from two devices; the first one disconnects. *)
Definition two_devices : SocketIO.world :=
  SocketIO.client_connects decode "sid-2" (Some alice)
    (SocketIO.client_connects decode "sid-1" (Some alice)
       (SocketIO.initial db0)).

Definition one_device_left : SocketIO.world :=
  SocketIO.client_disconnects "sid-1" two_devices.

(** Alice, then Bob connect; Bob disconnects. *)
Definition two_users : SocketIO.world :=
  SocketIO.client_connects decode "sid-b" (Some bob)
    (SocketIO.client_connects decode "sid-a" (Some alice)
       (SocketIO.initial db0)).

Definition bob_left : SocketIO.world :=
  SocketIO.client_disconnects "sid-b" two_users.

Definition status_of (u : ObjectId) (w : SocketIO.world) : option string :=
  option_map User.status
    (Mongo.find_one (fun x => oid_eqb (User._id x) u) (users (SocketIO.store w))).

End Examples.

(* ================================================================== *)
(** * The friend graph as a state machine *)
(* ================================================================== *)

Module FriendGraph.

(** One call of a handler of [app/routes/friends.py] that writes. *)
Inductive request :=
| Send (current_user : string) (to_user : option string)
    (new_id : ObjectId) (now : Z)
| Accept (current_user request_id : string) (new_id : ObjectId) (now : Z)
| Decline (current_user request_id : string) (now : Z)
| Cancel (current_user request_id : string)
| Remove (current_user friend_id : string).

Definition handle (r : request) (d : db) : result * db :=
  match r with
  | Send u t id now => Friends.send_friend_request u t id now d
  | Accept u rid id now => Friends.accept_friend_request u rid id now d
  | Decline u rid now => Friends.decline_friend_request u rid now d
  | Cancel u rid => Friends.cancel_friend_request u rid d
  | Remove u f => Friends.remove_friend u f d
  end.

(** The databases the handlers can produce from one without requests and
    friendships. *)
Inductive reachable : db -> Prop :=
| reach_start (d : db) :
    friend_requests d = [] -> friendships d = [] -> reachable d
| reach_step (r : request) (d : db) :
    reachable d -> reachable (snd (handle r d)).

(** Pending requests between the two, in either direction. *)
Definition pending_count (a b : ObjectId) (d : db) : nat :=
  Mongo.count_documents (FriendRequestRepository.existing_request_filter a b)
    (friend_requests d).

(** Friendship rows the lookup for the pair matches. *)
Definition row_count (a b : ObjectId) (d : db) : nat :=
  Mongo.count_documents
    (FriendshipRepository.pair_filter (FriendshipRepository.ordered a b))
    (friendships d).

Record invariant (d : db) : Prop := mk_invariant {
  request_ids_unique :
    NoDup (List.map FriendRequest._id (friend_requests d));
  one_pending : forall a b, pending_count a b d <= 1;
  one_row : forall a b, row_count a b d <= 1;
  pending_not_friends :
    forall r, In r (friend_requests d) ->
      FriendRequest.status r = "pending" ->
      FriendshipRepository.are_friends (FriendRequest.from_user_id r)
        (FriendRequest.to_user_id r) (friendships d) = false;
  no_self_request :
    forall r, In r (friend_requests d) ->
      FriendRequest.from_user_id r <> FriendRequest.to_user_id r;
  rows_ordered :
    forall f, In f (friendships d) ->
      str_lt (Friendship.user1_id f) (Friendship.user2_id f) = true
}.

(** A response that reports success. *)
Definition succeeded (r : result) : Prop :=
  exists b code, r = Response b code /\ (code = 200 \/ code = 201).

End FriendGraph.

From Stdlib Require Import Sorted Permutation.

(* ================================================================== *)
(** * Python string operations the handlers use *)
(* ================================================================== *)

Module Text.

(** A character of the text is a code point below 256; [str.isspace]
    holds of these of them. *)
Definition is_space (c : ascii) : bool :=
  let n := nat_of_ascii c in
  ((9 <=? n) && (n <=? 13)) || ((28 <=? n) && (n <=? 32))
  || (n =? 133) || (n =? 160).

Fixpoint lstrip (s : string) : string :=
  match s with
  | EmptyString => EmptyString
  | String c r => if is_space c then lstrip r else s
  end.

Fixpoint rstrip (s : string) : string :=
  match s with
  | EmptyString => EmptyString
  | String c r =>
      match rstrip r with
      | EmptyString => if is_space c then EmptyString else String c EmptyString
      | r' => String c r'
      end
  end.

(** The text is empty or whitespace only. *)
Fixpoint all_space (s : string) : bool :=
  match s with
  | EmptyString => true
  | String c r => is_space c && all_space r
  end.

(** [s.strip()]. *)
Definition strip (s : string) : string := rstrip (lstrip s).

(** [s[:n]]. *)
Definition prefix (n : nat) (s : string) : string := String.substring 0 n s.

End Text.

(** What the read handlers and [send_message] answer: a payload with a
    status code, an error with a status code, or an escaped exception. *)
Inductive reply (A : Type) :=
| Sent (payload : A) (code : nat)
| Refused (error : string) (code : nat)
| Crashed.

Arguments Sent {A} payload code.
Arguments Refused {A} error code.
Arguments Crashed {A}.

(* ================================================================== *)
(** * The listing methods of the repositories *)
(* ================================================================== *)

Module Listing.

(** The sort key [last_message.created_at] of a room; a room without a
    last message has none, and a missing key sorts below every value. *)
Definition last_message_at (r : Room.t) : option Z :=
  option_map Room.p_created_at (Room.last_message r).

Definition key_le (a b : option Z) : bool :=
  match a, b with
  | None, _ => true
  | Some _, None => false
  | Some x, Some y => (x <=? y)%Z
  end.

(** [x] may stand before [y] in a descending listing. *)
Definition before (doc : Type) (key : doc -> option Z) (x y : doc) : Prop :=
  key_le (key y) (key x) = true.

(** [sort(key, -1)] for a key that may be missing. *)
Fixpoint insert_desc (doc : Type) (key : doc -> option Z) (d : doc)
    (l : list doc) : list doc :=
  match l with
  | [] => [d]
  | x :: r =>
      if key_le (key x) (key d) then d :: x :: r
      else x :: insert_desc key d r
  end.

Definition sort_desc (doc : Type) (key : doc -> option Z) (l : list doc)
  : list doc :=
  List.fold_right (insert_desc key) [] l.

(** [RoomRepository.find_user_rooms]. *)
Definition find_user_rooms (user_id : ObjectId)
    (c : RoomRepository.collection) : list Room.t :=
  sort_desc last_message_at
    (Mongo.find (fun r => Mongo.contains user_id (Room.members r)) c).

(** [RoomRepository.delete]. *)
Definition delete (room_id : string) (c : RoomRepository.collection)
  : option RoomRepository.collection :=
  match ObjectId_of room_id with
  | Some oid => Some (Mongo.delete_one (fun r => oid_eqb (Room._id r) oid) c)
  | None => None
  end.

(** [FriendRequestRepository.get_pending_requests_to_user]. *)
Definition get_pending_requests_to_user (user_id : ObjectId)
    (c : FriendRequestRepository.collection) : list FriendRequest.t :=
  Mongo.sort_desc FriendRequest.created_at
    (Mongo.find
       (fun r => oid_eqb (FriendRequest.to_user_id r) user_id
                 && String.eqb (FriendRequest.status r) "pending") c).

(** [FriendRequestRepository.get_sent_requests_by_user]. *)
Definition get_sent_requests_by_user (user_id : ObjectId)
    (c : FriendRequestRepository.collection) : list FriendRequest.t :=
  Mongo.sort_desc FriendRequest.created_at
    (Mongo.find (fun r => oid_eqb (FriendRequest.from_user_id r) user_id) c).

(** One entry of [get_user_friends]. *)
Record friend_info := mk_friend_info {
  friendship_id : string;
  friend_id : string;
  since : Z
}.

(** [FriendshipRepository.get_user_friends]: for every row that names
    the user, the other user of the row. *)
Definition get_user_friends (user_id : ObjectId)
    (c : FriendshipRepository.collection) : list friend_info :=
  List.map
    (fun data =>
       let friendship := Friendship.from_dict data in
       mk_friend_info (str (Friendship._id friendship))
         (str (if oid_eqb (Friendship.user1_id friendship) user_id
               then Friendship.user2_id friendship
               else Friendship.user1_id friendship))
         (Friendship.created_at friendship))
    (Mongo.sort_desc Friendship.created_at
       (Mongo.find
          (fun f => oid_eqb (Friendship.user1_id f) user_id
                    || oid_eqb (Friendship.user2_id f) user_id) c)).

End Listing.

(* ================================================================== *)
(** * app/routes/chat.py: the reading handlers and [send_message] *)
(* ================================================================== *)

Module ChatMore.

(** The loop that collects [members_detail]: every id is looked up, a
    user that does not exist is passed over, an id [ObjectId] refuses
    raises. *)
Fixpoint members_detail (member_ids : list string)
    (c : UserRepository.collection) : option (list User.t) :=
  match member_ids with
  | [] => Some []
  | mid :: rest =>
      match UserRepository.find_by_id mid c with
      | None => None
      | Some member =>
          match members_detail rest c with
          | None => None
          | Some l =>
              Some (match member with Some u => u :: l | None => l end)
          end
      end
  end.

(** [get_room]. *)
Definition get_room (user_id room_id : string) (d : db)
  : reply (Room.t * list User.t) :=
  if negb (validate_object_id room_id) then Refused "Invalid room ID" 400
  else
    match RoomRepository.find_by_id room_id (rooms d) with
    | None => Crashed
    | Some None => Refused "Room not found" 404
    | Some (Some room) =>
        match ObjectId_of user_id with
        | None => Crashed
        | Some uid =>
            match RoomRepository.is_member room_id uid (rooms d) with
            | None => Crashed
            | Some false => Refused "Access denied" 403
            | Some true =>
                match members_detail (List.map str (Room.members room))
                        (users d) with
                | Some detail => Sent (room, detail) 200
                | None => Crashed
                end
            end
        end
    end.

(** The loop of [get_messages] that attaches the sender to a message. *)
Fixpoint with_senders (msgs : list Message.t) (c : UserRepository.collection)
  : option (list (Message.t * option User.t)) :=
  match msgs with
  | [] => Some []
  | m :: rest =>
      match UserRepository.find_by_id (str (Message.sender_id m)) c with
      | None => None
      | Some sender =>
          match with_senders rest c with
          | None => None
          | Some l => Some ((m, sender) :: l)
          end
      end
  end.

(** [get_messages]; [limit] and [skip] are the query arguments when they
    are present and integers, and default to 50 and 0. *)
Definition get_messages (user_id room_id : string) (limit skip : option Z)
    (d : db) : reply (list (Message.t * option User.t)) :=
  if negb (validate_object_id room_id) then Refused "Invalid room ID" 400
  else
    match ObjectId_of user_id, ObjectId_of room_id with
    | Some uid, Some rid =>
        match RoomRepository.is_member room_id uid (rooms d) with
        | None => Crashed
        | Some false => Refused "Access denied" 403
        | Some true =>
            let limit := match limit with Some l => l | None => 50%Z end in
            let skip := match skip with Some s => s | None => 0%Z end in
            match MessageRepository.find_by_room rid limit skip (messages d)
            with
            | None => Crashed
            | Some msgs =>
                match with_senders msgs (users d) with
                | Some enriched => Sent enriched 200
                | None => Crashed
                end
            end
        end
    | _, _ => Crashed
    end.

Definition sender_name (sender : option User.t) : string :=
  match sender with
  | Some u => User.username u
  | None => "Unknown"
  end.

(** [send_message] (the REST fallback); [content] and [message_type]
    are [data.get("content")] and [data.get("message_type")]. *)
Definition send_message (user_id room_id : string)
    (content message_type : option string) (new_id : ObjectId) (now : Z)
    (d : db) : reply Message.t * db :=
  if negb (validate_object_id room_id) then (Refused "Invalid room ID" 400, d)
  else
    match ObjectId_of user_id, ObjectId_of room_id with
    | Some uid, Some rid =>
        match RoomRepository.is_member room_id uid (rooms d) with
        | None => (Crashed, d)
        | Some false => (Refused "Access denied" 403, d)
        | Some true =>
            let content :=
              Text.strip (match content with Some c => c | None => "" end) in
            match content with
            | EmptyString => (Refused "Message content is required" 400, d)
            | _ =>
                let message :=
                  Message.mk new_id uid rid content
                    (match message_type with Some t => t | None => "text" end)
                    now [] in
                match MessageRepository.create message (messages d) with
                | None => (Crashed, d)
                | Some (_, messages') =>
                    let d1 := set_messages messages' d in
                    match UserRepository.find_by_id user_id (users d1) with
                    | None => (Crashed, d1)
                    | Some sender =>
                        match RoomRepository.update_last_message room_id
                                (Room.mk_preview (Text.prefix 100 content)
                                   (sender_name sender) now) (rooms d1) with
                        | None => (Crashed, d1)
                        | Some rooms' => (Sent message 201, set_rooms rooms' d1)
                        end
                    end
                end
            end
        end
    | _, _ => (Crashed, d)
    end.



End ChatMore.

(* ================================================================== *)
(** * More sample data *)
(* ================================================================== *)

Module Samples.

Definition pending_request : FriendRequest.t :=
  FriendRequest.mk Examples.request1 Examples.alice Examples.bob "pending"
    10 10.

(** Alice, Bob and Carol with a group room of Alice and Bob. *)
Definition group_request : Chat.create_room_data :=
  Chat.mk_data (Some "group") [Examples.bob] (Some "team").

Definition db_group : db :=
  snd (Chat.create_room Examples.alice group_request Examples.room2 30
         Examples.db_abc).

Definition group_room : Room.t :=
  Room.mk Examples.room2 (Some "team") "group"
    [Examples.alice; Examples.bob] Examples.alice 30 None.

Definition private_room : Room.t :=
  Room.mk Examples.room1 None "private" [Examples.alice; Examples.bob]
    Examples.alice 20 None.

Definition message1 : ObjectId := "d00000000000000000000001".

(** A request whose first id is no object id, whose second is Bob (a
    friend of Alice in [Examples.db_ab]) and whose third is Carol (not a
    friend there). *)
Definition request_with_stranger : Chat.create_room_data :=
  Chat.mk_data (Some "group") ["junk"; Examples.bob; Examples.carol] None.

End Samples.

(* ================================================================== *)
(** * app/socketio_events.py: the remaining event handlers *)
(* ================================================================== *)

Module Realtime.

(** What an event carries.  A message and a user stand for their
    [to_json()] dictionaries. *)
Inductive payload :=
| Fields (data : list (string * string))
| AuthenticationFailed
| Authenticated (user_id : string) (rooms : list string)
| Typing (room_id user_id username : string) (is_typing : bool)
| NewMessage (message : Message.t) (sender : option User.t)
| Notification (room_id : string) (message : Message.t)
    (sender : option User.t).

(** To whom [emit] sends: the session whose event is handled (no [room]
    argument), a room, a room without that session
    ([include_self=False]), or every session of the room table
    ([broadcast=True]). *)
Inductive scope :=
| Caller
| InRoom (room : string)
| OthersInRoom (room : string)
| Everyone.

(** One [emit], with the sessions it reached. *)
Record emission := mk_emission {
  event : string;
  body : payload;
  scope_of : scope;
  by_sid : string;
  delivered_to : list string
}.

(** The process as in [SocketIO.world]; the room table holds every pair
    of session and room once. *)
Record world := mk_world {
  store : db;
  connected_users : PyDict.t;
  sio_rooms : list (string * string);
  outbox : list emission
}.

Definition with_store (d : db) (w : world) : world :=
  mk_world d (connected_users w) (sio_rooms w) (outbox w).
Definition with_connected (c : PyDict.t) (w : world) : world :=
  mk_world (store w) c (sio_rooms w) (outbox w).
Definition with_rooms (t : list (string * string)) (w : world) : world :=
  mk_world (store w) (connected_users w) t (outbox w).

Definition in_room (sid room : string) (t : list (string * string)) : bool :=
  existsb (fun p => String.eqb (fst p) sid && String.eqb (snd p) room) t.

Definition sessions_in (room : string) (t : list (string * string))
  : list string :=
  List.map fst (List.filter (fun p => String.eqb (snd p) room) t).

(** [join_room(room)] and [leave_room(room)] for session [sid]. *)
Definition join_room (sid room : string) (w : world) : world :=
  if in_room sid room (sio_rooms w) then w
  else with_rooms (sio_rooms w ++ [(sid, room)]) w.

Definition leave_room (sid room : string) (w : world) : world :=
  with_rooms
    (List.filter
       (fun p => negb (String.eqb (fst p) sid && String.eqb (snd p) room))
       (sio_rooms w)) w.

Definition recipients (sid : string) (s : scope) (t : list (string * string))
  : list string :=
  match s with
  | Caller => [sid]
  | InRoom room => sessions_in room t
  | OthersInRoom room =>
      List.filter (fun x => negb (String.eqb x sid)) (sessions_in room t)
  | Everyone => List.nodup string_dec (List.map fst t)
  end.

Definition emit (sid : string) (event : string) (body : payload) (s : scope)
    (w : world) : world :=
  mk_world (store w) (connected_users w) (sio_rooms w)
    (outbox w
     ++ [mk_emission event body s sid (recipients sid s (sio_rooms w))]).

Definition error (sid message : string) (w : world) : world :=
  emit sid "error" (Fields [("message", message)]) Caller w.

Section Handlers.

Variable decode_token : string -> option string.

(** [handle_authenticate(data)]; [token] is [data.get("token")]. *)
Definition handle_authenticate (sid : string) (token : option string)
    (w : world) : world :=
  if negb (truthy token) then error sid "Token required" w
  else
    match token with
    | None => w
    | Some tk =>
        match decode_token tk with
        | None => emit sid "error" AuthenticationFailed Caller w
        | Some user_id =>
            let w1 :=
              with_connected (PyDict.set user_id true (connected_users w)) w in
            match UserRepository.update_status user_id "online"
                    (users (store w1)), ObjectId_of user_id with
            | Some users', Some uid =>
                let w2 := with_store (set_users users' (store w1)) w1 in
                let w3 := join_room sid ("user_" ++ user_id)%string w2 in
                let rooms :=
                  Listing.find_user_rooms uid (rooms (store w3)) in
                let w4 :=
                  List.fold_left
                    (fun acc room => join_room sid (str (Room._id room)) acc)
                    rooms w3 in
                let w5 :=
                  emit sid "authenticated"
                    (Authenticated user_id
                       (List.map (fun room => str (Room._id room)) rooms))
                    Caller w4 in
                emit sid "user_status"
                  (Fields [("user_id", user_id); ("status", "online")])
                  Everyone w5
            | _, _ => emit sid "error" AuthenticationFailed Caller w1
            end
        end
    end.

(** [handle_join_room(data)]. *)
Definition handle_join_room (sid : string) (room_id user_id : option string)
    (w : world) : world :=
  if negb (truthy room_id) || negb (truthy user_id)
  then error sid "room_id and user_id required" w
  else
    match room_id, user_id with
    | Some r, Some u =>
        match ObjectId_of u with
        | None => w
        | Some uid =>
            match RoomRepository.is_member r uid (rooms (store w)) with
            | None => w
            | Some false => error sid "Access denied" w
            | Some true =>
                let w1 := join_room sid r w in
                let w2 :=
                  emit sid "joined_room" (Fields [("room_id", r)]) Caller w1 in
                emit sid "user_joined"
                  (Fields [("room_id", r); ("user_id", u)]) (OthersInRoom r)
                  w2
            end
        end
    | _, _ => w
    end.

(** [handle_leave_room(data)]. *)
Definition handle_leave_room (sid : string) (room_id user_id : option string)
    (w : world) : world :=
  if truthy room_id then
    match room_id with
    | Some r =>
        let w1 := leave_room sid r w in
        let w2 := emit sid "left_room" (Fields [("room_id", r)]) Caller w1 in
        if truthy user_id then
          match user_id with
          | Some u =>
              emit sid "user_left" (Fields [("room_id", r); ("user_id", u)])
                (OthersInRoom r) w2
          | None => w2
          end
        else w2
    | None => w
    end
  else w.

(** The loop of [handle_send_message] over [room.members]: a
    notification to the personal room of every member whose id text
    differs from the [user_id] of the payload. *)
Fixpoint notify (sid r u : string) (message : Message.t)
    (sender : option User.t) (members : list ObjectId) (w : world) : world :=
  match members with
  | [] => w
  | member_id :: rest =>
      let w1 :=
        if negb (String.eqb (str member_id) u)
        then emit sid "notification" (Notification r message sender)
               (InRoom ("user_" ++ str member_id)%string) w
        else w in
      notify sid r u message sender rest w1
  end.

(** [handle_send_message(data)]; the four arguments after [sid] are
    [data.get] of [room_id], [user_id], [content] and [message_type]. *)
Definition handle_send_message (sid : string)
    (room_id user_id content message_type : option string)
    (new_id : ObjectId) (now : Z) (w : world) : world :=
  let content :=
    Text.strip (match content with Some c => c | None => "" end) in
  if negb (truthy room_id) || negb (truthy user_id)
     || negb (truthy (Some content))
  then error sid "room_id, user_id, and content required" w
  else
    match room_id, user_id with
    | Some r, Some u =>
        match ObjectId_of u, ObjectId_of r with
        | Some uid, Some rid =>
            match RoomRepository.is_member r uid (rooms (store w)) with
            | None => w
            | Some false => error sid "Access denied" w
            | Some true =>
                let message :=
                  Message.mk new_id uid rid content
                    (match message_type with Some t => t | None => "text" end)
                    now [] in
                match MessageRepository.create message (messages (store w))
                with
                | None => w
                | Some (_, messages') =>
                    let d1 := set_messages messages' (store w) in
                    match UserRepository.find_by_id u (users d1) with
                    | None => with_store d1 w
                    | Some sender =>
                        match RoomRepository.update_last_message r
                                (Room.mk_preview (Text.prefix 100 content)
                                   (ChatMore.sender_name sender) now)
                                (rooms d1) with
                        | None => with_store d1 w
                        | Some rooms' =>
                            let d2 := set_rooms rooms' d1 in
                            let w1 :=
                              emit sid "new_message"
                                (NewMessage message sender) (InRoom r)
                                (with_store d2 w) in
                            match RoomRepository.find_by_id r (rooms d2) with
                            | Some (Some room) =>
                                notify sid r u message sender
                                  (Room.members room) w1
                            | _ => w1
                            end
                        end
                    end
                end
            end
        | _, _ => w
        end
    | _, _ => w
    end.

(** [handle_typing(data)]; [is_typing] is [data.get("is_typing")] and
    defaults to [True]. *)
Definition handle_typing (sid : string) (room_id user_id : option string)
    (is_typing : option bool) (w : world) : world :=
  if negb (truthy room_id) || negb (truthy user_id) then w
  else
    match room_id, user_id with
    | Some r, Some u =>
        match UserRepository.find_by_id u (users (store w)) with
        | None => w
        | Some user =>
            emit sid "user_typing"
              (Typing r u
                 (match user with
                  | Some usr => User.username usr
                  | None => "Unknown"
                  end)
                 (match is_typing with Some b => b | None => true end))
              (OthersInRoom r) w
        end
    | _, _ => w
    end.

End Handlers.

End Realtime.

Module Sessions.

(** Alice and Bob have their private room ([Examples.db_room]); Alice is
    connected with session [sid-a], Bob with [sid-b], and only Bob's
    session is in the chat room. *)
Definition online : Realtime.world :=
  Realtime.mk_world Examples.db_room
    [(Examples.alice, true); (Examples.bob, true)]
    [("sid-a", "sid-a"); ("sid-a", "user_aaaaaaaaaaaaaaaaaaaaaaaa");
     ("sid-b", "sid-b"); ("sid-b", "user_bbbbbbbbbbbbbbbbbbbbbbbb");
     ("sid-b", Examples.room1)]
    [].

(** Alice's session has connected and has not authenticated yet. *)
Definition connected : Realtime.world :=
  Realtime.mk_world Examples.db_room [] [("sid-a", "sid-a")] [].

End Sessions.

(* ================================================================== *)
(** * Facts about ids, arrays and collections *)
(* ================================================================== *)

Lemma oid_eqb_eq (a b : ObjectId) : oid_eqb a b = true <-> a = b.
Proof. unfold oid_eqb. apply String.eqb_eq. Qed.

Lemma oid_eqb_neq (a b : ObjectId) : oid_eqb a b = false <-> a <> b.
Proof. unfold oid_eqb. apply String.eqb_neq. Qed.

Lemma oid_eqb_refl (a : ObjectId) : oid_eqb a a = true.
Proof. unfold oid_eqb. apply String.eqb_refl. Qed.

Lemma oid_eqb_sym (a b : ObjectId) : oid_eqb a b = oid_eqb b a.
Proof. unfold oid_eqb. apply String.eqb_sym. Qed.

Lemma contains_In (v : ObjectId) (arr : list ObjectId) :
  Mongo.contains v arr = true <-> In v arr.
Proof.
  unfold Mongo.contains. rewrite existsb_exists. split.
  - intros [x [Hx He]]. apply oid_eqb_eq in He. now subst.
  - intros H. exists v. split; [assumption | apply oid_eqb_refl].
Qed.

Lemma contains_false (v : ObjectId) (arr : list ObjectId) :
  Mongo.contains v arr = false <-> ~ In v arr.
Proof.
  rewrite <- contains_In. destruct (Mongo.contains v arr); split;
    intros H; try congruence; try discriminate;
    try (exfalso; now apply H).
Qed.

Lemma addToSet_incl (v : ObjectId) (arr : list ObjectId) :
  incl arr (Mongo.addToSet v arr).
Proof.
  unfold Mongo.addToSet. destruct (Mongo.contains v arr).
  - apply incl_refl.
  - apply incl_appl, incl_refl.
Qed.

Lemma addToSet_In (v : ObjectId) (arr : list ObjectId) :
  In v (Mongo.addToSet v arr).
Proof.
  unfold Mongo.addToSet. destruct (Mongo.contains v arr) eqn:E.
  - now apply contains_In.
  - apply in_or_app. right. now left.
Qed.

Lemma addToSet_present (v : ObjectId) (arr : list ObjectId) :
  In v arr -> Mongo.addToSet v arr = arr.
Proof.
  intros H. unfold Mongo.addToSet.
  apply contains_In in H. now rewrite H.
Qed.

Lemma addToSet_idem (v : ObjectId) (arr : list ObjectId) :
  Mongo.addToSet v (Mongo.addToSet v arr) = Mongo.addToSet v arr.
Proof. apply addToSet_present, addToSet_In. Qed.

Section CollectionFacts.
Variable doc : Type.
Variable id_of : doc -> ObjectId.

Lemma insert_one_Some (d : doc) (c c' : list doc) :
  Mongo.insert_one id_of d c = Some c' ->
  c' = c ++ [d] /\ Design.fresh id_of (id_of d) c.
Proof.
  unfold Mongo.insert_one.
  destruct (existsb _ c) eqn:E; [discriminate | ].
  intros H. injection H as <-. split; [reflexivity | ].
  intros x Hx Heq.
  assert (existsb (fun y => oid_eqb (id_of y) (id_of d)) c = true) as Hc.
  { apply existsb_exists. exists x. split; [assumption | ].
    now apply oid_eqb_eq. }
  congruence.
Qed.

Lemma insert_one_fresh (d : doc) (c : list doc) :
  Design.fresh id_of (id_of d) c ->
  Mongo.insert_one id_of d c = Some (c ++ [d]).
Proof.
  intros Hf. unfold Mongo.insert_one.
  destruct (existsb _ c) eqn:E; [ | reflexivity].
  apply existsb_exists in E. destruct E as [x [Hx He]].
  apply oid_eqb_eq in He. exfalso. exact (Hf x Hx He).
Qed.

Lemma find_one_app_new (q : doc -> bool) (c : list doc) (d : doc) :
  (forall x, In x c -> q x = false) -> q d = true ->
  Mongo.find_one q (c ++ [d]) = Some d.
Proof.
  unfold Mongo.find_one. induction c as [ | x r IH]; simpl; intros Hn Hd.
  - now rewrite Hd.
  - rewrite (Hn x (or_introl eq_refl)). apply IH; auto.
Qed.

Lemma find_one_app_old (q : doc -> bool) (c l : list doc) (d : doc) :
  Mongo.find_one q c = Some d -> Mongo.find_one q (c ++ l) = Some d.
Proof.
  unfold Mongo.find_one. induction c as [ | x r IH]; simpl; [discriminate | ].
  destruct (q x); auto.
Qed.

Lemma find_one_None (q : doc -> bool) (c : list doc) :
  Mongo.find_one q c = None <-> (forall x, In x c -> q x = false).
Proof.
  unfold Mongo.find_one. split.
  - intros H x Hx. exact (find_none q c H x Hx).
  - induction c as [ | x r IH]; simpl; intros H; [reflexivity | ].
    rewrite (H x (or_introl eq_refl)). apply IH. intros y Hy. apply H. now right.
Qed.

Lemma find_one_Some (q : doc -> bool) (c : list doc) (d : doc) :
  Mongo.find_one q c = Some d -> In d c /\ q d = true.
Proof. unfold Mongo.find_one. apply find_some. Qed.

Lemma find_one_exists (q : doc -> bool) (c : list doc) (d : doc) :
  In d c -> q d = true -> exists d', Mongo.find_one q c = Some d'.
Proof.
  intros Hin Hq. destruct (Mongo.find_one q c) as [d' | ] eqn:E.
  - now exists d'.
  - rewrite find_one_None in E. rewrite (E d Hin) in Hq. discriminate.
Qed.

Lemma find_one_ext (q q' : doc -> bool) (c : list doc) :
  (forall x, q x = q' x) -> Mongo.find_one q c = Mongo.find_one q' c.
Proof.
  intros H. unfold Mongo.find_one. induction c as [ | x r IH]; simpl; auto.
  rewrite <- H. destruct (q x); auto.
Qed.

Lemma count_documents_app (q : doc -> bool) (c l : list doc) :
  Mongo.count_documents q (c ++ l)
  = Mongo.count_documents q c + Mongo.count_documents q l.
Proof.
  unfold Mongo.count_documents. now rewrite filter_app, length_app.
Qed.

Lemma count_documents_zero (q : doc -> bool) (c : list doc) :
  (forall x, In x c -> q x = false) -> Mongo.count_documents q c = 0.
Proof.
  unfold Mongo.count_documents. induction c as [ | x r IH]; simpl; intros H.
  - reflexivity.
  - rewrite (H x (or_introl eq_refl)). apply IH. intros y Hy. apply H. now right.
Qed.

Lemma count_documents_ext (q q' : doc -> bool) (c : list doc) :
  (forall x, q x = q' x) ->
  Mongo.count_documents q c = Mongo.count_documents q' c.
Proof.
  intros H. unfold Mongo.count_documents. f_equal. now apply filter_ext.
Qed.

(** Rewriting the first match does not change how many documents satisfy
    [p], when the rewrite keeps [p] on that document. *)
Lemma count_documents_update_one (q p : doc -> bool) (upd : doc -> doc)
    (c : list doc) (d : doc) :
  Mongo.find_one q c = Some d -> p (upd d) = p d ->
  Mongo.count_documents p (Mongo.update_one q upd c)
  = Mongo.count_documents p c.
Proof.
  unfold Mongo.find_one, Mongo.count_documents.
  induction c as [ | x r IH]; simpl; [discriminate | ].
  destruct (q x) eqn:E.
  - intros H Hp. injection H as ->. simpl. rewrite Hp.
    destruct (p d); reflexivity.
  - intros H Hp. simpl. destruct (p x); simpl; rewrite IH; auto.
Qed.

Lemma update_one_nth (q : doc -> bool) (upd : doc -> doc) (c : list doc)
    (i : nat) (d : doc) :
  nth_error c i = Some d ->
  nth_error (Mongo.update_one q upd c) i = Some d
  \/ (q d = true /\ nth_error (Mongo.update_one q upd c) i = Some (upd d)).
Proof.
  revert i. induction c as [ | x r IH]; intros [ | i]; simpl;
    try discriminate.
  - intros H. injection H as ->. destruct (q d) eqn:E; simpl; auto.
  - intros H. destruct (q x); simpl; auto.
Qed.

Lemma update_one_find (q : doc -> bool) (upd : doc -> doc) (c : list doc)
    (d : doc) :
  Mongo.find_one q c = Some d -> q (upd d) = true ->
  Mongo.find_one q (Mongo.update_one q upd c) = Some (upd d).
Proof.
  unfold Mongo.find_one. induction c as [ | x r IH]; simpl; [discriminate | ].
  destruct (q x) eqn:E.
  - intros H Hq. injection H as ->. simpl. now rewrite Hq.
  - intros H Hq. simpl. rewrite E. auto.
Qed.

Lemma update_one_idem (q : doc -> bool) (upd : doc -> doc) (c : list doc) :
  (forall x, q x = true -> q (upd x) = true) ->
  (forall x, upd (upd x) = upd x) ->
  Mongo.update_one q upd (Mongo.update_one q upd c) = Mongo.update_one q upd c.
Proof.
  intros Hq Hu. induction c as [ | x r IH]; simpl; [reflexivity | ].
  destruct (q x) eqn:E; simpl.
  - rewrite (Hq x E). now rewrite Hu.
  - rewrite E. now rewrite IH.
Qed.

Lemma update_one_In_other (q p : doc -> bool) (upd : doc -> doc)
    (c : list doc) (d x : doc) :
  Mongo.find_one q c = Some d -> p d = false -> In x c -> p x = true ->
  In x (Mongo.update_one q upd c).
Proof.
  unfold Mongo.find_one. induction c as [ | y r IH]; simpl; [discriminate | ].
  destruct (q y) eqn:E.
  - intros H Hp [-> | Hin] Hx.
    + injection H as ->. congruence.
    + now right.
  - intros H Hp [-> | Hin] Hx.
    + now left.
    + right. now apply IH.
Qed.

End CollectionFacts.

(* ================================================================== *)
(** * Message log: unread counts and read receipts *)
(* ================================================================== *)

Lemma unread_filter_spec (room user : ObjectId) (m : Message.t) :
  (oid_eqb (Message.room_id m) room
   && Mongo.ne_array user (Message.read_by m)
   && negb (oid_eqb (Message.sender_id m) user))
  = (if Design.unread_dec room user m then true else false).
Proof.
  destruct (Design.unread_dec room user m) as [[Hr [Hs Hi]] | Hn].
  - apply oid_eqb_eq in Hr. apply oid_eqb_neq in Hs.
    apply contains_false in Hi.
    unfold Mongo.ne_array. now rewrite Hr, Hs, Hi.
  - destruct (oid_eqb (Message.room_id m) room) eqn:Er; [ | reflexivity].
    unfold Mongo.ne_array.
    destruct (Mongo.contains user (Message.read_by m)) eqn:Ec;
      [reflexivity | ].
    destruct (oid_eqb (Message.sender_id m) user) eqn:Es; [reflexivity | ].
    exfalso. apply Hn. unfold Design.unread.
    apply oid_eqb_eq in Er. apply oid_eqb_neq in Es.
    apply contains_false in Ec. auto.
Qed.

Lemma marked_room_message_is_read (room user : ObjectId)
    (c : MessageRepository.collection) (m : Message.t) :
  In m (MessageRepository.mark_room_messages_as_read room user c) ->
  Message.room_id m = room -> In user (Message.read_by m).
Proof.
  unfold MessageRepository.mark_room_messages_as_read, Mongo.update_many.
  rewrite in_map_iff. intros [x [Hx Hin]] Hroom.
  destruct (oid_eqb (Message.room_id x) room
            && Mongo.ne_array user (Message.read_by x)) eqn:E.
  - subst m. simpl. apply addToSet_In.
  - subst m. apply oid_eqb_eq in Hroom. rewrite Hroom in E. simpl in E.
    unfold Mongo.ne_array in E.
    destruct (Mongo.contains user (Message.read_by x)) eqn:Ec;
      [ | discriminate].
    now apply contains_In.
Qed.

(** C5.  [get_unread_count] is the number of messages of the room that
    were written by someone else and do not list the user among their
    readers; a message the user wrote never adds to the user's count; and
    right after [mark_room_messages_as_read] the count for that room and
    user is 0. *)
Theorem unread_count_spec
    (room user : ObjectId) (c : MessageRepository.collection) :
  MessageRepository.get_unread_count room user c
    = Design.unreadCount room user c
  /\ (forall m, Message.sender_id m = user ->
        MessageRepository.get_unread_count room user (c ++ [m])
        = MessageRepository.get_unread_count room user c)
  /\ MessageRepository.get_unread_count room user
       (MessageRepository.mark_room_messages_as_read room user c) = 0.
Proof.
  split; [ | split].
  - unfold MessageRepository.get_unread_count, Design.unreadCount,
      Mongo.count_documents.
    f_equal. apply filter_ext. intros m. apply unread_filter_spec.
  - intros m Hs. unfold MessageRepository.get_unread_count.
    rewrite count_documents_app. unfold Mongo.count_documents at 2. simpl.
    apply oid_eqb_eq in Hs. rewrite Hs.
    rewrite andb_false_r. simpl. lia.
  - unfold MessageRepository.get_unread_count.
    apply count_documents_zero. intros m Hin.
    destruct (oid_eqb (Message.room_id m) room) eqn:Er; [ | reflexivity].
    apply oid_eqb_eq in Er.
    pose proof (@marked_room_message_is_read _ _ _ _ Hin Er) as Hread.
    apply contains_In in Hread. unfold Mongo.ne_array.
    now rewrite Hread.
Qed.

Lemma create_nth (m : Message.t) (c c' : MessageRepository.collection)
    (i : nat) (x : Message.t) :
  option_map snd (MessageRepository.create m c) = Some c' ->
  nth_error c i = Some x -> nth_error c' i = Some x.
Proof.
  unfold MessageRepository.create.
  destruct (Mongo.insert_one Message._id m c) as [c1 | ] eqn:E;
    [ | discriminate].
  simpl. intros H Hn. injection H as <-.
  apply insert_one_Some in E. destruct E as [-> _].
  rewrite nth_error_app1; [assumption | ].
  apply nth_error_Some. congruence.
Qed.

Lemma mark_room_nth (room user : ObjectId)
    (c : MessageRepository.collection) (i : nat) (x : Message.t) :
  nth_error c i = Some x ->
  nth_error (MessageRepository.mark_room_messages_as_read room user c) i
  = Some (if oid_eqb (Message.room_id x) room
             && Mongo.ne_array user (Message.read_by x)
          then Message.set_read_by (Mongo.addToSet user) x else x).
Proof.
  intros H. unfold MessageRepository.mark_room_messages_as_read,
    Mongo.update_many.
  rewrite nth_error_map, H. reflexivity.
Qed.

Import Design.

Lemma grows_refl (m : Message.t) : grows m m.
Proof. unfold grows. repeat split; apply incl_refl. Qed.

Lemma grows_addToSet (u : ObjectId) (m : Message.t) :
  grows m (Message.set_read_by (Mongo.addToSet u) m).
Proof. unfold grows. simpl. repeat split. apply addToSet_incl. Qed.

Create HintDb msglog.
#[local] Hint Resolve grows_refl grows_addToSet : msglog.

Lemma run_grows (op : Design.log_op) (c c' : MessageRepository.collection) :
  Design.run op c = Some c' ->
  forall i m, nth_error c i = Some m ->
    exists m', nth_error c' i = Some m' /\ grows m m'.
Proof.
  destruct op as [msg | mid u | room u]; simpl; intros Hrun i m Hn.
  - exists m. split; [ | auto with msglog].
    eapply create_nth; eassumption.
  - unfold MessageRepository.mark_as_read in Hrun.
    destruct (ObjectId_of mid) as [oid | ]; [ | discriminate].
    injection Hrun as <-.
    destruct (@update_one_nth _ (fun x => oid_eqb (Message._id x) oid)
                (Message.set_read_by (Mongo.addToSet u)) c i m Hn)
      as [H | [_ H]]; rewrite H; eauto with msglog.
  - injection Hrun as <-. rewrite (@mark_room_nth room u c i m Hn).
    destruct (oid_eqb (Message.room_id m) room
              && Mongo.ne_array u (Message.read_by m));
      eauto with msglog.
Qed.

(** C8.  Under every writing operation of the message log each stored
    message keeps its place and identity and its [read_by] only gains
    members.  [mark_as_read] puts the user into the [read_by] of the
    message with that id, and marking again changes nothing;
    [mark_room_messages_as_read] leaves every message that already lists
    the user exactly as it was. *)
Theorem read_by_only_grows
    (c : MessageRepository.collection) (user : ObjectId) :
  (forall op c', Design.run op c = Some c' ->
     forall i m, nth_error c i = Some m ->
       exists m', nth_error c' i = Some m' /\ grows m m')
  /\ (forall mid oid m, ObjectId_of mid = Some oid ->
        Mongo.find_one (fun x => oid_eqb (Message._id x) oid) c = Some m ->
        exists c' m',
          MessageRepository.mark_as_read mid user c = Some c'
          /\ Mongo.find_one (fun x => oid_eqb (Message._id x) oid) c' = Some m'
          /\ In user (Message.read_by m')
          /\ MessageRepository.mark_as_read mid user c' = Some c')
  /\ (forall room i m, nth_error c i = Some m ->
        In user (Message.read_by m) ->
        nth_error (MessageRepository.mark_room_messages_as_read room user c) i
        = Some m).
Proof.
  split; [ | split].
  - intros op c' Hrun. exact (@run_grows op c c' Hrun).
  - intros mid oid m Hoid Hfind.
    unfold MessageRepository.mark_as_read. rewrite Hoid.
    eexists. eexists. split; [reflexivity | ].
    split; [ | split].
    + apply update_one_find; [exact Hfind | ].
      simpl. now apply find_one_Some in Hfind.
    + simpl. apply addToSet_In.
    + f_equal. apply update_one_idem.
      * intros x Hx. exact Hx.
      * intros x. unfold Message.set_read_by. simpl.
        now rewrite addToSet_idem.
  - intros room i m Hn Hin. rewrite (@mark_room_nth room user c i m Hn).
    apply contains_In in Hin. unfold Mongo.ne_array. rewrite Hin.
    now rewrite andb_false_r.
Qed.

(* ================================================================== *)
(** * Message log: pagination *)
(* ================================================================== *)

Lemma firstn_plus (A : Type) (a b : nat) (l : list A) :
  firstn (a + b) l = firstn a l ++ firstn b (skipn a l).
Proof.
  revert l. induction a as [ | a IH]; intros l; simpl; [reflexivity | ].
  destruct l as [ | x r]; simpl.
  - now rewrite firstn_nil.
  - now rewrite IH.
Qed.

Lemma limit_positive (A : Type) (n : nat) (l : list A) :
  0 < n -> Mongo.limit (Z.of_nat n) l = firstn n l.
Proof.
  intros Hn. unfold Mongo.limit.
  destruct (Z.of_nat n =? 0)%Z eqn:E.
  - apply Z.eqb_eq in E. lia.
  - rewrite Z.abs_eq by lia. now rewrite Nat2Z.id.
Qed.

Lemma skip_nat (A : Type) (n : nat) (l : list A) :
  Mongo.skip (Z.of_nat n) l = Some (skipn n l).
Proof.
  unfold Mongo.skip. destruct (Z.of_nat n <? 0)%Z eqn:E.
  - apply Z.ltb_lt in E. lia.
  - now rewrite Nat2Z.id.
Qed.

(** C4 (as the code has it).  For a positive [limit] and any [offset],
    [find_by_room] returns the window the document describes: newest
    first, [offset] skipped, [limit] taken, reversed to chronological
    order.  Two consecutive pages of the same size join without overlap
    or gap: the older page followed by the newer one is the chronological
    listing of the [2 * limit] most recent messages. *)
Theorem find_by_room_window
    (room : ObjectId) (limit offset : nat)
    (c : MessageRepository.collection) (Hlimit : 0 < limit) :
  MessageRepository.find_by_room room (Z.of_nat limit) (Z.of_nat offset) c
    = Some (Design.page room limit offset c)
  /\ (forall older newer,
        MessageRepository.find_by_room room (Z.of_nat limit)
          (Z.of_nat limit) c = Some older ->
        MessageRepository.find_by_room room (Z.of_nat limit) 0%Z c
          = Some newer ->
        older ++ newer
        = rev (firstn (limit + limit)
                 (Mongo.sort_desc Message.created_at
                    (filter (fun m => oid_eqb (Message.room_id m) room) c)))).
Proof.
  assert (forall off,
            MessageRepository.find_by_room room (Z.of_nat limit)
              (Z.of_nat off) c
            = Some (Design.page room limit off c)) as Hwin.
  { intros off. unfold MessageRepository.find_by_room, Design.page, Mongo.find.
    rewrite skip_nat. now rewrite limit_positive. }
  split; [apply Hwin | ].
  intros older newer Ho Hn.
  rewrite Hwin in Ho. change 0%Z with (Z.of_nat 0) in Hn. rewrite Hwin in Hn.
  injection Ho as <-. injection Hn as <-.
  unfold Design.page. simpl skipn.
  rewrite <- rev_app_distr. now rewrite <- firstn_plus.
Qed.

(* ================================================================== *)
(** * Object ids and the canonical order of a pair *)
(* ================================================================== *)

Lemma lower_is_hex (c : ascii) :
  is_hex c = true -> is_hex (lower c) = true /\ lower (lower c) = lower c.
Proof.
  destruct c as [[] [] [] [] [] [] [] []]; vm_compute; intros H;
    (discriminate H || (split; reflexivity)).
Qed.

Lemma lowercase_length (s : string) :
  String.length (lowercase s) = String.length s.
Proof. induction s as [ | c r IH]; simpl; congruence. Qed.

Lemma lowercase_hex (s : string) :
  all_hex s = true ->
  all_hex (lowercase s) = true /\ lowercase (lowercase s) = lowercase s.
Proof.
  induction s as [ | c r IH]; simpl; [auto | ].
  intros H. apply andb_true_iff in H. destruct H as [Hc Hr].
  destruct (lower_is_hex c Hc) as [H1 H2]. destruct (IH Hr) as [H3 H4].
  rewrite H1, H2, H3, H4. auto.
Qed.

(** Whatever [ObjectId] returns reads back as itself and is not empty. *)
Lemma ObjectId_of_well_formed (s : string) (o : ObjectId) :
  ObjectId_of s = Some o -> well_formed o /\ truthy (Some o) = true.
Proof.
  unfold well_formed, ObjectId_of, str.
  destruct (String.length s =? 24) eqn:El; [ | discriminate].
  destruct (all_hex s) eqn:Eh; [ | discriminate].
  simpl. intros H. injection H as <-.
  destruct (lowercase_hex s Eh) as [H1 H2].
  rewrite lowercase_length, El, H1, H2. split; [reflexivity | ].
  apply Nat.eqb_eq in El. destruct s; simpl in *; [discriminate | reflexivity].
Qed.

Lemma validate_of (s : string) (o : ObjectId) :
  ObjectId_of s = Some o -> validate_object_id s = true.
Proof. unfold validate_object_id. now intros ->. Qed.

Lemma str_lt_asym (a b : ObjectId) : str_lt a b = true -> str_lt b a = false.
Proof.
  unfold str_lt, String.ltb, str. rewrite (String.compare_antisym b a).
  destruct (String.compare a b); simpl; congruence.
Qed.

Lemma str_lt_total (a b : ObjectId) :
  a <> b -> str_lt a b = false -> str_lt b a = true.
Proof.
  unfold str_lt, String.ltb, str. intros Hne.
  rewrite (String.compare_antisym b a).
  destruct (String.compare a b) eqn:E; simpl; try congruence.
  apply String.compare_eq_iff in E. contradiction.
Qed.

(** The "consistent ordering" does not depend on the argument order. *)
Lemma ordered_sym (a b : ObjectId) :
  FriendshipRepository.ordered a b = FriendshipRepository.ordered b a.
Proof.
  unfold FriendshipRepository.ordered.
  destruct (string_dec a b) as [-> | Hne]; [reflexivity | ].
  destruct (str_lt a b) eqn:E.
  - now rewrite (str_lt_asym a b E).
  - now rewrite (str_lt_total Hne E).
Qed.

Lemma init_ordered (a b id : ObjectId) (now : Z) :
  (Friendship.user1_id (Friendship.init a b id now),
   Friendship.user2_id (Friendship.init a b id now))
  = FriendshipRepository.ordered a b.
Proof.
  unfold Friendship.init, FriendshipRepository.ordered.
  destruct (str_lt a b); reflexivity.
Qed.

(** The constructor builds the same row whichever way the pair is given. *)
Lemma init_sym (a b id : ObjectId) (now : Z) :
  Friendship.init a b id now = Friendship.init b a id now.
Proof.
  pose proof (init_ordered a b id now) as H1.
  pose proof (init_ordered b a id now) as H2.
  rewrite (ordered_sym b a) in H2.
  unfold Friendship.init in *.
  destruct (str_lt a b), (str_lt b a); simpl in *; congruence.
Qed.

Lemma pair_filter_init (a b id : ObjectId) (now : Z) :
  FriendshipRepository.pair_filter (FriendshipRepository.ordered a b)
    (Friendship.init a b id now) = true.
Proof.
  unfold FriendshipRepository.pair_filter.
  rewrite <- (init_ordered a b id now). simpl.
  now rewrite !oid_eqb_refl.
Qed.

Lemma pair_filter_row (a b : ObjectId) (f : Friendship.t) :
  FriendshipRepository.pair_filter (FriendshipRepository.ordered a b) f = true
  <-> row_of a b f.
Proof.
  split.
  - unfold FriendshipRepository.pair_filter. intros H.
    apply andb_true_iff in H. destruct H as [H1 H2].
    apply oid_eqb_eq in H1. apply oid_eqb_eq in H2.
    exists (Friendship._id f), (Friendship.created_at f).
    destruct f as [id u1 u2 t]. simpl in *. subst.
    unfold Friendship.init, FriendshipRepository.ordered.
    destruct (str_lt a b); reflexivity.
  - intros [id [now ->]]. apply pair_filter_init.
Qed.

Lemma find_friendship_sym (a b : ObjectId)
    (c : FriendshipRepository.collection) :
  FriendshipRepository.find_friendship a b c
  = FriendshipRepository.find_friendship b a c.
Proof.
  unfold FriendshipRepository.find_friendship. now rewrite (ordered_sym a b).
Qed.

Lemma are_friends_sym (a b : ObjectId) (c : FriendshipRepository.collection) :
  FriendshipRepository.are_friends a b c
  = FriendshipRepository.are_friends b a c.
Proof.
  unfold FriendshipRepository.are_friends. now rewrite find_friendship_sym.
Qed.

Lemma delete_friendship_sym (a b : ObjectId)
    (c : FriendshipRepository.collection) :
  FriendshipRepository.delete_friendship a b c
  = FriendshipRepository.delete_friendship b a c.
Proof.
  unfold FriendshipRepository.delete_friendship. now rewrite (ordered_sym a b).
Qed.

(** [are_friends] answers whether a row for the unordered pair is stored. *)
Lemma are_friends_iff (a b : ObjectId) (c : FriendshipRepository.collection) :
  FriendshipRepository.are_friends a b c = true <-> friendship_exists a b c.
Proof.
  unfold FriendshipRepository.are_friends,
    FriendshipRepository.find_friendship, friendship_exists.
  split.
  - destruct (Mongo.find_one _ c) as [f | ] eqn:E; simpl; [ | discriminate].
    intros _. apply find_one_Some in E. destruct E as [Hin Hq].
    exists f. split; [assumption | left]. now apply pair_filter_row.
  - intros [f [Hin Hrow]].
    assert (FriendshipRepository.pair_filter
              (FriendshipRepository.ordered a b) f = true) as Hq.
    { destruct Hrow as [H | H].
      - now apply pair_filter_row.
      - rewrite ordered_sym. now apply pair_filter_row. }
    destruct (find_one_exists _ _ _ Hin Hq) as [f' Hf']. now rewrite Hf'.
Qed.

(* ================================================================== *)
(** * Friend graph *)
(* ================================================================== *)

(** A request is stored only after every check has passed. *)
Lemma send_friend_request_created
    (a : string) (b : option string) (new_id : ObjectId) (now : Z) (d d1 : db)
    (msg request_id : string) (code : nat) :
  Friends.send_friend_request a b new_id now d
    = (Response (RequestBody msg request_id) code, d1) ->
  exists A B tb,
    b = Some tb /\ ObjectId_of a = Some A /\ ObjectId_of tb = Some B
    /\ request_id = str new_id
    /\ fresh FriendRequest._id new_id (friend_requests d)
    /\ d1 = set_friend_requests
              (friend_requests d
               ++ [FriendRequest.mk new_id A B "pending" now now]) d.
Proof.
  unfold Friends.send_friend_request.
  destruct (ObjectId_of a) as [A | ] eqn:EA; [ | discriminate].
  destruct b as [tb | ]; [ | discriminate].
  destruct (negb (truthy (Some tb)) || negb (validate_object_id tb));
    [discriminate | ].
  destruct (ObjectId_of tb) as [B | ] eqn:EB; [ | discriminate].
  destruct (oid_eqb A B); [discriminate | ].
  destruct (UserRepository.find_by_id (str B) (users d)) as [[u | ] | ];
    try discriminate.
  destruct (FriendshipRepository.are_friends A B (friendships d));
    [discriminate | ].
  destruct (FriendRequestRepository.find_existing_request A B
              (friend_requests d)) as [r | ].
  { destruct (String.eqb _ _); discriminate. }
  unfold FriendRequestRepository.create.
  destruct (Mongo.insert_one FriendRequest._id _ (friend_requests d))
    as [reqs' | ] eqn:E; [ | discriminate].
  intros H. injection H as _ <- _ <-.
  apply insert_one_Some in E. destruct E as [-> Hf].
  exists A, B, tb. simpl in Hf. repeat split; assumption.
Qed.

(** C2.  After [send_friend_request] from [a] to [b] succeeded and [b]
    accepts the request, [are_friends] holds in both argument orders.
    Creation, lookup and deletion all order the pair by the same
    comparison, so each of them gives the same result whichever way the
    pair is passed. *)
Theorem friendship_symmetric_after_accept
    (d d1 : db) (a b : string) (A B request_new friendship_new : ObjectId)
    (now1 now2 : Z) (msg request_id : string)
    (HA : ObjectId_of a = Some A) (HB : ObjectId_of b = Some B)
    (Hrequest : well_formed request_new)
    (Hfriendship : fresh Friendship._id friendship_new (friendships d))
    (Hsent : Friends.send_friend_request a (Some b) request_new now1 d
             = (Response (RequestBody msg request_id) 201, d1)) :
  (exists friendship_id d2,
     Friends.accept_friend_request b request_id friendship_new now2 d1
       = (Response (FriendshipBody "Friend request accepted" friendship_id)
            200, d2)
     /\ FriendshipRepository.are_friends A B (friendships d2) = true
     /\ FriendshipRepository.are_friends B A (friendships d2) = true)
  /\ (forall x y id now c,
        Friendship.init x y id now = Friendship.init y x id now
        /\ FriendshipRepository.find_friendship x y c
           = FriendshipRepository.find_friendship y x c
        /\ FriendshipRepository.delete_friendship x y c
           = FriendshipRepository.delete_friendship y x c).
Proof.
  split.
  2: { intros x y id now c. split; [apply init_sym | ].
       split; [apply find_friendship_sym | apply delete_friendship_sym]. }
  apply send_friend_request_created in Hsent.
  destruct Hsent as [A' [B' [tb [Htb [HA' [HB' [Hid [Hfresh Hd1]]]]]]]].
  injection Htb as <-. rewrite HA in HA'. rewrite HB in HB'.
  injection HA' as <-. injection HB' as <-. subst request_id d1.
  unfold Friends.accept_friend_request, Friends.pending_request_of.
  rewrite HB. rewrite (validate_of _ Hrequest). simpl negb. cbv iota.
  unfold FriendRequestRepository.find_by_id. rewrite Hrequest. simpl friend_requests.
  rewrite (@find_one_app_new _
             (fun r => oid_eqb (FriendRequest._id r) request_new)
             (friend_requests d)
             (FriendRequest.mk request_new A B "pending" now1 now1)).
  2: { intros x Hx. apply oid_eqb_neq. now apply Hfresh. }
  2: { simpl. apply oid_eqb_refl. }
  simpl FriendRequest.to_user_id. rewrite oid_eqb_refl. simpl.
  unfold FriendshipRepository.create.
  rewrite (@insert_one_fresh _ Friendship._id
             (Friendship.init A B friendship_new now2) (friendships d)).
  2: { unfold Friendship.init. destruct (str_lt A B); exact Hfriendship. }
  unfold FriendRequestRepository.update_status. rewrite Hrequest. simpl.
  eexists. eexists. split; [reflexivity | ]. simpl.
  assert (FriendshipRepository.are_friends A B
            (friendships d ++ [Friendship.init A B friendship_new now2])
          = true) as Hab.
  { apply are_friends_iff. exists (Friendship.init A B friendship_new now2).
    split.
    - apply in_or_app. right. now left.
    - left. now exists friendship_new, now2. }
  split; [exact Hab | ]. now rewrite are_friends_sym.
Qed.

Lemma user_found (u : ObjectId) (c : UserRepository.collection) :
  well_formed u -> user_exists u c ->
  exists usr, UserRepository.find_by_id (str u) c = Some (Some usr).
Proof.
  intros Hwf [usr [Hin Hid]]. unfold UserRepository.find_by_id.
  rewrite Hwf.
  destruct (@find_one_exists _ (fun x => oid_eqb (User._id x) u) c usr Hin)
    as [usr' Hf].
  - now apply oid_eqb_eq.
  - exists usr'. now rewrite Hf.
Qed.

Lemma pending_found (a b : ObjectId) (c : FriendRequestRepository.collection) :
  pending_between a b c ->
  exists r, FriendRequestRepository.find_existing_request a b c = Some r.
Proof.
  intros [r [Hin [Hst Hdir]]].
  unfold FriendRequestRepository.find_existing_request.
  apply (@find_one_exists _ _ c r Hin).
  unfold FriendRequestRepository.existing_request_filter.
  rewrite Hst. rewrite String.eqb_refl.
  destruct Hdir as [[-> ->] | [-> ->]]; rewrite !oid_eqb_refl; simpl.
  - reflexivity.
  - now rewrite orb_true_r.
Qed.

(** C6.  [send_friend_request] checks, in this order: a request to
    oneself is refused (400); when a friendship row for the pair exists it
    is refused as already friends (409); when a pending request exists
    between the two in either direction it is refused with 409, as a
    duplicate request unless the two are friends already.  In each case
    the database is left as it was and no request is stored. *)
Theorem send_friend_request_refusals
    (d : db) (from to : string) (F T : ObjectId) (new_id : ObjectId) (now : Z)
    (HF : ObjectId_of from = Some F) (HT : ObjectId_of to = Some T) :
  (F = T ->
     Friends.send_friend_request from (Some to) new_id now d
     = (Response (Error "Cannot send friend request to yourself") 400, d))
  /\ (F <> T -> user_exists T (users d) ->
      friendship_exists F T (friendships d) ->
      Friends.send_friend_request from (Some to) new_id now d
      = (Response (Error "You are already friends with this user") 409, d))
  /\ (F <> T -> user_exists T (users d) ->
      pending_between F T (friend_requests d) ->
      exists error,
        Friends.send_friend_request from (Some to) new_id now d
          = (Response (Error error) 409, d)
        /\ (~ friendship_exists F T (friendships d) ->
            error = "Friend request already sent"
            \/ error = "This user has already sent you a friend request")).
Proof.
  destruct (ObjectId_of_well_formed _ HT) as [HwfT _].
  assert (truthy (Some to) = true) as Htruthy.
  { unfold ObjectId_of in HT.
    destruct (String.length to =? 24) eqn:El; [ | discriminate].
    apply Nat.eqb_eq in El. destruct to; simpl in *; [discriminate | reflexivity]. }
  unfold Friends.send_friend_request.
  rewrite HF, Htruthy, (validate_of _ HT), HT. simpl negb. simpl orb. cbv iota.
  split; [ | split].
  - intros ->. now rewrite oid_eqb_refl.
  - intros Hne [usr Hu] Hfr.
    apply oid_eqb_neq in Hne. rewrite Hne.
    destruct (user_found HwfT (ex_intro _ usr Hu)) as [usr' ->].
    apply are_friends_iff in Hfr. now rewrite Hfr.
  - intros Hne [usr Hu] Hp.
    apply oid_eqb_neq in Hne. rewrite Hne.
    destruct (user_found HwfT (ex_intro _ usr Hu)) as [usr' ->].
    destruct (FriendshipRepository.are_friends F T (friendships d)) eqn:Ef.
    { eexists. split; [reflexivity | ]. intros Hnf. exfalso.
      apply Hnf. now apply are_friends_iff. }
    destruct (pending_found Hp) as [r ->].
    destruct (String.eqb _ _); eexists; (split; [reflexivity | auto]).
Qed.

(* ================================================================== *)
(** * Room directory: creation *)
(* ================================================================== *)

Lemma private_room_filter_sym (a b : ObjectId) (r : Room.t) :
  RoomRepository.private_room_filter a b r
  = RoomRepository.private_room_filter b a r.
Proof.
  unfold RoomRepository.private_room_filter, Mongo.all. simpl.
  rewrite !andb_true_r.
  now rewrite (andb_comm (Mongo.contains a _)).
Qed.

Lemma find_private_room_sym (a b : ObjectId) (c : RoomRepository.collection) :
  RoomRepository.find_private_room a b c
  = RoomRepository.find_private_room b a c.
Proof.
  unfold RoomRepository.find_private_room. apply find_one_ext.
  intros r. apply private_room_filter_sym.
Qed.

Lemma private_room_filter_new (a b id creator : ObjectId)
    (name : option string) (now : Z) :
  RoomRepository.private_room_filter a b
    (Room.mk id name "private" [a; b] creator now None) = true.
Proof.
  unfold RoomRepository.private_room_filter, Mongo.all, Mongo.contains,
    Mongo.size. simpl.
  rewrite !oid_eqb_refl. simpl. now rewrite orb_true_r.
Qed.

(** What [create_room] does with a request for a private room with one
    valid other member. *)
Lemma create_room_private (d : db) (a b : string) (A B : ObjectId)
    (data : Chat.create_room_data) (id : ObjectId) (now : Z) :
  ObjectId_of a = Some A -> ObjectId_of b = Some B -> private_with b data ->
  Chat.create_room a data id now d
  = if FriendshipRepository.are_friends A B (friendships d)
    then
      match RoomRepository.find_private_room A B (rooms d) with
      | Some room => (Response (RoomBody room "Room already exists") 200, d)
      | None =>
          match RoomRepository.create
                  (Room.mk id (Chat.d_name data) "private" [A; B] A now None)
                  (rooms d) with
          | Some (_, rooms') =>
              (Response
                 (RoomBody
                    (Room.mk id (Chat.d_name data) "private" [A; B] A now None)
                    "Room created successfully") 201,
               set_rooms rooms' d)
          | None => (Raised, d)
          end
      end
    else
      (Response
         (Error ("You can only create rooms with your friends. You are not friends with "
                 ++ Chat.member_name b d ++ ".")%string) 403, d).
Proof.
  intros HA HB [Htype Hmembers]. unfold Chat.create_room.
  rewrite Htype, Hmembers, HA. simpl.
  rewrite (validate_of _ HB), HB.
  destruct (FriendshipRepository.are_friends A B (friendships d));
    reflexivity.
Qed.

(** Once the pair are friends and their private room is the one
    [find_private_room] returns, a request in either role is answered
    with that room and stores nothing. *)
Lemma create_room_existing (d : db) (a b : string) (A B : ObjectId)
    (data2 data3 : Chat.create_room_data) (id2 id3 : ObjectId) (t2 t3 : Z)
    (room : Room.t) :
  ObjectId_of a = Some A -> ObjectId_of b = Some B ->
  private_with b data2 -> private_with a data3 ->
  FriendshipRepository.are_friends A B (friendships d) = true ->
  RoomRepository.find_private_room A B (rooms d) = Some room ->
  Chat.create_room a data2 id2 t2 d
    = (Response (RoomBody room "Room already exists") 200, d)
  /\ Chat.create_room b data3 id3 t3 d
     = (Response (RoomBody room "Room already exists") 200, d).
Proof.
  intros HA HB H2 H3 Hfr Hfind. split.
  - rewrite (@create_room_private d a b A B data2 id2 t2 HA HB H2).
    now rewrite Hfr, Hfind.
  - rewrite (@create_room_private d b a B A data3 id3 t3 HB HA H3).
    rewrite are_friends_sym, find_private_room_sym. now rewrite Hfr, Hfind.
Qed.

(** C3.  For two friends, a request for their private room succeeds, and
    asking again for the same pair, with the caller and the member in the
    same or in the opposite roles, answers 200 with that very room (the
    one [find_private_room] finds) and stores nothing. *)
Theorem private_room_created_once
    (d : db) (a b : string) (A B : ObjectId)
    (data1 data2 data3 : Chat.create_room_data)
    (id1 id2 id3 : ObjectId) (t1 t2 t3 : Z)
    (HA : ObjectId_of a = Some A) (HB : ObjectId_of b = Some B)
    (H1 : private_with b data1) (H2 : private_with b data2)
    (H3 : private_with a data3)
    (Hfriends : FriendshipRepository.are_friends A B (friendships d) = true)
    (Hfresh : fresh Room._id id1 (rooms d)) :
  exists room msg code d1,
    Chat.create_room a data1 id1 t1 d
      = (Response (RoomBody room msg) code, d1)
    /\ RoomRepository.find_private_room A B (rooms d1) = Some room
    /\ Chat.create_room a data2 id2 t2 d1
       = (Response (RoomBody room "Room already exists") 200, d1)
    /\ Chat.create_room b data3 id3 t3 d1
       = (Response (RoomBody room "Room already exists") 200, d1).
Proof.
  rewrite (@create_room_private d a b A B data1 id1 t1 HA HB H1).
  rewrite Hfriends.
  destruct (RoomRepository.find_private_room A B (rooms d)) as [r | ] eqn:Er.
  - exists r, "Room already exists", 200, d.
    split; [reflexivity | ]. split; [exact Er | ].
    now apply create_room_existing with (A := A) (B := B).
  - unfold RoomRepository.create.
    rewrite (@insert_one_fresh _ Room._id
               (Room.mk id1 (Chat.d_name data1) "private" [A; B] A t1 None)
               (rooms d) Hfresh).
    eexists. eexists. eexists. eexists.
    split; [reflexivity | ].
    assert (RoomRepository.find_private_room A B
              (rooms
                 (set_rooms
                    (rooms d
                     ++ [Room.mk id1 (Chat.d_name data1) "private" [A; B] A
                           t1 None]) d))
            = Some (Room.mk id1 (Chat.d_name data1) "private" [A; B] A t1
                      None)) as Hfind.
    { simpl. unfold RoomRepository.find_private_room in *.
      apply find_one_app_new.
      - now apply find_one_None.
      - apply private_room_filter_new. }
    split; [exact Hfind | ].
    now apply create_room_existing with (A := A) (B := B).
Qed.

Lemma collect_members_friends (d : db) (U : ObjectId)
    (member_ids : list string) (acc : list ObjectId) :
  (forall m, In m (valid_ids member_ids) ->
     FriendshipRepository.are_friends U m (friendships d) = true) ->
  Chat.collect_members d U member_ids acc
  = inr (acc ++ valid_ids member_ids).
Proof.
  revert acc. induction member_ids as [ | mid rest IH]; intros acc Hfr; simpl.
  - now rewrite app_nil_r.
  - unfold validate_object_id. simpl in Hfr.
    destruct (ObjectId_of mid) as [m | ] eqn:E.
    + rewrite (Hfr m (or_introl eq_refl)). simpl.
      rewrite IH.
      * now rewrite <- app_assoc.
      * intros x Hx. apply Hfr. now right.
    + now apply IH.
Qed.

Lemma valid_ids_length (member_ids : list string) :
  length (valid_ids member_ids) <= length member_ids.
Proof.
  induction member_ids as [ | mid rest IH]; simpl; [lia | ].
  destruct (ObjectId_of mid); simpl; lia.
Qed.

Lemma valid_ids_shorter (member_ids : list string) (mid : string) :
  In mid member_ids -> validate_object_id mid = false ->
  length (valid_ids member_ids) < length member_ids.
Proof.
  induction member_ids as [ | x rest IH]; simpl; [contradiction | ].
  intros [-> | Hin] Hv.
  - unfold validate_object_id in Hv.
    destruct (ObjectId_of mid); [discriminate | ].
    pose proof (valid_ids_length rest). lia.
  - specialize (IH Hin Hv). destruct (ObjectId_of x); simpl; lia.
Qed.

Lemma valid_ids_none (member_ids : list string) :
  (forall mid, In mid member_ids -> validate_object_id mid = false) ->
  valid_ids member_ids = [].
Proof.
  induction member_ids as [ | x rest IH]; simpl; [reflexivity | ].
  intros H. pose proof (H x (or_introl eq_refl)) as Hx.
  unfold validate_object_id in Hx.
  destruct (ObjectId_of x); [discriminate | ].
  apply IH. intros mid Hmid. apply H. now right.
Qed.

(** C10.  A request whose valid member ids are all friends of the caller
    and that does not hit an existing private room is answered 201: the
    stored room lists the caller followed by the valid ids only, and no
    error mentions the ids that do not validate.  The room then has fewer
    members than requested as soon as one id is invalid, and the caller
    alone when every id is. *)
Theorem create_room_skips_invalid_ids
    (d : db) (u : string) (U : ObjectId) (data : Chat.create_room_data)
    (id : ObjectId) (now : Z)
    (HU : ObjectId_of u = Some U)
    (Hmembers : Chat.d_members data <> [])
    (Hfriends : forall m, In m (valid_ids (Chat.d_members data)) ->
                  FriendshipRepository.are_friends U m (friendships d) = true)
    (Hfresh : fresh Room._id id (rooms d))
    (Hnew : forall m, Chat.requested_room_type data = "private" ->
              valid_ids (Chat.d_members data) = [m] ->
              RoomRepository.find_private_room U m (rooms d) = None) :
  Chat.create_room u data id now d
    = (Response
         (RoomBody
            (Room.mk id (Chat.d_name data) (Chat.requested_room_type data)
               (U :: valid_ids (Chat.d_members data)) U now None)
            "Room created successfully") 201,
       set_rooms
         (rooms d
          ++ [Room.mk id (Chat.d_name data) (Chat.requested_room_type data)
                (U :: valid_ids (Chat.d_members data)) U now None]) d)
  /\ (forall mid, In mid (Chat.d_members data) ->
        validate_object_id mid = false ->
        length (U :: valid_ids (Chat.d_members data))
        < 1 + length (Chat.d_members data))
  /\ ((forall mid, In mid (Chat.d_members data) ->
         validate_object_id mid = false) ->
      U :: valid_ids (Chat.d_members data) = [U]).
Proof.
  split; [ | split].
  - unfold Chat.create_room.
    destruct (Chat.d_members data) as [ | mid rest] eqn:Em; [congruence | ].
    rewrite HU. rewrite (@collect_members_friends d U (mid :: rest) [U] Hfriends).
    change ([U] ++ valid_ids (mid :: rest)) with (U :: valid_ids (mid :: rest)).
    match goal with
    | |- match ?e with _ => _ end = _ => remember e as existing eqn:Hex
    end.
    assert (existing = None) as ->.
    { subst existing.
      destruct (String.eqb (Chat.requested_room_type data) "private") eqn:Et;
        [ | reflexivity].
      apply String.eqb_eq in Et.
      destruct (valid_ids (mid :: rest)) as [ | m0 [ | m1 more]] eqn:Ev;
        try reflexivity.
      simpl. now apply Hnew. }
    unfold RoomRepository.create.
    rewrite (@insert_one_fresh _ Room._id _ (rooms d)); [reflexivity | ].
    exact Hfresh.
  - intros mid Hin Hv. simpl.
    pose proof (valid_ids_shorter _ _ Hin Hv). lia.
  - intros Hall. now rewrite valid_ids_none.
Qed.

(* ================================================================== *)
(** * Realtime handlers *)
(* ================================================================== *)

(** C9.  For a user who is not a member of the room, the [mark_read]
    event still marks every message of the room as read by that user and
    emits [messages_read] to the room, while the REST endpoint answers 403
    and leaves the database alone. *)
Theorem mark_read_event_ignores_membership
    (w : SocketIO.world) (r u : string) (rid uid : ObjectId)
    (Hr : ObjectId_of r = Some rid) (Hu : ObjectId_of u = Some uid)
    (Hnot : RoomRepository.is_member r uid (rooms (SocketIO.store w))
            = Some false) :
  SocketIO.handle_mark_read (Some r) (Some u) w
    = SocketIO.emit (SocketIO.messages_read r u)
        (SocketIO.with_store
           (set_messages
              (MessageRepository.mark_room_messages_as_read rid uid
                 (messages (SocketIO.store w))) (SocketIO.store w)) w)
  /\ (forall m,
        In m (messages
                (SocketIO.store
                   (SocketIO.handle_mark_read (Some r) (Some u) w))) ->
        Message.room_id m = rid -> In uid (Message.read_by m))
  /\ SocketIO.outbox (SocketIO.handle_mark_read (Some r) (Some u) w)
     = SocketIO.outbox w ++ [SocketIO.messages_read r u]
  /\ Chat.mark_as_read u r (SocketIO.store w)
     = (Response (Error "Access denied") 403, SocketIO.store w).
Proof.
  assert (forall s o, ObjectId_of s = Some o -> truthy (Some s) = true) as Ht.
  { intros s o H. unfold ObjectId_of in H.
    destruct (String.length s =? 24) eqn:El; [ | discriminate].
    apply Nat.eqb_eq in El. destruct s; simpl in *; [discriminate | reflexivity]. }
  assert (SocketIO.handle_mark_read (Some r) (Some u) w
          = SocketIO.emit (SocketIO.messages_read r u)
              (SocketIO.with_store
                 (set_messages
                    (MessageRepository.mark_room_messages_as_read rid uid
                       (messages (SocketIO.store w))) (SocketIO.store w)) w))
    as Hrun.
  { unfold SocketIO.handle_mark_read.
    rewrite (Ht _ _ Hr), (Ht _ _ Hu), Hr, Hu. reflexivity. }
  split; [exact Hrun | ]. rewrite Hrun. simpl.
  split; [ | split].
  - intros m Hin Hroom. eapply marked_room_message_is_read; eassumption.
  - reflexivity.
  - unfold Chat.mark_as_read.
    rewrite (validate_of _ Hr), Hu, Hr, Hnot. reflexivity.
Qed.

(** C1 (what the code does).  Alice is connected from two sessions and
    the first one closes: [handle_disconnect] pops Alice's entry, stores
    [offline] and broadcasts it although her second session is still live
    and still in her personal room.  With Alice and Bob connected and Bob
    closing, it is Alice's entry that is popped and Alice who is announced
    offline, while Bob stays registered and online. *)
Theorem disconnect_pops_first_entry :
  (SocketIO.is_live "sid-2" Examples.one_device_left = true
   /\ In ("sid-2", "user_aaaaaaaaaaaaaaaaaaaaaaaa")
        (SocketIO.sio_rooms Examples.one_device_left)
   /\ SocketIO.connected_users Examples.two_devices = [(Examples.alice, true)]
   /\ SocketIO.connected_users Examples.one_device_left = []
   /\ Examples.status_of Examples.alice Examples.two_devices = Some "online"
   /\ Examples.status_of Examples.alice Examples.one_device_left
      = Some "offline"
   /\ last (SocketIO.outbox Examples.one_device_left)
        (SocketIO.user_status "" "")
      = SocketIO.user_status Examples.alice "offline")
  /\ (SocketIO.connected_users Examples.bob_left = [(Examples.bob, true)]
      /\ SocketIO.is_live "sid-a" Examples.bob_left = true
      /\ SocketIO.is_live "sid-b" Examples.bob_left = false
      /\ Examples.status_of Examples.alice Examples.bob_left = Some "offline"
      /\ Examples.status_of Examples.bob Examples.bob_left = Some "online"
      /\ last (SocketIO.outbox Examples.bob_left) (SocketIO.user_status "" "")
         = SocketIO.user_status Examples.alice "offline").
Proof.
  split.
  - repeat split; try (vm_compute; reflexivity).
    vm_compute. auto.
  - repeat split; vm_compute; reflexivity.
Qed.

(* ================================================================== *)
(** * Room directory: the private-room invariant *)
(* ================================================================== *)

(** C7 (where the document's invariant fails).  From a directory that
    satisfies the invariant, a private room requested with two friends is
    stored with three members; and after one of the two members of a
    private room left it, the room is still private with one member. *)
Lemma private_room_invariant_broken :
  (room_invariant (rooms Examples.db_abc)
   /\ fst (Chat.create_room Examples.alice
             (Examples.private_request [Examples.bob; Examples.carol])
             Examples.room2 30 Examples.db_abc)
      = Response
          (RoomBody
             (Room.mk Examples.room2 None "private"
                [Examples.alice; Examples.bob; Examples.carol]
                Examples.alice 30 None)
             "Room created successfully") 201
   /\ ~ room_invariant
          (rooms (snd (Chat.create_room Examples.alice
                         (Examples.private_request
                            [Examples.bob; Examples.carol])
                         Examples.room2 30 Examples.db_abc))))
  /\ (room_invariant (rooms Examples.db_room)
      /\ fst (Chat.leave_room Examples.bob Examples.room1 Examples.db_room)
         = Response (Msg "Left room successfully") 200
      /\ rooms (snd (Chat.leave_room Examples.bob Examples.room1
                       Examples.db_room))
         = [Room.mk Examples.room1 None "private" [Examples.alice]
              Examples.alice 20 None]
      /\ ~ room_invariant
             (rooms (snd (Chat.leave_room Examples.bob Examples.room1
                            Examples.db_room)))).
Proof.
  split.
  - split; [ | split].
    + split.
      * intros r Hin. vm_compute in Hin. contradiction.
      * intros a b _. vm_compute. lia.
    + vm_compute. reflexivity.
    + intros [Htwo _].
      assert (two_distinct_members
                (Room.mk Examples.room2 None "private"
                   [Examples.alice; Examples.bob; Examples.carol]
                   Examples.alice 30 None)) as [Hlen _].
      { apply Htwo; [vm_compute; auto | reflexivity]. }
      simpl in Hlen. discriminate.
  - split; [ | split; [ | split]].
    + split.
      * intros r Hin Hp. vm_compute in Hin. destruct Hin as [<- | []].
        split; [reflexivity | ].
        repeat constructor; simpl; intuition discriminate.
      * intros a b _. unfold private_rooms_of.
        change (rooms Examples.db_room)
          with [Room.mk Examples.room1 None "private"
                  [Examples.alice; Examples.bob] Examples.alice 20 None].
        simpl. destruct (_ && _); simpl; lia.
    + vm_compute. reflexivity.
    + vm_compute. reflexivity.
    + intros [Htwo _].
      assert (two_distinct_members
                (Room.mk Examples.room1 None "private" [Examples.alice]
                   Examples.alice 20 None)) as [Hlen _].
      { apply Htwo; [vm_compute; auto | reflexivity]. }
      simpl in Hlen. discriminate.
Qed.

Lemma private_room_filter_members (a b : ObjectId) (r : Room.t) :
  RoomRepository.private_room_filter a b r = true ->
  Room.room_type r = "private"
  /\ In a (Room.members r) /\ In b (Room.members r)
  /\ length (Room.members r) = 2.
Proof.
  unfold RoomRepository.private_room_filter, Mongo.all, Mongo.size. simpl.
  rewrite !andb_true_iff. intros [[Ht [Ha [Hb _]]] Hs].
  apply String.eqb_eq in Ht. apply contains_In in Ha. apply contains_In in Hb.
  apply Nat.eqb_eq in Hs. auto.
Qed.

(** The filter for a pair that a two-member list holds is the filter for
    the two members of that list. *)
Lemma private_room_filter_of_members (a b m0 m1 : ObjectId) (r : Room.t) :
  a <> b -> In a [m0; m1] -> In b [m0; m1] ->
  RoomRepository.private_room_filter a b r
  = RoomRepository.private_room_filter m0 m1 r.
Proof.
  simpl. intros Hne [<- | [<- | []]] [<- | [<- | []]];
    try contradiction; try reflexivity.
  apply private_room_filter_sym.
Qed.

(** What [create_room] can do to the room collection. *)
Lemma create_room_rooms (u : string) (data : Chat.create_room_data)
    (id : ObjectId) (now : Z) (d : db) :
  rooms (snd (Chat.create_room u data id now d)) = rooms d
  \/ exists room,
       rooms (snd (Chat.create_room u data id now d)) = rooms d ++ [room]
       /\ (Room.room_type room = "private" ->
           length (Room.members room) = 2 ->
           exists m0 m1,
             Room.members room = [m0; m1]
             /\ RoomRepository.find_private_room m0 m1 (rooms d) = None).
Proof.
  unfold Chat.create_room.
  destruct (Chat.d_members data) as [ | mid rest]; [now left | ].
  destruct (ObjectId_of u) as [U | ]; [ | now left].
  destruct (Chat.collect_members d U (mid :: rest) [U])
    as [r | all_members]; [now left | ].
  match goal with
  | |- context [match ?e with Some _ => _ | None => _ end] =>
      destruct e as [existing | ] eqn:Eex
  end; [now left | ].
  unfold RoomRepository.create.
  destruct (Mongo.insert_one Room._id _ (rooms d)) as [rooms' | ] eqn:Ei;
    [ | now left].
  apply insert_one_Some in Ei. destruct Ei as [-> _].
  right. eexists. split; [reflexivity | ].
  simpl. intros Ht Hl. rewrite Ht, Hl in Eex. simpl in Eex.
  destruct all_members as [ | m0 [ | m1 [ | m2 more]]]; try discriminate.
  now exists m0, m1.
Qed.

(** What [add_room_member] can do to the room collection. *)
Lemma add_room_member_rooms (u room_id : string) (nm : option string)
    (d : db) :
  rooms (snd (Chat.add_room_member u room_id nm d)) = rooms d
  \/ exists oid room member,
       Mongo.find_one (fun r => oid_eqb (Room._id r) oid) (rooms d) = Some room
       /\ Room.room_type room = "group"
       /\ rooms (snd (Chat.add_room_member u room_id nm d))
          = Mongo.update_one (fun r => oid_eqb (Room._id r) oid)
              (Room.set_members (Mongo.addToSet member)) (rooms d).
Proof.
  unfold Chat.add_room_member.
  destruct (negb (validate_object_id room_id)); [now left | ].
  unfold RoomRepository.find_by_id, RoomRepository.add_member.
  destruct (ObjectId_of room_id) as [oid | ]; [ | now left].
  destruct (Mongo.find_one _ (rooms d)) as [room | ] eqn:Ef; [ | now left].
  destruct (String.eqb (Room.room_type room) "group") eqn:Et;
    [ | now left].
  simpl negb. cbv iota.
  destruct (ObjectId_of u) as [U | ]; [ | now left].
  destruct (RoomRepository.is_member room_id U (rooms d)) as [[ | ] | ];
    try now left.
  destruct nm as [nm | ]; [ | now left].
  destruct (negb (truthy (Some nm)) || negb (validate_object_id nm));
    [now left | ].
  destruct (ObjectId_of nm) as [member | ]; [ | now left].
  destruct (negb (FriendshipRepository.are_friends U member (friendships d)));
    [now left | ].
  right. exists oid, room, member. apply String.eqb_eq in Et. auto.
Qed.

(** C7 (as the code has it).  Room creation and member addition keep "at
    most one private room whose member list is exactly the pair" for every
    pair of distinct users, and member addition leaves every private room
    as it is. *)
Theorem unique_private_pair_preserved
    (d : db) (Hunique : unique_private_pair (rooms d)) :
  (forall u data id now,
     unique_private_pair (rooms (snd (Chat.create_room u data id now d))))
  /\ (forall u room_id nm,
        unique_private_pair
          (rooms (snd (Chat.add_room_member u room_id nm d))))
  /\ (forall u room_id nm r,
        In r (rooms d) -> is_private r ->
        In r (rooms (snd (Chat.add_room_member u room_id nm d)))).
Proof.
  split; [ | split].
  - intros u data id now.
    destruct (create_room_rooms u data id now d) as [-> | [room [-> Hroom]]];
      [assumption | ].
    intros a b Hne. rewrite count_documents_app.
    unfold Mongo.count_documents at 2. simpl.
    destruct (RoomRepository.private_room_filter a b room) eqn:Eq;
      simpl; [ | pose proof (Hunique a b Hne); lia].
    apply private_room_filter_members in Eq.
    destruct Eq as [Ht [Ha [Hb Hl]]].
    destruct (Hroom Ht Hl) as [m0 [m1 [Hm Hnone]]].
    rewrite Hm in Ha, Hb.
    rewrite (count_documents_zero
               (RoomRepository.private_room_filter a b) (rooms d));
      [lia | ].
    intros x Hx. rewrite (private_room_filter_of_members x Hne Ha Hb).
    unfold RoomRepository.find_private_room in Hnone.
    rewrite find_one_None in Hnone. now apply Hnone.
  - intros u room_id nm.
    destruct (add_room_member_rooms u room_id nm d)
      as [-> | [oid [room [member [Hf [Ht ->]]]]]]; [assumption | ].
    intros a b Hne.
    rewrite (@count_documents_update_one _ _
               (RoomRepository.private_room_filter a b) _ (rooms d) room Hf).
    + now apply Hunique.
    + unfold RoomRepository.private_room_filter. simpl. now rewrite Ht.
  - intros u room_id nm r Hin Hp.
    destruct (add_room_member_rooms u room_id nm d)
      as [-> | [oid [room [member [Hf [Ht ->]]]]]]; [assumption | ].
    apply (@update_one_In_other _ _
             (fun x => String.eqb (Room.room_type x) "private") _ (rooms d)
             room r Hf).
    + now rewrite Ht.
    + assumption.
    + unfold is_private in Hp. now rewrite Hp.
Qed.

(* ================================================================== *)
(** * The statements at sample data *)
(* ================================================================== *)

(** With three messages, a [limit] of 0 returns all three, where the
    document's window of size 0 is empty. *)
Lemma find_by_room_limit_zero :
  MessageRepository.find_by_room Examples.room1 (Z.of_nat 0) (Z.of_nat 0)
    (Examples.log 3)
  = Some (Examples.log 3)
  /\ Design.page Examples.room1 0 0 (Examples.log 3) = [].
Proof. split; vm_compute; reflexivity. Qed.

(** With 120 messages numbered by time, the first page of 50 is messages
    70 to 119 and the second page is messages 20 to 69, each oldest
    first. *)
Example pages_of_120 :
  option_map (List.map Message.created_at)
    (MessageRepository.find_by_room Examples.room1 50 0 (Examples.log 120))
  = Some (List.map Z.of_nat (List.seq 70 50))
  /\ option_map (List.map Message.created_at)
       (MessageRepository.find_by_room Examples.room1 50 50
          (Examples.log 120))
     = Some (List.map Z.of_nat (List.seq 20 50)).
Proof. split; vm_compute; reflexivity. Qed.

Lemma find_by_room_window_witness :
  0 < 50
  /\ MessageRepository.find_by_room Examples.room1 (Z.of_nat 50)
       (Z.of_nat 50) (Examples.log 120)
     = Some (Design.page Examples.room1 50 50 (Examples.log 120)).
Proof.
  split; [lia | ].
  apply (@find_by_room_window Examples.room1 50 50 (Examples.log 120)). lia.
Defined.

Lemma friendship_symmetric_after_accept_witness :
  exists friendship_id d2,
    Friends.accept_friend_request Examples.bob Examples.request1
      Examples.friendship1 11 Examples.db_requested
    = (Response (FriendshipBody "Friend request accepted" friendship_id) 200,
       d2)
    /\ FriendshipRepository.are_friends Examples.alice Examples.bob
         (friendships d2) = true
    /\ FriendshipRepository.are_friends Examples.bob Examples.alice
         (friendships d2) = true.
Proof.
  refine (proj1
            (@friendship_symmetric_after_accept Examples.db0
               Examples.db_requested Examples.alice Examples.bob
               Examples.alice Examples.bob Examples.request1
               Examples.friendship1 10 11 "Friend request sent successfully"
               Examples.request1 _ _ _ _ _)).
  - vm_compute; reflexivity.
  - vm_compute; reflexivity.
  - vm_compute; reflexivity.
  - intros x Hx. simpl in Hx. contradiction.
  - vm_compute; reflexivity.
Defined.

Lemma private_room_created_once_witness :
  exists room msg code d1,
    Chat.create_room Examples.alice (Examples.private_request [Examples.bob])
      Examples.room1 20 Examples.db_abc
    = (Response (RoomBody room msg) code, d1)
    /\ RoomRepository.find_private_room Examples.alice Examples.bob (rooms d1)
       = Some room
    /\ Chat.create_room Examples.alice
         (Examples.private_request [Examples.bob]) Examples.room2 31 d1
       = (Response (RoomBody room "Room already exists") 200, d1)
    /\ Chat.create_room Examples.bob
         (Examples.private_request [Examples.alice]) Examples.room2 32 d1
       = (Response (RoomBody room "Room already exists") 200, d1).
Proof.
  refine (@private_room_created_once Examples.db_abc
            Examples.alice Examples.bob Examples.alice Examples.bob
            (Examples.private_request [Examples.bob])
            (Examples.private_request [Examples.bob])
            (Examples.private_request [Examples.alice])
            Examples.room1 Examples.room2 Examples.room2 20 31 32
            _ _ _ _ _ _ _).
  - vm_compute; reflexivity.
  - vm_compute; reflexivity.
  - split; reflexivity.
  - split; reflexivity.
  - split; reflexivity.
  - vm_compute; reflexivity.
  - intros x Hx. vm_compute in Hx. contradiction.
Defined.

(** The two later requests at the sample data: both return room
    [room1], created by the first one. *)
Example private_room_again :
  Chat.create_room Examples.alice (Examples.private_request [Examples.bob])
    Examples.room2 31 Examples.db_room
  = (Response
       (RoomBody
          (Room.mk Examples.room1 None "private"
             [Examples.alice; Examples.bob] Examples.alice 20 None)
          "Room already exists") 200, Examples.db_room)
  /\ Chat.create_room Examples.bob (Examples.private_request [Examples.alice])
       Examples.room2 32 Examples.db_room
     = (Response
          (RoomBody
             (Room.mk Examples.room1 None "private"
                [Examples.alice; Examples.bob] Examples.alice 20 None)
             "Room already exists") 200, Examples.db_room).
Proof. split; vm_compute; reflexivity. Qed.

Lemma send_friend_request_refusals_witness :
  Friends.send_friend_request Examples.alice (Some Examples.alice)
    Examples.request2 12 Examples.db_ab
  = (Response (Error "Cannot send friend request to yourself") 400,
     Examples.db_ab)
  /\ Friends.send_friend_request Examples.bob (Some Examples.alice)
       Examples.request2 12 Examples.db_ab
     = (Response (Error "You are already friends with this user") 409,
        Examples.db_ab)
  /\ exists error,
       Friends.send_friend_request Examples.bob (Some Examples.alice)
         Examples.request2 12 Examples.db_requested
       = (Response (Error error) 409, Examples.db_requested)
       /\ (~ friendship_exists Examples.bob Examples.alice
               (friendships Examples.db_requested) ->
           error = "Friend request already sent"
           \/ error = "This user has already sent you a friend request").
Proof.
  split; [ | split].
  - refine (proj1
              (@send_friend_request_refusals Examples.db_ab Examples.alice
                 Examples.alice Examples.alice Examples.alice
                 Examples.request2 12 _ _) eq_refl);
      vm_compute; reflexivity.
  - refine (proj1 (proj2
              (@send_friend_request_refusals Examples.db_ab Examples.bob
                 Examples.alice Examples.bob Examples.alice
                 Examples.request2 12 _ _)) _ _ _).
    + vm_compute; reflexivity.
    + vm_compute; reflexivity.
    + discriminate.
    + exists (User.mk Examples.alice "alice" "offline").
      split; [simpl; auto | reflexivity].
    + exists (Friendship.mk Examples.friendship1 Examples.alice Examples.bob 11).
      split; [vm_compute; auto | ].
      right. exists Examples.friendship1, 11%Z. vm_compute; reflexivity.
  - refine (proj2 (proj2
              (@send_friend_request_refusals Examples.db_requested
                 Examples.bob Examples.alice Examples.bob Examples.alice
                 Examples.request2 12 _ _)) _ _ _).
    + vm_compute; reflexivity.
    + vm_compute; reflexivity.
    + discriminate.
    + exists (User.mk Examples.alice "alice" "offline").
      split; [simpl; auto | reflexivity].
    + exists (FriendRequest.mk Examples.request1 Examples.alice Examples.bob
                "pending" 10 10).
      split; [vm_compute; auto | ].
      split; [reflexivity | ]. right. split; reflexivity.
Defined.

Lemma unique_private_pair_preserved_witness :
  unique_private_pair (rooms Examples.db_room)
  /\ unique_private_pair
       (rooms (snd (Chat.create_room Examples.alice
                      (Examples.private_request [Examples.carol])
                      Examples.room2 30 Examples.db_room))).
Proof.
  assert (unique_private_pair (rooms Examples.db_room)) as Hu.
  { intros a b _. unfold Mongo.count_documents.
    change (rooms Examples.db_room)
      with [Room.mk Examples.room1 None "private"
              [Examples.alice; Examples.bob] Examples.alice 20 None].
    simpl. destruct (RoomRepository.private_room_filter a b _); simpl; lia. }
  split; [exact Hu | ].
  apply (proj1 (@unique_private_pair_preserved Examples.db_room Hu)).
Defined.

Lemma mark_read_event_ignores_membership_witness :
  RoomRepository.is_member Examples.room1 Examples.carol
    (rooms Examples.db_log) = Some false
  /\ SocketIO.outbox
       (SocketIO.handle_mark_read (Some Examples.room1) (Some Examples.carol)
          (SocketIO.initial Examples.db_log))
     = SocketIO.outbox (SocketIO.initial Examples.db_log)
       ++ [SocketIO.messages_read Examples.room1 Examples.carol]
  /\ Chat.mark_as_read Examples.carol Examples.room1
       (SocketIO.store (SocketIO.initial Examples.db_log))
     = (Response (Error "Access denied") 403,
        SocketIO.store (SocketIO.initial Examples.db_log)).
Proof.
  assert (RoomRepository.is_member Examples.room1 Examples.carol
            (rooms Examples.db_log) = Some false) as Hnot
    by (vm_compute; reflexivity).
  split; [exact Hnot | ].
  destruct (@mark_read_event_ignores_membership
              (SocketIO.initial Examples.db_log) Examples.room1
              Examples.carol Examples.room1 Examples.carol
              eq_refl eq_refl Hnot) as [_ [_ [Hout Hrest]]].
  split; [exact Hout | exact Hrest].
Defined.

(** After the event Carol, who is in no room, is a reader of all three
    messages of the room of Alice and Bob. *)
Example carol_marked_reader :
  List.map Message.read_by
    (messages
       (SocketIO.store
          (SocketIO.handle_mark_read (Some Examples.room1)
             (Some Examples.carol) (SocketIO.initial Examples.db_log))))
  = [[Examples.carol]; [Examples.carol]; [Examples.carol]].
Proof. vm_compute; reflexivity. Qed.

Lemma create_room_skips_invalid_ids_witness :
  Chat.create_room Examples.alice Examples.mixed_request Examples.room2 30
    Examples.db_abc
  = (Response
       (RoomBody
          (Room.mk Examples.room2 (Some "team") "group"
             [Examples.alice; Examples.bob] Examples.alice 30 None)
          "Room created successfully") 201,
     set_rooms
       [Room.mk Examples.room2 (Some "team") "group"
          [Examples.alice; Examples.bob] Examples.alice 30 None]
       Examples.db_abc)
  /\ Chat.create_room Examples.alice Examples.no_valid_id_request
       Examples.room2 30 Examples.db_abc
     = (Response
          (RoomBody
             (Room.mk Examples.room2 None "private" [Examples.alice]
                Examples.alice 30 None)
             "Room created successfully") 201,
        set_rooms
          [Room.mk Examples.room2 None "private" [Examples.alice]
             Examples.alice 30 None]
          Examples.db_abc).
Proof.
  split.
  - refine (proj1
              (@create_room_skips_invalid_ids Examples.db_abc Examples.alice
                 Examples.alice Examples.mixed_request Examples.room2 30
                 _ _ _ _ _)).
    + vm_compute; reflexivity.
    + discriminate.
    + intros m Hm. vm_compute in Hm. destruct Hm as [<- | []].
      vm_compute; reflexivity.
    + intros x Hx. vm_compute in Hx. contradiction.
    + intros m Ht. vm_compute in Ht. discriminate.
  - refine (proj1
              (@create_room_skips_invalid_ids Examples.db_abc Examples.alice
                 Examples.alice Examples.no_valid_id_request Examples.room2 30
                 _ _ _ _ _)).
    + vm_compute; reflexivity.
    + discriminate.
    + intros m Hm. vm_compute in Hm. contradiction.
    + intros x Hx. vm_compute in Hx. contradiction.
    + intros m _ Hv. vm_compute in Hv. discriminate.
Defined.

(* ================================================================== *)
(** * More facts about collections *)
(* ================================================================== *)

Section MoreCollectionFacts.
Variable doc : Type.

Lemma count_documents_update_one_le (q p : doc -> bool) (upd : doc -> doc)
    (c : list doc) :
  (forall x, p (upd x) = true -> p x = true) ->
  Mongo.count_documents p (Mongo.update_one q upd c)
  <= Mongo.count_documents p c.
Proof.
  intros Hp. unfold Mongo.count_documents.
  induction c as [ | x r IH]; simpl; [lia | ].
  destruct (q x); simpl.
  - destruct (p (upd x)) eqn:E.
    + rewrite (Hp x E). simpl. lia.
    + destruct (p x); simpl; lia.
  - destruct (p x); simpl; lia.
Qed.

Lemma count_documents_delete_one_le (q p : doc -> bool) (c : list doc) :
  Mongo.count_documents p (Mongo.delete_one q c)
  <= Mongo.count_documents p c.
Proof.
  unfold Mongo.count_documents.
  induction c as [ | x r IH]; simpl; [lia | ].
  destruct (q x); simpl; destruct (p x); simpl; lia.
Qed.

Lemma count_documents_find_one (p : doc -> bool) (c : list doc) :
  Mongo.count_documents p c = 0 <-> Mongo.find_one p c = None.
Proof.
  unfold Mongo.count_documents, Mongo.find_one.
  induction c as [ | x r IH]; simpl; [tauto | ].
  destruct (p x); simpl; [split; discriminate | exact IH].
Qed.

(** Dropping the first match of the very filter that is counted. *)
Lemma count_documents_delete_one_same (p : doc -> bool) (c : list doc) :
  Mongo.count_documents p (Mongo.delete_one p c)
  = Mongo.count_documents p c - 1.
Proof.
  unfold Mongo.count_documents.
  induction c as [ | x r IH]; simpl; [reflexivity | ].
  destruct (p x) eqn:E; simpl.
  - lia.
  - now rewrite E.
Qed.

Lemma In_update_one (q : doc -> bool) (upd : doc -> doc) (c : list doc)
    (x : doc) :
  In x (Mongo.update_one q upd c) ->
  In x c \/ exists y, Mongo.find_one q c = Some y /\ x = upd y.
Proof.
  unfold Mongo.find_one.
  induction c as [ | y r IH]; simpl; [tauto | ].
  destruct (q y); simpl.
  - intros [<- | H]; [right; now exists y | auto].
  - intros [<- | H]; [auto | ]. destruct (IH H); auto.
Qed.

Lemma In_delete_one (q : doc -> bool) (c : list doc) (x : doc) :
  In x (Mongo.delete_one q c) -> In x c.
Proof.
  induction c as [ | y r IH]; simpl; [tauto | ].
  destruct (q y); simpl; intuition.
Qed.

Lemma map_update_one (A : Type) (f : doc -> A) (q : doc -> bool)
    (upd : doc -> doc) (c : list doc) :
  (forall x, f (upd x) = f x) ->
  List.map f (Mongo.update_one q upd c) = List.map f c.
Proof.
  intros Hf. induction c as [ | y r IH]; simpl; [reflexivity | ].
  destruct (q y); simpl; congruence.
Qed.

Lemma length_update_one (q : doc -> bool) (upd : doc -> doc) (c : list doc) :
  length (Mongo.update_one q upd c) = length c.
Proof.
  induction c as [ | y r IH]; simpl; [reflexivity | ].
  destruct (q y); simpl; congruence.
Qed.

Lemma NoDup_map_delete_one (A : Type) (f : doc -> A) (q : doc -> bool)
    (c : list doc) :
  NoDup (List.map f c) -> NoDup (List.map f (Mongo.delete_one q c)).
Proof.
  induction c as [ | y r IH]; simpl; [auto | ].
  intros H. inversion H as [ | ? ? Hn Hr]; subst.
  destruct (q y); simpl; [assumption | ].
  constructor; [ | auto].
  intros Hin. apply Hn. apply in_map_iff in Hin.
  destruct Hin as [z [Hz Hin]]. apply in_map_iff. exists z.
  split; [assumption | ]. eapply In_delete_one; eassumption.
Qed.

Lemma find_one_delete_one_None (p q : doc -> bool) (c : list doc) :
  Mongo.find_one p c = None -> Mongo.find_one p (Mongo.delete_one q c) = None.
Proof.
  rewrite !find_one_None. intros H x Hx. apply H.
  eapply In_delete_one; eassumption.
Qed.

(** When at most one document satisfies [p] and the first match of [q]
    is that document, every document satisfying [p] after the update is
    the updated one. *)
Lemma update_one_the_only (p q : doc -> bool) (upd : doc -> doc)
    (c : list doc) (r x : doc) :
  Mongo.count_documents p c <= 1 ->
  Mongo.find_one q c = Some r -> p r = true ->
  In x (Mongo.update_one q upd c) -> p x = true -> x = upd r.
Proof.
  unfold Mongo.count_documents, Mongo.find_one.
  induction c as [ | y t IH]; simpl; [discriminate | ].
  destruct (q y) eqn:Eq.
  - intros Hc Hf Hp. injection Hf as ->. rewrite Hp in Hc. simpl in Hc.
    intros [<- | Hin] Hx; [reflexivity | ].
    assert (length (filter p t) = 0) as Hz by lia.
    apply length_zero_iff_nil in Hz.
    assert (In x (filter p t)) as Hf by (apply filter_In; auto).
    rewrite Hz in Hf. contradiction.
  - intros Hc Hf Hp [<- | Hin] Hx.
    + rewrite Hx in Hc. simpl in Hc.
      assert (length (filter p t) = 0) as Hz by lia.
      apply length_zero_iff_nil in Hz.
      apply find_some in Hf. destruct Hf as [Hin _].
      assert (In r (filter p t)) as Hf by (apply filter_In; auto).
      rewrite Hz in Hf. contradiction.
    + apply IH; auto. destruct (p y); simpl in Hc; lia.
Qed.

(** With unique keys, dropping the first document carrying a key leaves
    no document with that key. *)
Lemma delete_one_key_gone (key : doc -> ObjectId) (k : ObjectId)
    (c : list doc) :
  NoDup (List.map key c) ->
  Mongo.find_one (fun x => oid_eqb (key x) k)
    (Mongo.delete_one (fun x => oid_eqb (key x) k) c) = None.
Proof.
  unfold Mongo.find_one.
  induction c as [ | y t IH]; simpl; [reflexivity | ].
  intros H. inversion H as [ | ? ? Hn Hr]; subst.
  destruct (oid_eqb (key y) k) eqn:E; simpl.
  - apply oid_eqb_eq in E. subst k.
    apply find_one_None. intros x Hx. apply oid_eqb_neq. intros Heq.
    apply Hn. rewrite <- Heq. now apply in_map.
  - rewrite E. auto.
Qed.

End MoreCollectionFacts.

(* ================================================================== *)
(** * Friend graph: what each handler can do *)
(* ================================================================== *)

Ltac not_succeeded :=
  let b := fresh "b" in
  let code := fresh "code" in
  let H := fresh "H" in
  let Hc := fresh "Hc" in
  intros [b [code [H [Hc | Hc]]]];
  try discriminate H; injection H as _ H; subst; discriminate.

Ltac is_succeeded :=
  eexists; eexists; split; [reflexivity | auto].

Lemma pending_request_of_inr (party : FriendRequest.t -> ObjectId)
    (U : ObjectId) (rid : string) (d : db) (r : FriendRequest.t) :
  Friends.pending_request_of party U rid d = inr r ->
  exists oid,
    ObjectId_of rid = Some oid
    /\ Mongo.find_one (fun x => oid_eqb (FriendRequest._id x) oid)
         (friend_requests d) = Some r
    /\ party r = U
    /\ FriendRequest.status r = "pending".
Proof.
  unfold Friends.pending_request_of, validate_object_id,
    FriendRequestRepository.find_by_id.
  destruct (ObjectId_of rid) as [oid | ]; simpl; [ | discriminate].
  destruct (Mongo.find_one _ (friend_requests d)) as [x | ] eqn:Ef;
    [ | discriminate].
  destruct (oid_eqb (party x) U) eqn:Ep; simpl; [ | discriminate].
  destruct (String.eqb (FriendRequest.status x) "pending") eqn:Es; simpl;
    [ | discriminate].
  intros H. injection H as <-. exists oid.
  apply oid_eqb_eq in Ep. apply String.eqb_eq in Es. auto.
Qed.

Lemma pending_request_of_inl (party : FriendRequest.t -> ObjectId)
    (U : ObjectId) (rid : string) (d : db) (res : result) :
  Friends.pending_request_of party U rid d = inl res ->
  ~ FriendGraph.succeeded res.
Proof.
  unfold Friends.pending_request_of.
  destruct (negb (validate_object_id rid));
    [intros H; injection H as <-; not_succeeded | ].
  destruct (FriendRequestRepository.find_by_id rid (friend_requests d))
    as [[x | ] | ]; try (intros H; injection H as <-; not_succeeded).
  destruct (negb (oid_eqb (party x) U));
    [intros H; injection H as <-; not_succeeded | ].
  destruct (negb (String.eqb (FriendRequest.status x) "pending"));
    [intros H; injection H as <-; not_succeeded | discriminate].
Qed.

Lemma send_effect (u : string) (t : option string) (id : ObjectId) (now : Z)
    (d : db) :
  (snd (Friends.send_friend_request u t id now d) = d
   /\ ~ FriendGraph.succeeded (fst (Friends.send_friend_request u t id now d)))
  \/ (FriendGraph.succeeded (fst (Friends.send_friend_request u t id now d))
      /\ exists A B tb,
           ObjectId_of u = Some A /\ t = Some tb /\ ObjectId_of tb = Some B
           /\ A <> B
           /\ FriendshipRepository.are_friends A B (friendships d) = false
           /\ FriendRequestRepository.find_existing_request A B
                (friend_requests d) = None
           /\ fresh FriendRequest._id id (friend_requests d)
           /\ snd (Friends.send_friend_request u t id now d)
              = set_friend_requests
                  (friend_requests d
                   ++ [FriendRequest.mk id A B "pending" now now]) d).
Proof.
  unfold Friends.send_friend_request.
  destruct (ObjectId_of u) as [A | ] eqn:EA;
    [ | left; split; [reflexivity | not_succeeded]].
  destruct t as [tb | ]; [ | left; split; [reflexivity | not_succeeded]].
  destruct (negb (truthy (Some tb)) || negb (validate_object_id tb));
    [left; split; [reflexivity | not_succeeded] | ].
  destruct (ObjectId_of tb) as [B | ] eqn:EB;
    [ | left; split; [reflexivity | not_succeeded]].
  destruct (oid_eqb A B) eqn:Eab;
    [left; split; [reflexivity | not_succeeded] | ].
  destruct (UserRepository.find_by_id (str B) (users d)) as [[usr | ] | ];
    try (left; split; [reflexivity | not_succeeded]).
  destruct (FriendshipRepository.are_friends A B (friendships d)) eqn:Ef;
    [left; split; [reflexivity | not_succeeded] | ].
  destruct (FriendRequestRepository.find_existing_request A B
              (friend_requests d)) as [r | ] eqn:Er.
  { destruct (String.eqb _ _); left; split;
      try reflexivity; not_succeeded. }
  unfold FriendRequestRepository.create.
  destruct (Mongo.insert_one FriendRequest._id _ (friend_requests d))
    as [reqs' | ] eqn:Ei; [ | left; split; [reflexivity | not_succeeded]].
  apply insert_one_Some in Ei. destruct Ei as [-> Hfresh]. simpl in Hfresh.
  right. split; [simpl; is_succeeded | ].
  exists A, B, tb. apply oid_eqb_neq in Eab. simpl. repeat split; auto.
Qed.

Lemma accept_effect (u rid : string) (id : ObjectId) (now : Z) (d : db) :
  (snd (Friends.accept_friend_request u rid id now d) = d
   /\ ~ FriendGraph.succeeded
          (fst (Friends.accept_friend_request u rid id now d)))
  \/ (FriendGraph.succeeded
        (fst (Friends.accept_friend_request u rid id now d))
      /\ exists U oid r,
           ObjectId_of u = Some U /\ ObjectId_of rid = Some oid
           /\ Mongo.find_one (fun x => oid_eqb (FriendRequest._id x) oid)
                (friend_requests d) = Some r
           /\ FriendRequest.to_user_id r = U
           /\ FriendRequest.status r = "pending"
           /\ fresh Friendship._id id (friendships d)
           /\ snd (Friends.accept_friend_request u rid id now d)
              = set_friend_requests
                  (Mongo.update_one
                     (fun x => oid_eqb (FriendRequest._id x) oid)
                     (FriendRequest.set_status "accepted" now)
                     (friend_requests d))
                  (set_friendships
                     (friendships d
                      ++ [Friendship.init (FriendRequest.from_user_id r)
                            (FriendRequest.to_user_id r) id now]) d)).
Proof.
  unfold Friends.accept_friend_request.
  destruct (ObjectId_of u) as [U | ] eqn:EU;
    [ | left; split; [reflexivity | not_succeeded]].
  destruct (Friends.pending_request_of FriendRequest.to_user_id U rid d)
    as [res | r] eqn:Ep.
  { left. split; [reflexivity | ]. simpl.
    eapply pending_request_of_inl; eassumption. }
  apply pending_request_of_inr in Ep.
  destruct Ep as [oid [Hoid [Hfind [Hto Hst]]]].
  unfold FriendshipRepository.create.
  destruct (Mongo.insert_one Friendship._id _ (friendships d))
    as [fs' | ] eqn:Ei; [ | left; split; [reflexivity | not_succeeded]].
  apply insert_one_Some in Ei. destruct Ei as [-> Hfresh].
  unfold FriendRequestRepository.update_status. rewrite Hoid. simpl.
  right. split; [is_succeeded | ].
  exists U, oid, r. repeat split; auto.
  unfold Friendship.init in Hfresh. destruct (str_lt _ _); exact Hfresh.
Qed.

Lemma decline_effect (u rid : string) (now : Z) (d : db) :
  (snd (Friends.decline_friend_request u rid now d) = d
   /\ ~ FriendGraph.succeeded
          (fst (Friends.decline_friend_request u rid now d)))
  \/ (FriendGraph.succeeded (fst (Friends.decline_friend_request u rid now d))
      /\ exists U oid r,
           ObjectId_of u = Some U /\ ObjectId_of rid = Some oid
           /\ Mongo.find_one (fun x => oid_eqb (FriendRequest._id x) oid)
                (friend_requests d) = Some r
           /\ FriendRequest.to_user_id r = U
           /\ FriendRequest.status r = "pending"
           /\ snd (Friends.decline_friend_request u rid now d)
              = set_friend_requests
                  (Mongo.update_one
                     (fun x => oid_eqb (FriendRequest._id x) oid)
                     (FriendRequest.set_status "declined" now)
                     (friend_requests d)) d).
Proof.
  unfold Friends.decline_friend_request.
  destruct (ObjectId_of u) as [U | ] eqn:EU;
    [ | left; split; [reflexivity | not_succeeded]].
  destruct (Friends.pending_request_of FriendRequest.to_user_id U rid d)
    as [res | r] eqn:Ep.
  { left. split; [reflexivity | ]. simpl.
    eapply pending_request_of_inl; eassumption. }
  apply pending_request_of_inr in Ep.
  destruct Ep as [oid [Hoid [Hfind [Hto Hst]]]].
  unfold FriendRequestRepository.update_status. rewrite Hoid. simpl.
  right. split; [is_succeeded | ].
  exists U, oid, r. repeat split; auto.
Qed.

Lemma cancel_effect (u rid : string) (d : db) :
  (snd (Friends.cancel_friend_request u rid d) = d
   /\ ~ FriendGraph.succeeded (fst (Friends.cancel_friend_request u rid d)))
  \/ (FriendGraph.succeeded (fst (Friends.cancel_friend_request u rid d))
      /\ exists U oid r,
           ObjectId_of u = Some U /\ ObjectId_of rid = Some oid
           /\ Mongo.find_one (fun x => oid_eqb (FriendRequest._id x) oid)
                (friend_requests d) = Some r
           /\ FriendRequest.from_user_id r = U
           /\ FriendRequest.status r = "pending"
           /\ snd (Friends.cancel_friend_request u rid d)
              = set_friend_requests
                  (Mongo.delete_one
                     (fun x => oid_eqb (FriendRequest._id x) oid)
                     (friend_requests d)) d).
Proof.
  unfold Friends.cancel_friend_request.
  destruct (ObjectId_of u) as [U | ] eqn:EU;
    [ | left; split; [reflexivity | not_succeeded]].
  destruct (Friends.pending_request_of FriendRequest.from_user_id U rid d)
    as [res | r] eqn:Ep.
  { left. split; [reflexivity | ]. simpl.
    eapply pending_request_of_inl; eassumption. }
  apply pending_request_of_inr in Ep.
  destruct Ep as [oid [Hoid [Hfind [Hto Hst]]]].
  unfold FriendRequestRepository.delete. rewrite Hoid. simpl.
  right. split; [is_succeeded | ].
  exists U, oid, r. repeat split; auto.
Qed.

Lemma remove_effect (u f : string) (d : db) :
  (snd (Friends.remove_friend u f d) = d
   /\ ~ FriendGraph.succeeded (fst (Friends.remove_friend u f d)))
  \/ (FriendGraph.succeeded (fst (Friends.remove_friend u f d))
      /\ exists U F,
           ObjectId_of u = Some U /\ ObjectId_of f = Some F
           /\ FriendshipRepository.are_friends U F (friendships d) = true
           /\ snd (Friends.remove_friend u f d)
              = set_friendships
                  (FriendshipRepository.delete_friendship U F (friendships d))
                  d).
Proof.
  unfold Friends.remove_friend.
  destruct (ObjectId_of u) as [U | ] eqn:EU;
    [ | left; split; [reflexivity | not_succeeded]].
  destruct (negb (validate_object_id f));
    [left; split; [reflexivity | not_succeeded] | ].
  destruct (ObjectId_of f) as [F | ] eqn:EF;
    [ | left; split; [reflexivity | not_succeeded]].
  destruct (FriendshipRepository.are_friends U F (friendships d)) eqn:Ef;
    simpl; [ | left; split; [reflexivity | not_succeeded]].
  right. split; [is_succeeded | ]. exists U, F. auto.
Qed.

(* ================================================================== *)
(** * Friend graph: the invariant *)
(* ================================================================== *)

Lemma NoDup_snoc (A : Type) (l : list A) (x : A) :
  NoDup l -> ~ In x l -> NoDup (l ++ [x]).
Proof.
  induction l as [ | y t IH]; simpl; intros Hn Hx.
  - constructor; [tauto | constructor].
  - inversion Hn as [ | ? ? Hy Ht]; subst. constructor.
    + intros Hin. apply in_app_or in Hin. destruct Hin as [Hin | [-> | []]].
      * contradiction.
      * apply Hx. now left.
    + apply IH; [assumption | ]. intros Hin. apply Hx. now right.
Qed.

Lemma existing_request_filter_sym (a b : ObjectId) (r : FriendRequest.t) :
  FriendRequestRepository.existing_request_filter a b r
  = FriendRequestRepository.existing_request_filter b a r.
Proof.
  unfold FriendRequestRepository.existing_request_filter. apply orb_comm.
Qed.

Lemma existing_request_filter_true (a b : ObjectId) (r : FriendRequest.t) :
  FriendRequestRepository.existing_request_filter a b r = true <->
  FriendRequest.status r = "pending"
  /\ ((FriendRequest.from_user_id r = a /\ FriendRequest.to_user_id r = b)
      \/ (FriendRequest.from_user_id r = b /\ FriendRequest.to_user_id r = a)).
Proof.
  unfold FriendRequestRepository.existing_request_filter.
  rewrite orb_true_iff, !andb_true_iff, !oid_eqb_eq, ?String.eqb_eq.
  unfold ObjectId. tauto.
Qed.

(** The filter only depends on the unordered pair: it is the filter of
    any request it accepts. *)
Lemma existing_request_filter_same (a b : ObjectId) (r x : FriendRequest.t) :
  FriendRequestRepository.existing_request_filter a b r = true ->
  FriendRequestRepository.existing_request_filter a b x
  = FriendRequestRepository.existing_request_filter
      (FriendRequest.from_user_id r) (FriendRequest.to_user_id r) x.
Proof.
  intros H. apply existing_request_filter_true in H.
  destruct H as [_ [[-> ->] | [-> ->]]]; [reflexivity | ].
  apply existing_request_filter_sym.
Qed.

Lemma existing_request_filter_set_status (a b : ObjectId)
    (r : FriendRequest.t) (s : string) (now : Z) :
  s <> "pending" ->
  FriendRequestRepository.existing_request_filter a b
    (FriendRequest.set_status s now r) = false.
Proof.
  intros Hs. unfold FriendRequestRepository.existing_request_filter. simpl.
  apply String.eqb_neq in Hs. rewrite Hs. now rewrite !andb_false_r.
Qed.

Lemma pair_filter_same_order (u v : ObjectId * ObjectId) (f : Friendship.t) :
  FriendshipRepository.pair_filter u f = true ->
  FriendshipRepository.pair_filter v f = true -> u = v.
Proof.
  unfold FriendshipRepository.pair_filter.
  rewrite !andb_true_iff, !oid_eqb_eq. destruct u, v; simpl.
  intros [<- <-] [<- <-]. reflexivity.
Qed.

Lemma ordered_eq_cases (a b x y : ObjectId) :
  FriendshipRepository.ordered a b = FriendshipRepository.ordered x y ->
  (a = x /\ b = y) \/ (a = y /\ b = x).
Proof.
  unfold FriendshipRepository.ordered.
  destruct (str_lt a b), (str_lt x y); intros H; injection H; auto.
Qed.

Lemma init_lt (a b id : ObjectId) (now : Z) :
  a <> b ->
  str_lt (Friendship.user1_id (Friendship.init a b id now))
    (Friendship.user2_id (Friendship.init a b id now)) = true.
Proof.
  intros Hne. unfold Friendship.init.
  destruct (str_lt a b) eqn:E; simpl; [assumption | ].
  now apply str_lt_total.
Qed.

Lemma are_friends_false (a b : ObjectId) (c : FriendshipRepository.collection) :
  FriendshipRepository.are_friends a b c = false <->
  (forall f, In f c ->
     FriendshipRepository.pair_filter (FriendshipRepository.ordered a b) f
     = false).
Proof.
  unfold FriendshipRepository.are_friends,
    FriendshipRepository.find_friendship.
  rewrite <- find_one_None.
  destruct (Mongo.find_one _ c); simpl; split; congruence.
Qed.

Lemma are_friends_row_count (a b : ObjectId) (d : db) :
  FriendshipRepository.are_friends a b (friendships d) = false <->
  FriendGraph.row_count a b d = 0.
Proof.
  unfold FriendGraph.row_count. rewrite count_documents_find_one.
  rewrite are_friends_false. symmetry. apply find_one_None.
Qed.

Lemma start_invariant (d : db) :
  friend_requests d = [] -> friendships d = [] -> FriendGraph.invariant d.
Proof.
  intros Hr Hf.
  constructor; unfold FriendGraph.pending_count, FriendGraph.row_count;
    rewrite ?Hr, ?Hf; simpl; try (intros; contradiction);
    try (intros a b; unfold Mongo.count_documents; simpl; lia).
  constructor.
Qed.

Lemma send_keeps_invariant (u : string) (t : option string) (id : ObjectId)
    (now : Z) (d : db) :
  FriendGraph.invariant d ->
  FriendGraph.invariant (snd (Friends.send_friend_request u t id now d)).
Proof.
  intros Hinv.
  destruct (send_effect u t id now d)
    as [[-> _] | [_ [A [B [tb [_ [_ [_ [Hne [Hnf [Hnone [Hfresh ->]]]]]]]]]]]];
    [assumption | ].
  destruct Hinv as [Hids Hpend Hrow Hpnf Hself Hord].
  constructor; simpl.
  - rewrite map_app. simpl. apply NoDup_snoc; [assumption | ].
    intros Hin. apply in_map_iff in Hin. destruct Hin as [x [Hx Hin]].
    exact (Hfresh x Hin Hx).
  - intros a b. unfold FriendGraph.pending_count. simpl.
    rewrite count_documents_app. unfold Mongo.count_documents at 2. simpl.
    destruct (FriendRequestRepository.existing_request_filter a b _) eqn:E;
      simpl; [ | specialize (Hpend a b); unfold FriendGraph.pending_count in Hpend; lia].
    rewrite (count_documents_zero
               (FriendRequestRepository.existing_request_filter a b)
               (friend_requests d)); [lia | ].
    intros x Hx. rewrite (existing_request_filter_same a b _ x E). simpl.
    unfold FriendRequestRepository.find_existing_request in Hnone.
    rewrite find_one_None in Hnone. now apply Hnone.
  - exact Hrow.
  - intros r Hin Hst. apply in_app_or in Hin.
    destruct Hin as [Hin | [<- | []]]; [now apply Hpnf | exact Hnf].
  - intros r Hin. apply in_app_or in Hin.
    destruct Hin as [Hin | [<- | []]]; [now apply Hself | exact Hne].
  - exact Hord.
Qed.

Lemma answered_keeps_requests (s : string) (now : Z) (oid : ObjectId)
    (r : FriendRequest.t) (d : db) :
  s <> "pending" ->
  FriendGraph.invariant d ->
  Mongo.find_one (fun x => oid_eqb (FriendRequest._id x) oid)
    (friend_requests d) = Some r ->
  let reqs' :=
    Mongo.update_one (fun x => oid_eqb (FriendRequest._id x) oid)
      (FriendRequest.set_status s now) (friend_requests d) in
  NoDup (List.map FriendRequest._id reqs')
  /\ (forall a b,
        Mongo.count_documents
          (FriendRequestRepository.existing_request_filter a b) reqs' <= 1)
  /\ (forall x, In x reqs' -> FriendRequest.status x = "pending" ->
        In x (friend_requests d))
  /\ (forall x, In x reqs' ->
        FriendRequest.from_user_id x <> FriendRequest.to_user_id x).
Proof.
  intros Hs [Hids Hpend Hrow Hpnf Hself Hord] Hfind. simpl.
  split; [ | split; [ | split]].
  - rewrite map_update_one; [assumption | reflexivity].
  - intros a b. eapply Nat.le_trans; [ | apply (Hpend a b)].
    apply count_documents_update_one_le. intros x Hx.
    rewrite existing_request_filter_set_status in Hx by assumption.
    discriminate.
  - intros x Hin Hst. apply In_update_one in Hin.
    destruct Hin as [Hin | [y [_ ->]]]; [assumption | ].
    simpl in Hst. contradiction.
  - intros x Hin. apply In_update_one in Hin.
    destruct Hin as [Hin | [y [Hy ->]]]; [now apply Hself | ].
    simpl. apply Hself. now apply find_one_Some in Hy.
Qed.

Lemma accept_keeps_invariant (u rid : string) (id : ObjectId) (now : Z)
    (d : db) :
  FriendGraph.invariant d ->
  FriendGraph.invariant (snd (Friends.accept_friend_request u rid id now d)).
Proof.
  intros Hinv.
  destruct (accept_effect u rid id now d)
    as [[-> _] | [_ [U [oid [r [_ [_ [Hfind [_ [Hst [_ ->]]]]]]]]]]];
    [assumption | ].
  assert ("accepted" <> "pending") as Hs by discriminate.
  destruct (@answered_keeps_requests "accepted" now oid r d Hs Hinv Hfind)
    as [Hids' [Hpend' [Hold Hself']]].
  pose proof (find_one_Some _ _ Hfind) as [Hrin _].
  destruct Hinv as [Hids Hpend Hrow Hpnf Hself Hord].
  pose proof (Hpnf r Hrin Hst) as Hnf.
  constructor; simpl; try assumption.
  - intros a b. unfold FriendGraph.row_count. simpl.
    rewrite count_documents_app. unfold Mongo.count_documents at 2. simpl.
    destruct (FriendshipRepository.pair_filter _ _) eqn:E; simpl;
      [ | specialize (Hrow a b); unfold FriendGraph.row_count in Hrow; lia].
    pose proof (@pair_filter_same_order _ _ _ E
                  (pair_filter_init (FriendRequest.from_user_id r)
                     (FriendRequest.to_user_id r) id now)) as Heq.
    rewrite Heq. apply are_friends_row_count in Hnf.
    unfold FriendGraph.row_count in Hnf. rewrite Hnf. lia.
  - intros x Hin Hx. apply are_friends_false. intros f Hf.
    apply in_app_or in Hf. destruct Hf as [Hf | [<- | []]].
    + pose proof (Hpnf x (Hold x Hin Hx) Hx) as Hxf.
      rewrite are_friends_false in Hxf. now apply Hxf.
    + destruct (FriendshipRepository.pair_filter _ _) eqn:E;
        [ | reflexivity].
      exfalso.
      pose proof (@pair_filter_same_order _ _ _ E
                    (pair_filter_init (FriendRequest.from_user_id r)
                       (FriendRequest.to_user_id r) id now)) as Heq.
      assert (FriendRequestRepository.existing_request_filter
                (FriendRequest.from_user_id r) (FriendRequest.to_user_id r) x
              = true) as Hpx.
      { apply existing_request_filter_true. split; [assumption | ].
        apply ordered_eq_cases in Heq. tauto. }
      assert (FriendRequestRepository.existing_request_filter
                (FriendRequest.from_user_id r) (FriendRequest.to_user_id r) r
              = true) as Hpr.
      { apply existing_request_filter_true. auto. }
      pose proof (@update_one_the_only _ _ _ _ _ _ _
                    (Hpend (FriendRequest.from_user_id r)
                       (FriendRequest.to_user_id r)) Hfind Hpr Hin Hpx) as Hupd.
      rewrite Hupd in Hx. simpl in Hx. discriminate.
  - intros f Hf. apply in_app_or in Hf. destruct Hf as [Hf | [<- | []]].
    + now apply Hord.
    + apply init_lt. now apply Hself.
Qed.

Lemma decline_keeps_invariant (u rid : string) (now : Z) (d : db) :
  FriendGraph.invariant d ->
  FriendGraph.invariant (snd (Friends.decline_friend_request u rid now d)).
Proof.
  intros Hinv.
  destruct (decline_effect u rid now d)
    as [[-> _] | [_ [U [oid [r [_ [_ [Hfind [_ [Hst ->]]]]]]]]]];
    [assumption | ].
  assert ("declined" <> "pending") as Hs by discriminate.
  destruct (@answered_keeps_requests "declined" now oid r d Hs Hinv Hfind)
    as [Hids' [Hpend' [Hold Hself']]].
  destruct Hinv as [Hids Hpend Hrow Hpnf Hself Hord].
  constructor; simpl; try assumption.
  intros x Hin Hx. apply Hpnf; [now apply Hold | assumption].
Qed.

Lemma cancel_keeps_invariant (u rid : string) (d : db) :
  FriendGraph.invariant d ->
  FriendGraph.invariant (snd (Friends.cancel_friend_request u rid d)).
Proof.
  intros Hinv.
  destruct (cancel_effect u rid d)
    as [[-> _] | [_ [U [oid [r [_ [_ [Hfind [_ [Hst ->]]]]]]]]]];
    [assumption | ].
  destruct Hinv as [Hids Hpend Hrow Hpnf Hself Hord].
  constructor; simpl; try assumption.
  - now apply NoDup_map_delete_one.
  - intros a b. eapply Nat.le_trans; [ | apply (Hpend a b)].
    apply count_documents_delete_one_le.
  - intros x Hin Hx. apply Hpnf; [ | assumption].
    eapply In_delete_one; eassumption.
  - intros x Hin. apply Hself. eapply In_delete_one; eassumption.
Qed.

Lemma remove_keeps_invariant (u f : string) (d : db) :
  FriendGraph.invariant d ->
  FriendGraph.invariant (snd (Friends.remove_friend u f d)).
Proof.
  intros Hinv.
  destruct (remove_effect u f d) as [[-> _] | [_ [U [F [_ [_ [_ ->]]]]]]];
    [assumption | ].
  destruct Hinv as [Hids Hpend Hrow Hpnf Hself Hord].
  constructor; simpl; try assumption.
  - intros a b. eapply Nat.le_trans; [ | apply (Hrow a b)].
    apply count_documents_delete_one_le.
  - intros x Hin Hx. apply are_friends_false. intros g Hg.
    pose proof (Hpnf x Hin Hx) as Hxf. rewrite are_friends_false in Hxf.
    apply Hxf. unfold FriendshipRepository.delete_friendship in Hg.
    eapply In_delete_one; eassumption.
  - intros g Hg. apply Hord.
    unfold FriendshipRepository.delete_friendship in Hg.
    eapply In_delete_one; eassumption.
Qed.

Lemma handle_keeps_invariant (r : FriendGraph.request) (d : db) :
  FriendGraph.invariant d -> FriendGraph.invariant (snd (FriendGraph.handle r d)).
Proof.
  destruct r; simpl.
  - apply send_keeps_invariant.
  - apply accept_keeps_invariant.
  - apply decline_keeps_invariant.
  - apply cancel_keeps_invariant.
  - apply remove_keeps_invariant.
Qed.

(** X1.  In every database the friend handlers can reach from one
    without requests and friendships: request ids are unique; between any
    two users there is at most one pending request (both directions
    counted together) and at most one friendship row; a pending request
    never coexists with a friendship of the same two users; no request is
    addressed to its own sender; and every friendship row is stored
    smaller id first. *)
Theorem reachable_invariant (d : db) (Hreach : FriendGraph.reachable d) :
  FriendGraph.invariant d.
Proof.
  induction Hreach as [d Hr Hf | r d Hreach IH].
  - now apply start_invariant.
  - now apply handle_keeps_invariant.
Qed.

(* ================================================================== *)
(** * Friend graph: consequences *)
(* ================================================================== *)

Lemma find_one_delete_one_other (doc : Type) (p p' : doc -> bool)
    (c : list doc) :
  (forall x, p x = true -> p' x = false) ->
  Mongo.find_one p' (Mongo.delete_one p c) = Mongo.find_one p' c.
Proof.
  intros H. unfold Mongo.find_one.
  induction c as [ | y t IH]; simpl; [reflexivity | ].
  destruct (p y) eqn:E; simpl.
  - now rewrite (H y E).
  - destruct (p' y); auto.
Qed.

Lemma count_documents_delete_one_found (doc : Type) (p q : doc -> bool)
    (c : list doc) (r : doc) :
  Mongo.find_one q c = Some r -> p r = true ->
  Mongo.count_documents p (Mongo.delete_one q c)
  = Mongo.count_documents p c - 1.
Proof.
  unfold Mongo.find_one, Mongo.count_documents.
  induction c as [ | y t IH]; simpl; [discriminate | ].
  destruct (q y) eqn:E; simpl.
  - intros H Hp. injection H as ->. rewrite Hp. simpl. lia.
  - intros H Hp. specialize (IH H Hp).
    destruct (p y) eqn:Ey; simpl; [ | assumption].
    rewrite IH.
    assert (In r (filter p t)) as Hin.
    { apply filter_In. split; [ | assumption]. now apply find_some in H. }
    destruct (filter p t); [contradiction | simpl; lia].
Qed.

(** X2.  In a reachable friend graph, [remove_friend] between two friends
    answers 200 and afterwards [are_friends] is false in both directions,
    while the answer for every other pair of users is what it was. *)
Theorem remove_friend_unfriends
    (d : db) (u f : string) (U F : ObjectId)
    (Hinv : FriendGraph.invariant d)
    (HU : ObjectId_of u = Some U) (HF : ObjectId_of f = Some F)
    (Hfriends : FriendshipRepository.are_friends U F (friendships d) = true) :
  fst (Friends.remove_friend u f d)
    = Response (Msg "Friend removed successfully") 200
  /\ FriendshipRepository.are_friends U F
       (friendships (snd (Friends.remove_friend u f d))) = false
  /\ FriendshipRepository.are_friends F U
       (friendships (snd (Friends.remove_friend u f d))) = false
  /\ (forall x y,
        FriendshipRepository.ordered x y <> FriendshipRepository.ordered U F ->
        FriendshipRepository.are_friends x y
          (friendships (snd (Friends.remove_friend u f d)))
        = FriendshipRepository.are_friends x y (friendships d)).
Proof.
  unfold Friends.remove_friend.
  rewrite HU, (validate_of _ HF), HF, Hfriends. simpl.
  assert (FriendshipRepository.are_friends U F
            (FriendshipRepository.delete_friendship U F (friendships d))
          = false) as Hgone.
  { apply are_friends_false. rewrite <- find_one_None.
    apply count_documents_find_one.
    unfold FriendshipRepository.delete_friendship.
    rewrite count_documents_delete_one_same.
    pose proof (FriendGraph.one_row Hinv U F) as H1.
    unfold FriendGraph.row_count in H1. lia. }
  split; [reflexivity | ]. split; [exact Hgone | ].
  split; [now rewrite are_friends_sym | ].
  intros x y Hxy.
  unfold FriendshipRepository.are_friends,
    FriendshipRepository.find_friendship,
    FriendshipRepository.delete_friendship.
  rewrite find_one_delete_one_other; [reflexivity | ].
  intros g Hg.
  destruct (FriendshipRepository.pair_filter
              (FriendshipRepository.ordered x y) g) eqn:E; [ | reflexivity].
  exfalso. apply Hxy. exact (@pair_filter_same_order _ _ _ E Hg).
Qed.

Lemma pending_request_of_answered (party : FriendRequest.t -> ObjectId)
    (U oid : ObjectId) (rid : string) (d : db) (x : FriendRequest.t) :
  ObjectId_of rid = Some oid ->
  Mongo.find_one (fun r => oid_eqb (FriendRequest._id r) oid)
    (friend_requests d) = Some x ->
  FriendRequest.status x <> "pending" ->
  exists res, Friends.pending_request_of party U rid d = inl res.
Proof.
  intros Hoid Hfind Hst. unfold Friends.pending_request_of.
  rewrite (validate_of _ Hoid). simpl.
  unfold FriendRequestRepository.find_by_id. rewrite Hoid, Hfind.
  apply String.eqb_neq in Hst. rewrite Hst. simpl.
  destruct (negb (oid_eqb (party x) U)); eexists; reflexivity.
Qed.

(** Once the stored request with that id is not pending, no handler
    accepts, declines or cancels it, and none of them writes. *)
Lemma answered_is_final (oid : ObjectId) (rid : string) (d : db)
    (x : FriendRequest.t) :
  ObjectId_of rid = Some oid ->
  Mongo.find_one (fun r => oid_eqb (FriendRequest._id r) oid)
    (friend_requests d) = Some x ->
  FriendRequest.status x <> "pending" ->
  forall u id now,
    (~ FriendGraph.succeeded (fst (Friends.accept_friend_request u rid id now d))
     /\ snd (Friends.accept_friend_request u rid id now d) = d)
    /\ (~ FriendGraph.succeeded (fst (Friends.decline_friend_request u rid now d))
        /\ snd (Friends.decline_friend_request u rid now d) = d)
    /\ (~ FriendGraph.succeeded (fst (Friends.cancel_friend_request u rid d))
        /\ snd (Friends.cancel_friend_request u rid d) = d).
Proof.
  intros Hoid Hfind Hst u id now.
  unfold Friends.accept_friend_request, Friends.decline_friend_request,
    Friends.cancel_friend_request.
  destruct (ObjectId_of u) as [U | ];
    [ | repeat split; simpl; try reflexivity; not_succeeded].
  destruct (@pending_request_of_answered FriendRequest.to_user_id U oid rid d
              x Hoid Hfind Hst) as [res1 H1].
  destruct (@pending_request_of_answered FriendRequest.from_user_id U oid rid
              d x Hoid Hfind Hst) as [res2 H2].
  rewrite H1, H2. simpl.
  apply pending_request_of_inl in H1. apply pending_request_of_inl in H2.
  repeat split; assumption.
Qed.

(** X3.  A friend request is answered at most once: after a successful
    accept or decline of a request, every later accept, decline or cancel
    of the same request id, by whichever user, is refused and leaves the
    database as it is. *)
Theorem answered_request_is_final
    (d : db) (u rid : string) (id : ObjectId) (now : Z) (accepted : bool)
    (Hdone : FriendGraph.succeeded
               (fst (if accepted
                     then Friends.accept_friend_request u rid id now d
                     else Friends.decline_friend_request u rid now d))) :
  forall u' id' now',
    let d' := snd (if accepted
                   then Friends.accept_friend_request u rid id now d
                   else Friends.decline_friend_request u rid now d) in
    (~ FriendGraph.succeeded
         (fst (Friends.accept_friend_request u' rid id' now' d'))
     /\ snd (Friends.accept_friend_request u' rid id' now' d') = d')
    /\ (~ FriendGraph.succeeded
            (fst (Friends.decline_friend_request u' rid now' d'))
        /\ snd (Friends.decline_friend_request u' rid now' d') = d')
    /\ (~ FriendGraph.succeeded (fst (Friends.cancel_friend_request u' rid d'))
        /\ snd (Friends.cancel_friend_request u' rid d') = d').
Proof.
  destruct accepted.
  - destruct (accept_effect u rid id now d)
      as [[_ Hno] | [_ [U [oid [r [_ [Hoid [Hfind [_ [_ [_ Hd']]]]]]]]]]];
      [contradiction | ].
    rewrite Hd'. intros u' id' now'.
    apply (@answered_is_final oid rid _
             (FriendRequest.set_status "accepted" now r) Hoid).
    + simpl. apply update_one_find; [assumption | ].
      simpl. now apply find_one_Some in Hfind.
    + simpl. discriminate.
  - destruct (decline_effect u rid now d)
      as [[_ Hno] | [_ [U [oid [r [_ [Hoid [Hfind [_ [_ Hd']]]]]]]]]];
      [contradiction | ].
    rewrite Hd'. intros u' id' now'.
    apply (@answered_is_final oid rid _
             (FriendRequest.set_status "declined" now r) Hoid).
    + simpl. apply update_one_find; [assumption | ].
      simpl. now apply find_one_Some in Hfind.
    + simpl. discriminate.
Qed.

(** X4.  Only the addressee of a stored request can accept or decline it
    and only its sender can cancel it: anyone else is answered 403
    "Access denied" and nothing is written. *)
Theorem only_the_parties_answer
    (d : db) (u rid : string) (U oid : ObjectId) (r : FriendRequest.t)
    (id : ObjectId) (now : Z)
    (HU : ObjectId_of u = Some U) (Hoid : ObjectId_of rid = Some oid)
    (Hfind : Mongo.find_one (fun x => oid_eqb (FriendRequest._id x) oid)
               (friend_requests d) = Some r) :
  (FriendRequest.to_user_id r <> U ->
     Friends.accept_friend_request u rid id now d
       = (Response (Error "Access denied") 403, d)
     /\ Friends.decline_friend_request u rid now d
        = (Response (Error "Access denied") 403, d))
  /\ (FriendRequest.from_user_id r <> U ->
      Friends.cancel_friend_request u rid d
      = (Response (Error "Access denied") 403, d)).
Proof.
  unfold Friends.accept_friend_request, Friends.decline_friend_request,
    Friends.cancel_friend_request, Friends.pending_request_of,
    FriendRequestRepository.find_by_id.
  rewrite HU, (validate_of _ Hoid), Hoid, Hfind. simpl.
  split.
  - intros Hne. apply oid_eqb_neq in Hne. rewrite Hne. simpl. auto.
  - intros Hne. apply oid_eqb_neq in Hne. now rewrite Hne.
Qed.

(** X5.  For accept, decline and cancel alike, a request id that is not
    an object id is answered 400 "Invalid request ID" and an id no stored
    request carries is answered 404 "Friend request not found"; nothing is
    written in either case. *)
Theorem request_id_errors
    (d : db) (u rid : string) (U : ObjectId) (id : ObjectId) (now : Z)
    (HU : ObjectId_of u = Some U) :
  (validate_object_id rid = false ->
     Friends.accept_friend_request u rid id now d
       = (Response (Error "Invalid request ID") 400, d)
     /\ Friends.decline_friend_request u rid now d
        = (Response (Error "Invalid request ID") 400, d)
     /\ Friends.cancel_friend_request u rid d
        = (Response (Error "Invalid request ID") 400, d))
  /\ (forall oid,
        ObjectId_of rid = Some oid ->
        (forall r, In r (friend_requests d) -> FriendRequest._id r <> oid) ->
        Friends.accept_friend_request u rid id now d
          = (Response (Error "Friend request not found") 404, d)
        /\ Friends.decline_friend_request u rid now d
           = (Response (Error "Friend request not found") 404, d)
        /\ Friends.cancel_friend_request u rid d
           = (Response (Error "Friend request not found") 404, d)).
Proof.
  unfold Friends.accept_friend_request, Friends.decline_friend_request,
    Friends.cancel_friend_request, Friends.pending_request_of.
  rewrite HU. split.
  - intros ->. simpl. auto.
  - intros oid Hoid Hnone.
    rewrite (validate_of _ Hoid). simpl.
    unfold FriendRequestRepository.find_by_id. rewrite Hoid.
    assert (Mongo.find_one (fun r => oid_eqb (FriendRequest._id r) oid)
              (friend_requests d) = None) as ->.
    { apply find_one_None. intros x Hx. apply oid_eqb_neq. now apply Hnone. }
    auto.
Qed.

(** X6.  A friend handler that does not report success has not written:
    whatever the call, either the response is a 200 or 201 or the
    database is unchanged. *)
Theorem friend_handlers_write_only_on_success
    (r : FriendGraph.request) (d : db) :
  FriendGraph.succeeded (fst (FriendGraph.handle r d))
  \/ snd (FriendGraph.handle r d) = d.
Proof.
  destruct r as [u t id now | u rid id now | u rid now | u rid | u f]; simpl.
  - destruct (send_effect u t id now d) as [[H _] | [H _]]; auto.
  - destruct (accept_effect u rid id now d) as [[H _] | [H _]]; auto.
  - destruct (decline_effect u rid now d) as [[H _] | [H _]]; auto.
  - destruct (cancel_effect u rid d) as [[H _] | [H _]]; auto.
  - destruct (remove_effect u f d) as [[H _] | [H _]]; auto.
Qed.

Lemma find_existing_request_sym (a b : ObjectId)
    (c : FriendRequestRepository.collection) :
  FriendRequestRepository.find_existing_request a b c
  = FriendRequestRepository.find_existing_request b a c.
Proof.
  unfold FriendRequestRepository.find_existing_request.
  apply find_one_ext. intros r. apply existing_request_filter_sym.
Qed.

Lemma send_succeeds (d : db) (a b : string) (A B id : ObjectId) (now : Z) :
  ObjectId_of a = Some A -> ObjectId_of b = Some B -> A <> B ->
  user_exists B (users d) ->
  FriendshipRepository.are_friends A B (friendships d) = false ->
  FriendRequestRepository.find_existing_request A B (friend_requests d)
    = None ->
  fresh FriendRequest._id id (friend_requests d) ->
  Friends.send_friend_request a (Some b) id now d
  = (Response (RequestBody "Friend request sent successfully" (str id)) 201,
     set_friend_requests
       (friend_requests d ++ [FriendRequest.mk id A B "pending" now now]) d).
Proof.
  intros HA HB Hne Hu Hnf Hnone Hfresh.
  destruct (ObjectId_of_well_formed _ HB) as [HwfB _].
  assert (truthy (Some b) = true) as Htruthy.
  { unfold ObjectId_of in HB.
    destruct (String.length b =? 24) eqn:El; [ | discriminate].
    apply Nat.eqb_eq in El. destruct b; simpl in *; [discriminate | reflexivity]. }
  unfold Friends.send_friend_request.
  rewrite HA, Htruthy, (validate_of _ HB), HB. simpl negb. simpl orb. cbv iota.
  apply oid_eqb_neq in Hne. rewrite Hne.
  destruct (user_found HwfB Hu) as [usr ->].
  rewrite Hnf, Hnone. unfold FriendRequestRepository.create.
  rewrite (@insert_one_fresh _ FriendRequest._id
             (FriendRequest.mk id A B "pending" now now) (friend_requests d)
             Hfresh).
  reflexivity.
Qed.

(** X7.  In a reachable friend graph, once a pending request has been
    cancelled by its sender or declined by its addressee, no pending
    request between the two users is left, and either of them can send a
    new one: it is answered 201. *)
Theorem withdrawn_request_frees_the_pair
    (d : db) (u rid : string) (now : Z) (cancelled : bool)
    (oid : ObjectId) (r : FriendRequest.t) (a b : string)
    (id1 id2 : ObjectId) (t1 t2 : Z)
    (Hinv : FriendGraph.invariant d)
    (Hoid : ObjectId_of rid = Some oid)
    (Hfind : Mongo.find_one (fun x => oid_eqb (FriendRequest._id x) oid)
               (friend_requests d) = Some r)
    (Ha : ObjectId_of a = Some (FriendRequest.from_user_id r))
    (Hb : ObjectId_of b = Some (FriendRequest.to_user_id r))
    (Hua : user_exists (FriendRequest.from_user_id r) (users d))
    (Hub : user_exists (FriendRequest.to_user_id r) (users d))
    (Hdone : FriendGraph.succeeded
               (fst (if cancelled
                     then Friends.cancel_friend_request u rid d
                     else Friends.decline_friend_request u rid now d))) :
  forall d',
    d' = snd (if cancelled
              then Friends.cancel_friend_request u rid d
              else Friends.decline_friend_request u rid now d) ->
    FriendGraph.pending_count (FriendRequest.from_user_id r)
      (FriendRequest.to_user_id r) d' = 0
    /\ (fresh FriendRequest._id id1 (friend_requests d') ->
        fst (Friends.send_friend_request a (Some b) id1 t1 d')
        = Response (RequestBody "Friend request sent successfully" (str id1))
            201)
    /\ (fresh FriendRequest._id id2 (friend_requests d') ->
        fst (Friends.send_friend_request b (Some a) id2 t2 d')
        = Response (RequestBody "Friend request sent successfully" (str id2))
            201).
Proof.
  intros d' Hd'.
  pose proof (find_one_Some _ _ Hfind) as [Hrin _].
  assert (FriendRequest.status r = "pending"
          /\ users d' = users d /\ friendships d' = friendships d
          /\ FriendGraph.pending_count (FriendRequest.from_user_id r)
               (FriendRequest.to_user_id r) d' = 0)
    as [Hst [Husers [Hfs Hzero]]].
  { destruct cancelled.
    - destruct (cancel_effect u rid d)
        as [[_ Hno] | [_ [U [oid' [r' [_ [Hoid' [Hfind' [_ [Hst H]]]]]]]]]];
        [contradiction | ].
      rewrite Hoid in Hoid'. injection Hoid' as <-.
      rewrite Hfind in Hfind'. injection Hfind' as <-.
      rewrite H in Hd'. subst d'. simpl.
      repeat split; try assumption.
      unfold FriendGraph.pending_count. simpl.
      rewrite (@count_documents_delete_one_found _ _ _ _ r Hfind).
      + pose proof (FriendGraph.one_pending Hinv
                      (FriendRequest.from_user_id r)
                      (FriendRequest.to_user_id r)) as H1.
        unfold FriendGraph.pending_count in H1. lia.
      + apply existing_request_filter_true. auto.
    - destruct (decline_effect u rid now d)
        as [[_ Hno] | [_ [U [oid' [r' [_ [Hoid' [Hfind' [_ [Hst H]]]]]]]]]];
        [contradiction | ].
      rewrite Hoid in Hoid'. injection Hoid' as <-.
      rewrite Hfind in Hfind'. injection Hfind' as <-.
      rewrite H in Hd'. subst d'. simpl.
      repeat split; try assumption.
      unfold FriendGraph.pending_count. simpl.
      apply count_documents_zero. intros x Hx.
      destruct (FriendRequestRepository.existing_request_filter _ _ x) eqn:E;
        [ | reflexivity].
      assert (FriendRequestRepository.existing_request_filter
                (FriendRequest.from_user_id r) (FriendRequest.to_user_id r) r
              = true) as Hpr
        by (apply existing_request_filter_true; auto).
      pose proof (@update_one_the_only _ _ _ _ _ _ _
                    (FriendGraph.one_pending Hinv
                       (FriendRequest.from_user_id r)
                       (FriendRequest.to_user_id r)) Hfind Hpr Hx E) as Hupd.
      rewrite Hupd in E.
      rewrite existing_request_filter_set_status in E by discriminate.
      discriminate. }
  split; [exact Hzero | ].
  pose proof (FriendGraph.pending_not_friends Hinv r Hrin Hst) as Hnf.
  pose proof (FriendGraph.no_self_request Hinv r Hrin) as Hne.
  assert (FriendRequestRepository.find_existing_request
            (FriendRequest.from_user_id r) (FriendRequest.to_user_id r)
            (friend_requests d') = None) as Hnone.
  { unfold FriendRequestRepository.find_existing_request.
    now apply count_documents_find_one. }
  split; intros Hfresh.
  - rewrite (@send_succeeds d' a b _ _ id1 t1 Ha Hb Hne); try reflexivity;
      try assumption; rewrite ?Husers, ?Hfs; assumption.
  - rewrite (@send_succeeds d' b a _ _ id2 t2 Hb Ha); try reflexivity;
      try assumption; rewrite ?Husers, ?Hfs; auto.
    + now rewrite are_friends_sym.
    + now rewrite find_existing_request_sym.
Qed.

(** X8.  [find_existing_request] does not depend on the order of its two
    users, and what it returns is a pending request between exactly those
    two. *)
Theorem find_existing_request_either_direction
    (a b : ObjectId) (c : FriendRequestRepository.collection) :
  FriendRequestRepository.find_existing_request a b c
    = FriendRequestRepository.find_existing_request b a c
  /\ (forall r,
        FriendRequestRepository.find_existing_request a b c = Some r ->
        In r c /\ pending_between a b c
        /\ FriendRequest.status r = "pending"
        /\ ((FriendRequest.from_user_id r = a
             /\ FriendRequest.to_user_id r = b)
            \/ (FriendRequest.from_user_id r = b
                /\ FriendRequest.to_user_id r = a)))
  /\ (FriendRequestRepository.find_existing_request a b c = None <->
      ~ pending_between a b c).
Proof.
  split; [apply find_existing_request_sym | ]. split.
  - intros r Hr. unfold FriendRequestRepository.find_existing_request in Hr.
    apply find_one_Some in Hr. destruct Hr as [Hin Hp].
    apply existing_request_filter_true in Hp. destruct Hp as [Hst Hdir].
    split; [assumption | ]. split; [ | auto].
    exists r. auto.
  - split.
    + intros Hnone [r [Hin [Hst Hdir]]].
      unfold FriendRequestRepository.find_existing_request in Hnone.
      rewrite find_one_None in Hnone. specialize (Hnone r Hin).
      assert (FriendRequestRepository.existing_request_filter a b r = true)
        as Ht by (apply existing_request_filter_true; auto).
      congruence.
    + intros Hno.
      destruct (FriendRequestRepository.find_existing_request a b c)
        as [r | ] eqn:E; [ | reflexivity].
      exfalso. apply Hno.
      unfold FriendRequestRepository.find_existing_request in E.
      apply find_one_Some in E. destruct E as [Hin Hp].
      apply existing_request_filter_true in Hp. exists r. tauto.
Qed.

(* ================================================================== *)
(** * Sorted cursors *)
(* ================================================================== *)

Section SortFacts.
Variable doc : Type.
Variable key : doc -> option Z.

Let before := Listing.before key.

Lemma key_le_total (a b : option Z) :
  Listing.key_le a b = false -> Listing.key_le b a = true.
Proof.
  destruct a as [x | ], b as [y | ]; simpl; try congruence.
  rewrite Z.leb_gt, Z.leb_le. lia.
Qed.

Lemma key_le_trans (a b c : option Z) :
  Listing.key_le a b = true -> Listing.key_le b c = true ->
  Listing.key_le a c = true.
Proof.
  destruct a as [x | ], b as [y | ], c as [z | ]; simpl; try congruence.
  rewrite !Z.leb_le. lia.
Qed.

Lemma before_trans (x y z : doc) : before x y -> before y z -> before x z.
Proof. unfold before, Listing.before. intros H1 H2. eapply key_le_trans; eassumption. Qed.

Lemma insert_desc_perm (d : doc) (l : list doc) :
  Permutation (d :: l) (Listing.insert_desc key d l).
Proof.
  induction l as [ | x r IH]; simpl; [apply Permutation_refl | ].
  destruct (Listing.key_le (key x) (key d)); [apply Permutation_refl | ].
  eapply Permutation_trans; [apply perm_swap | ]. now apply perm_skip.
Qed.

Lemma sort_desc_perm (l : list doc) :
  Permutation l (Listing.sort_desc key l).
Proof.
  induction l as [ | x r IH]; simpl; [constructor | ].
  eapply Permutation_trans; [ | apply insert_desc_perm].
  now apply perm_skip.
Qed.

Lemma sort_desc_In (l : list doc) (x : doc) :
  In x (Listing.sort_desc key l) <-> In x l.
Proof.
  split; apply Permutation_in;
    [apply Permutation_sym | ]; apply sort_desc_perm.
Qed.

Lemma insert_desc_sorted (d : doc) (l : list doc) :
  Sorted before l -> Sorted before (Listing.insert_desc key d l).
Proof.
  induction l as [ | x r IH]; simpl; intros Hs.
  - repeat constructor.
  - destruct (Listing.key_le (key x) (key d)) eqn:E.
    + constructor; [assumption | ]. constructor. exact E.
    + inversion Hs as [ | ? ? Hr Hh]; subst.
      constructor; [now apply IH | ].
      destruct r as [ | y t]; simpl.
      * constructor. now apply key_le_total.
      * destruct (Listing.key_le (key y) (key d)).
        -- constructor. now apply key_le_total.
        -- constructor. now inversion Hh.
Qed.

Lemma sort_desc_sorted (l : list doc) :
  StronglySorted before (Listing.sort_desc key l).
Proof.
  apply Sorted_StronglySorted; [exact before_trans | ].
  induction l as [ | x r IH]; simpl; [constructor | ].
  now apply insert_desc_sorted.
Qed.

End SortFacts.

Lemma mongo_insert_desc_listing (doc : Type) (key : doc -> Z) (d : doc)
    (l : list doc) :
  Mongo.insert_desc key d l
  = Listing.insert_desc (fun x => Some (key x)) d l.
Proof.
  induction l as [ | x r IH]; simpl; [reflexivity | ]. now rewrite IH.
Qed.

Lemma mongo_sort_desc_listing (doc : Type) (key : doc -> Z) (l : list doc) :
  Mongo.sort_desc key l = Listing.sort_desc (fun x => Some (key x)) l.
Proof.
  induction l as [ | x r IH]; simpl; [reflexivity | ].
  rewrite IH. apply mongo_insert_desc_listing.
Qed.

Lemma mongo_sort_desc_perm (doc : Type) (key : doc -> Z) (l : list doc) :
  Permutation l (Mongo.sort_desc key l).
Proof. rewrite mongo_sort_desc_listing. apply sort_desc_perm. Qed.

Lemma mongo_sort_desc_In (doc : Type) (key : doc -> Z) (l : list doc)
    (x : doc) :
  In x (Mongo.sort_desc key l) <-> In x l.
Proof. rewrite mongo_sort_desc_listing. apply sort_desc_In. Qed.

Lemma mongo_sort_desc_sorted (doc : Type) (key : doc -> Z) (l : list doc) :
  StronglySorted (fun x y => (key y <= key x)%Z) (Mongo.sort_desc key l).
Proof.
  rewrite mongo_sort_desc_listing.
  pose proof (sort_desc_sorted (fun x => Some (key x)) l) as H.
  eapply StronglySorted_ind with (P := StronglySorted _); [ | | exact H].
  - constructor.
  - intros a t _ IH Hall. constructor; [assumption | ].
    eapply Forall_impl; [ | exact Hall].
    intros y Hy. unfold Listing.before in Hy. simpl in Hy. now apply Z.leb_le.
Qed.

Section SortedLists.
Variable A : Type.
Variable R : A -> A -> Prop.

Lemma In_firstn (n : nat) (l : list A) (x : A) : In x (firstn n l) -> In x l.
Proof.
  intros H. rewrite <- (firstn_skipn n l). apply in_or_app. now left.
Qed.

Lemma In_skipn (n : nat) (l : list A) (x : A) : In x (skipn n l) -> In x l.
Proof.
  intros H. rewrite <- (firstn_skipn n l). apply in_or_app. now right.
Qed.

Lemma StronglySorted_firstn (n : nat) (l : list A) :
  StronglySorted R l -> StronglySorted R (firstn n l).
Proof.
  revert l. induction n as [ | n IH]; intros l Hs; simpl; [constructor | ].
  destruct l as [ | x r]; [constructor | ].
  inversion Hs as [ | ? ? Hr Hall]; subst. constructor; [now apply IH | ].
  apply Forall_forall. intros y Hy. rewrite Forall_forall in Hall.
  apply Hall. eapply In_firstn. exact Hy.
Qed.

Lemma StronglySorted_skipn (n : nat) (l : list A) :
  StronglySorted R l -> StronglySorted R (skipn n l).
Proof.
  revert l. induction n as [ | n IH]; intros l Hs; simpl; [assumption | ].
  destruct l as [ | x r]; [constructor | ].
  inversion Hs; subst. now apply IH.
Qed.

Lemma StronglySorted_snoc (l : list A) (x : A) :
  StronglySorted R l -> Forall (fun y => R y x) l ->
  StronglySorted R (l ++ [x]).
Proof.
  induction l as [ | y t IH]; simpl; intros Hs Hall.
  - repeat constructor.
  - inversion Hs as [ | ? ? Ht Hy]; subst.
    inversion Hall as [ | ? ? Hyx Htx]; subst.
    constructor; [now apply IH | ].
    apply Forall_app. split; [assumption | now constructor].
Qed.

End SortedLists.

Lemma StronglySorted_rev (A : Type) (R : A -> A -> Prop) (l : list A) :
  StronglySorted R l -> StronglySorted (fun x y => R y x) (rev l).
Proof.
  induction l as [ | x r IH]; simpl; intros Hs; [constructor | ].
  inversion Hs as [ | ? ? Hr Hall]; subst.
  apply StronglySorted_snoc; [now apply IH | ].
  apply Forall_forall. intros y Hy. rewrite Forall_forall in Hall.
  apply Hall. now apply in_rev.
Qed.

(* ================================================================== *)
(** * Message log: what a page looks like *)
(* ================================================================== *)

Lemma limit_In (A : Type) (n : Z) (l : list A) (x : A) :
  In x (Mongo.limit n l) -> In x l.
Proof.
  unfold Mongo.limit. destruct (n =? 0)%Z; [auto | apply In_firstn].
Qed.

Lemma limit_sorted (A : Type) (R : A -> A -> Prop) (n : Z) (l : list A) :
  StronglySorted R l -> StronglySorted R (Mongo.limit n l).
Proof.
  unfold Mongo.limit. destruct (n =? 0)%Z; [auto | apply StronglySorted_firstn].
Qed.

Lemma find_by_room_page_aux
    (room : ObjectId) (limit skip : Z) (c : MessageRepository.collection) :
  ((skip < 0)%Z -> MessageRepository.find_by_room room limit skip c = None)
  /\ ((0 <= skip)%Z ->
      exists msgs,
        MessageRepository.find_by_room room limit skip c = Some msgs
        /\ (forall m, In m msgs -> In m c)).
Proof.
  unfold MessageRepository.find_by_room, Mongo.skip. split.
  - intros H. apply Z.ltb_lt in H. now rewrite H.
  - intros H. apply Z.ltb_ge in H. rewrite H.
    eexists. split; [reflexivity | ].
    intros m Hm. apply in_rev in Hm. apply limit_In in Hm.
    apply In_skipn in Hm. apply mongo_sort_desc_In in Hm.
    unfold Mongo.find in Hm. now apply filter_In in Hm.
Qed.

(** X9.  [find_by_room] raises for a negative [skip]; otherwise it
    returns messages of that room only, each of them stored, oldest first
    by [created_at], and at most [|limit|] of them unless [limit] is 0;
    with [limit] 0 and [skip] 0 it returns every message of the room. *)
Theorem find_by_room_page
    (room : ObjectId) (limit skip : Z) (c : MessageRepository.collection) :
  ((skip < 0)%Z -> MessageRepository.find_by_room room limit skip c = None)
  /\ ((0 <= skip)%Z ->
      exists msgs,
        MessageRepository.find_by_room room limit skip c = Some msgs
        /\ StronglySorted
             (fun x y => (Message.created_at x <= Message.created_at y)%Z)
             msgs
        /\ (forall m, In m msgs -> In m c /\ Message.room_id m = room)
        /\ (limit <> 0%Z -> length msgs <= Z.to_nat (Z.abs limit))
        /\ (limit = 0%Z -> skip = 0%Z ->
            Permutation msgs
              (filter (fun m => oid_eqb (Message.room_id m) room) c))).
Proof.
  unfold MessageRepository.find_by_room, Mongo.skip. split.
  - intros H. apply Z.ltb_lt in H. now rewrite H.
  - intros H. apply Z.ltb_ge in H. rewrite H.
    eexists. split; [reflexivity | ].
    split; [ | split; [ | split]].
    + apply (@StronglySorted_rev _
               (fun x y => (Message.created_at y <= Message.created_at x)%Z)).
      apply limit_sorted, StronglySorted_skipn, mongo_sort_desc_sorted.
    + intros m Hm. apply in_rev in Hm. apply limit_In in Hm.
      apply In_skipn in Hm. apply mongo_sort_desc_In in Hm.
      unfold Mongo.find in Hm. apply filter_In in Hm.
      destruct Hm as [Hin Hr]. apply oid_eqb_eq in Hr. auto.
    + intros Hl. rewrite length_rev. unfold Mongo.limit.
      apply Z.eqb_neq in Hl. rewrite Hl. apply firstn_le_length.
    + intros -> ->. simpl. apply Permutation_sym.
      eapply Permutation_trans; [ | apply Permutation_rev].
      apply mongo_sort_desc_perm.
Qed.

Lemma count_documents_update_many (doc : Type) (q p : doc -> bool)
    (upd : doc -> doc) (c : list doc) :
  (forall x, p (upd x) = p x) ->
  Mongo.count_documents p (Mongo.update_many q upd c)
  = Mongo.count_documents p c.
Proof.
  intros Hp. unfold Mongo.count_documents, Mongo.update_many.
  induction c as [ | x r IH]; simpl; [reflexivity | ].
  assert (p (if q x then upd x else x) = p x) as ->
    by (destruct (q x); auto).
  destruct (p x); simpl; congruence.
Qed.

Lemma count_documents_update_one_same (doc : Type) (q p : doc -> bool)
    (upd : doc -> doc) (c : list doc) :
  (forall x, p (upd x) = p x) ->
  Mongo.count_documents p (Mongo.update_one q upd c)
  = Mongo.count_documents p c.
Proof.
  intros Hp. unfold Mongo.count_documents.
  induction c as [ | x r IH]; simpl; [reflexivity | ].
  destruct (q x); simpl.
  - rewrite Hp. destruct (p x); reflexivity.
  - destruct (p x); simpl; congruence.
Qed.

Lemma contains_addToSet_other (u v : ObjectId) (arr : list ObjectId) :
  u <> v -> Mongo.contains v (Mongo.addToSet u arr) = Mongo.contains v arr.
Proof.
  intros Hne. unfold Mongo.addToSet.
  destruct (Mongo.contains u arr); [reflexivity | ].
  unfold Mongo.contains. rewrite existsb_app. simpl.
  apply not_eq_sym in Hne. apply oid_eqb_neq in Hne. rewrite Hne.
  now rewrite !orb_false_r.
Qed.

Lemma unread_filter_set_read_by (room u v : ObjectId) (m : Message.t) :
  u <> v ->
  (oid_eqb (Message.room_id (Message.set_read_by (Mongo.addToSet u) m)) room
   && Mongo.ne_array v
        (Message.read_by (Message.set_read_by (Mongo.addToSet u) m))
   && negb
        (oid_eqb
           (Message.sender_id (Message.set_read_by (Mongo.addToSet u) m)) v))
  = (oid_eqb (Message.room_id m) room
     && Mongo.ne_array v (Message.read_by m)
     && negb (oid_eqb (Message.sender_id m) v)).
Proof.
  intros Hne. simpl. unfold Mongo.ne_array.
  now rewrite contains_addToSet_other.
Qed.

(** X10.  Marking as read for one user never changes another user's
    unread count, in any room: neither [mark_room_messages_as_read] nor
    [mark_as_read] of a single message does. *)
Theorem marking_read_is_per_user
    (u v : ObjectId) (c : MessageRepository.collection) (Hne : u <> v) :
  (forall room room',
     MessageRepository.get_unread_count room' v
       (MessageRepository.mark_room_messages_as_read room u c)
     = MessageRepository.get_unread_count room' v c)
  /\ (forall mid c' room',
        MessageRepository.mark_as_read mid u c = Some c' ->
        MessageRepository.get_unread_count room' v c'
        = MessageRepository.get_unread_count room' v c).
Proof.
  split.
  - intros room room'.
    unfold MessageRepository.get_unread_count,
      MessageRepository.mark_room_messages_as_read.
    apply count_documents_update_many. intros m.
    now apply unread_filter_set_read_by.
  - intros mid c' room'. unfold MessageRepository.mark_as_read.
    destruct (ObjectId_of mid) as [oid | ]; [ | discriminate].
    intros H. injection H as <-.
    unfold MessageRepository.get_unread_count.
    apply count_documents_update_one_same. intros m.
    now apply unread_filter_set_read_by.
Qed.

(* ================================================================== *)
(** * Sending a message over REST *)
(* ================================================================== *)

Lemma all_space_lstrip (s : string) :
  Text.all_space (Text.lstrip s) = Text.all_space s.
Proof.
  induction s as [ | c r IH]; simpl; [reflexivity | ].
  destruct (Text.is_space c) eqn:E; simpl; [assumption | now rewrite E].
Qed.

Lemma rstrip_empty (s : string) :
  Text.rstrip s = "" <-> Text.all_space s = true.
Proof.
  induction s as [ | c r IH]; simpl; [tauto | ].
  destruct (Text.rstrip r) as [ | c' r'] eqn:E.
  - assert (Text.all_space r = true) as -> by now apply IH.
    rewrite andb_true_r. destruct (Text.is_space c); split; congruence.
  - assert (Text.all_space r = false) as ->.
    { destruct (Text.all_space r); [ | reflexivity].
      assert (String c' r' = "") by now apply IH. discriminate. }
    rewrite andb_false_r. split; discriminate.
Qed.

(** [strip] leaves nothing exactly of the texts that are empty or
    whitespace only. *)
Lemma strip_empty (s : string) :
  Text.strip s = "" <-> Text.all_space s = true.
Proof.
  unfold Text.strip. rewrite rstrip_empty. now rewrite all_space_lstrip.
Qed.

Lemma prefix_length (n : nat) (s : string) :
  String.length (Text.prefix n s) <= n.
Proof.
  unfold Text.prefix. revert s.
  induction n as [ | n IH]; intros s; destruct s as [ | c r]; simpl;
    try lia.
  specialize (IH r). lia.
Qed.

Lemma prefix_is_prefix (n : nat) (s : string) :
  String.prefix (Text.prefix n s) s = true.
Proof.
  unfold Text.prefix. revert s.
  induction n as [ | n IH]; intros s; destruct s as [ | c r]; simpl;
    try reflexivity.
  destruct (ascii_dec c c) as [_ | Hne]; [apply IH | now elim Hne].
Qed.

Lemma prefix_short (n : nat) (s : string) :
  String.length s <= n -> Text.prefix n s = s.
Proof.
  unfold Text.prefix. revert s.
  induction n as [ | n IH]; intros s; destruct s as [ | c r]; simpl;
    try reflexivity; try lia.
  intros H. f_equal. apply IH. lia.
Qed.

Lemma is_member_true (r : string) (U R : ObjectId)
    (c : RoomRepository.collection) :
  ObjectId_of r = Some R ->
  RoomRepository.is_member r U c = Some true ->
  exists room,
    Mongo.find_one (fun x => oid_eqb (Room._id x) R) c = Some room.
Proof.
  unfold RoomRepository.is_member. intros ->.
  destruct (Mongo.find_one _ c) as [x | ] eqn:E; [ | discriminate].
  intros _. apply find_one_Some in E. destruct E as [Hin Hq].
  apply andb_true_iff in Hq. destruct Hq as [Hq _].
  apply (@find_one_exists _ (fun x => oid_eqb (Room._id x) R) c x Hin Hq).
Qed.

(** An update of the first match that leaves a filter's verdict on every
    document as it was does not change whether the filter finds one. *)
Lemma find_one_update_one_verdict (doc : Type) (q p : doc -> bool)
    (upd : doc -> doc) (c : list doc) :
  (forall x, p (upd x) = p x) ->
  (Mongo.find_one p (Mongo.update_one q upd c) = None
   <-> Mongo.find_one p c = None).
Proof.
  intros Hp. rewrite !find_one_None. split.
  - intros H x Hx.
    induction c as [ | y t IH]; simpl in *; [contradiction | ].
    destruct (q y) eqn:E.
    + destruct Hx as [<- | Hx].
      * rewrite <- Hp. apply H. now left.
      * apply H. now right.
    + destruct Hx as [<- | Hx].
      * apply H. now left.
      * apply IH; [ | assumption]. intros z Hz. apply H. now right.
  - intros H x Hx. apply In_update_one in Hx.
    destruct Hx as [Hx | [y [Hy ->]]]; [now apply H | ].
    rewrite Hp. apply H. now apply find_one_Some in Hy.
Qed.

Lemma is_member_update_one (r : string) (v R : ObjectId)
    (upd : Room.t -> Room.t) (c : RoomRepository.collection) :
  (forall x, Room._id (upd x) = Room._id x) ->
  (forall x, Room.members (upd x) = Room.members x) ->
  RoomRepository.is_member r v
    (Mongo.update_one (fun x => oid_eqb (Room._id x) R) upd c)
  = RoomRepository.is_member r v c.
Proof.
  intros Hid Hm. unfold RoomRepository.is_member.
  destruct (ObjectId_of r) as [oid | ]; [ | reflexivity].
  pose proof (@find_one_update_one_verdict _
                (fun x => oid_eqb (Room._id x) R)
                (fun x => oid_eqb (Room._id x) oid
                          && Mongo.contains v (Room.members x)) upd c) as H.
  destruct (Mongo.find_one _ (Mongo.update_one _ upd c)) as [a | ] eqn:E1;
    destruct (Mongo.find_one _ c) as [b | ] eqn:E2; try reflexivity.
  - assert (Some a = None) by (apply H; [ | reflexivity];
      intros x; now rewrite Hid, Hm). discriminate.
  - assert (Some b = None) by (apply H; [ | reflexivity];
      intros x; now rewrite Hid, Hm). discriminate.
Qed.

(** X11.  For a member of the room and a content that is not blank, the
    REST [send_message] answers 201 with a message that carries the
    stripped content and no reader, appends exactly that message to the
    log, and sets the room's preview to the first 100 characters of the
    content (the whole content when it is shorter).  Room membership is
    untouched; the unread count of the room grows by one for every other
    user and stays as it was for the sender. *)
Theorem send_message_stores
    (d : db) (u r : string) (U R : ObjectId) (content : string)
    (message_type : option string) (id : ObjectId) (now : Z)
    (HU : ObjectId_of u = Some U) (HR : ObjectId_of r = Some R)
    (Hmember : RoomRepository.is_member r U (rooms d) = Some true)
    (Hcontent : Text.all_space content = false)
    (Hfresh : fresh Message._id id (messages d)) :
  exists d' room,
    ChatMore.send_message u r (Some content) message_type id now d
      = (Sent
           (Message.mk id U R (Text.strip content)
              (match message_type with Some t => t | None => "text" end)
              now []) 201, d')
    /\ messages d'
       = messages d
         ++ [Message.mk id U R (Text.strip content)
               (match message_type with Some t => t | None => "text" end)
               now []]
    /\ RoomRepository.find_by_id r (rooms d') = Some (Some room)
    /\ Room.last_message room
       = Some (Room.mk_preview (Text.prefix 100 (Text.strip content))
                 (ChatMore.sender_name
                    (Mongo.find_one (fun x => oid_eqb (User._id x) U)
                       (users d))) now)
    /\ String.length (Text.prefix 100 (Text.strip content)) <= 100
    /\ String.prefix (Text.prefix 100 (Text.strip content))
         (Text.strip content) = true
    /\ (String.length (Text.strip content) <= 100 ->
        Text.prefix 100 (Text.strip content) = Text.strip content)
    /\ (forall v, RoomRepository.is_member r v (rooms d')
                  = RoomRepository.is_member r v (rooms d))
    /\ (forall v, v <> U ->
          MessageRepository.get_unread_count R v (messages d')
          = S (MessageRepository.get_unread_count R v (messages d)))
    /\ MessageRepository.get_unread_count R U (messages d')
       = MessageRepository.get_unread_count R U (messages d).
Proof.
  destruct (@is_member_true r U R (rooms d) HR Hmember) as [room0 Hroom0].
  unfold ChatMore.send_message.
  rewrite (validate_of _ HR), HU, HR, Hmember. simpl negb. cbv iota.
  destruct (Text.strip content) as [ | c0 rest] eqn:Es.
  { apply strip_empty in Es. congruence. }
  cbv zeta iota. rewrite <- Es.
  unfold MessageRepository.create.
  rewrite (@insert_one_fresh _ Message._id
             (Message.mk id U R (Text.strip content)
                (match message_type with Some t => t | None => "text" end)
                now []) (messages d) Hfresh).
  unfold UserRepository.find_by_id. rewrite HU.
  unfold RoomRepository.update_last_message. rewrite HR. simpl.
  eexists. eexists. split; [reflexivity | ]. simpl.
  split; [reflexivity | ].
  split.
  { unfold RoomRepository.find_by_id. rewrite HR.
    rewrite (@update_one_find _ (fun x => oid_eqb (Room._id x) R) _ _ room0
               Hroom0); [reflexivity | ].
    simpl. now apply find_one_Some in Hroom0. }
  split; [reflexivity | ].
  split; [apply prefix_length | ].
  split; [apply prefix_is_prefix | ].
  split; [apply prefix_short | ].
  split.
  { intros v. apply is_member_update_one; reflexivity. }
  split.
  - intros v Hv. unfold MessageRepository.get_unread_count.
    rewrite count_documents_app. unfold Mongo.count_documents at 2. simpl.
    rewrite oid_eqb_refl. apply not_eq_sym in Hv. apply oid_eqb_neq in Hv.
    rewrite Hv. simpl. lia.
  - unfold MessageRepository.get_unread_count.
    rewrite count_documents_app. unfold Mongo.count_documents at 2. simpl.
    rewrite !oid_eqb_refl. simpl. lia.
Qed.

(** X12.  The REST [send_message] stores nothing and answers 400 for a
    room id that is not an object id, 403 for a caller who is not a
    member, and 400 "Message content is required" when the content is
    missing, empty or whitespace only. *)
Theorem send_message_refusals
    (d : db) (u r : string) (U : ObjectId) (content message_type : option string)
    (id : ObjectId) (now : Z) (HU : ObjectId_of u = Some U) :
  (validate_object_id r = false ->
     ChatMore.send_message u r content message_type id now d
     = (Refused "Invalid room ID" 400, d))
  /\ (RoomRepository.is_member r U (rooms d) = Some false ->
      ChatMore.send_message u r content message_type id now d
      = (Refused "Access denied" 403, d))
  /\ (RoomRepository.is_member r U (rooms d) = Some true ->
      Text.all_space (match content with Some c => c | None => "" end)
        = true ->
      ChatMore.send_message u r content message_type id now d
      = (Refused "Message content is required" 400, d)).
Proof.
  unfold ChatMore.send_message. split; [ | split].
  - intros ->. reflexivity.
  - intros Hm. unfold RoomRepository.is_member in Hm.
    unfold validate_object_id.
    destruct (ObjectId_of r) as [R | ] eqn:ER; [ | discriminate].
    simpl. rewrite HU.
    unfold RoomRepository.is_member. rewrite ER.
    destruct (Mongo.find_one _ (rooms d)); [discriminate | reflexivity].
  - intros Hm Hc. unfold validate_object_id.
    destruct (ObjectId_of r) as [R | ] eqn:ER;
      [ | unfold RoomRepository.is_member in Hm; rewrite ER in Hm;
          discriminate].
    simpl. rewrite HU, Hm.
    apply strip_empty in Hc. now rewrite Hc.
Qed.

(* ================================================================== *)
(** * Reading rooms and messages over REST *)
(* ================================================================== *)

(** X13.  A caller who is not a member of an existing room is answered
    403 "Access denied" by [get_room], [get_messages], [send_message],
    [mark_as_read] and, for a group room, [add_room_member]; none of them
    writes. *)
Theorem non_members_are_refused
    (d : db) (u r : string) (U R : ObjectId) (room : Room.t)
    (HU : ObjectId_of u = Some U) (HR : ObjectId_of r = Some R)
    (Hroom : Mongo.find_one (fun x => oid_eqb (Room._id x) R) (rooms d)
             = Some room)
    (Hnot : RoomRepository.is_member r U (rooms d) = Some false) :
  ChatMore.get_room u r d = Refused "Access denied" 403
  /\ (forall limit skip,
        ChatMore.get_messages u r limit skip d = Refused "Access denied" 403)
  /\ (forall content message_type id now,
        ChatMore.send_message u r content message_type id now d
        = (Refused "Access denied" 403, d))
  /\ Chat.mark_as_read u r d = (Response (Error "Access denied") 403, d)
  /\ (Room.room_type room = "group" ->
      forall new_member,
        Chat.add_room_member u r new_member d
        = (Response (Error "Access denied") 403, d)).
Proof.
  unfold ChatMore.get_room, ChatMore.get_messages, ChatMore.send_message,
    Chat.mark_as_read, Chat.add_room_member, RoomRepository.find_by_id.
  rewrite (validate_of _ HR), HU, HR, Hnot, Hroom. simpl.
  repeat split; try reflexivity.
  intros Ht new_member. now rewrite Ht.
Qed.

Lemma with_senders_ok (msgs : list Message.t) (c : UserRepository.collection) :
  (forall m, In m msgs -> well_formed (Message.sender_id m)) ->
  exists l,
    ChatMore.with_senders msgs c = Some l
    /\ List.map fst l = msgs
    /\ (forall m s, In (m, s) l ->
          s = Mongo.find_one
                (fun x => oid_eqb (User._id x) (Message.sender_id m)) c).
Proof.
  induction msgs as [ | m rest IH]; simpl; intros Hwf.
  - exists []. repeat split. intros m s [].
  - destruct IH as [l [Hl [Hmap Hs]]];
      [intros x Hx; apply Hwf; now right | ].
    unfold UserRepository.find_by_id.
    rewrite (Hwf m (or_introl eq_refl)). rewrite Hl.
    eexists. split; [reflexivity | ]. split; [simpl; now rewrite Hmap | ].
    intros m' s' [H | H]; [injection H as <- <-; reflexivity | eauto].
Qed.

(** X14.  For a member of the room, [get_messages] answers 200 with the
    page [find_by_room] returns for the given [limit] and [skip] (50 and 0
    when they are absent), each message together with the stored user
    whose id is its [sender_id], if there is one. *)
Theorem get_messages_for_members
    (d : db) (u r : string) (U R : ObjectId) (limit skip : option Z)
    (HU : ObjectId_of u = Some U) (HR : ObjectId_of r = Some R)
    (Hmember : RoomRepository.is_member r U (rooms d) = Some true)
    (Hskip : (0 <= match skip with Some s => s | None => 0 end)%Z)
    (Hsenders : forall m, In m (messages d) ->
                  well_formed (Message.sender_id m)) :
  exists enriched,
    ChatMore.get_messages u r limit skip d = Sent enriched 200
    /\ MessageRepository.find_by_room R
         (match limit with Some l => l | None => 50%Z end)
         (match skip with Some s => s | None => 0%Z end) (messages d)
       = Some (List.map fst enriched)
    /\ (forall m s, In (m, s) enriched ->
          s = Mongo.find_one
                (fun x => oid_eqb (User._id x) (Message.sender_id m))
                (users d)).
Proof.
  unfold ChatMore.get_messages.
  rewrite (validate_of _ HR), HU, HR, Hmember. simpl negb. cbv iota zeta.
  destruct (proj2 (find_by_room_page_aux R
                     (match limit with Some l => l | None => 50%Z end)
                     (match skip with Some s => s | None => 0%Z end)
                     (messages d)) Hskip) as [msgs [Hfind Hin]].
  rewrite Hfind.
  destruct (@with_senders_ok msgs (users d)) as [l [Hl [Hmap Hs]]].
  { intros m Hm. apply Hsenders. now apply Hin. }
  rewrite Hl. exists l. rewrite Hmap. auto.
Qed.

(** X15.  [find_user_rooms] returns exactly the stored rooms that list
    the user, each as often as it is stored, ordered by the time of the
    last message, newest first, with the rooms that have no last message
    at the end. *)
Theorem find_user_rooms_lists_memberships
    (user : ObjectId) (c : RoomRepository.collection) :
  Permutation (Listing.find_user_rooms user c)
    (filter (fun r => Mongo.contains user (Room.members r)) c)
  /\ (forall r, In r (Listing.find_user_rooms user c)
                <-> In r c /\ In user (Room.members r))
  /\ StronglySorted (Listing.before Listing.last_message_at)
       (Listing.find_user_rooms user c)
  /\ (forall x y,
        Listing.before Listing.last_message_at x y ->
        (Room.last_message x = None -> Room.last_message y = None)
        /\ (forall p q,
              Room.last_message x = Some p -> Room.last_message y = Some q ->
              (Room.p_created_at q <= Room.p_created_at p)%Z)).
Proof.
  unfold Listing.find_user_rooms, Mongo.find.
  split; [apply Permutation_sym, sort_desc_perm | ].
  split.
  { intros r. rewrite sort_desc_In, filter_In, contains_In. tauto. }
  split; [apply sort_desc_sorted | ].
  intros x y. unfold Listing.before, Listing.last_message_at.
  destruct (Room.last_message x) as [p | ], (Room.last_message y) as [q | ];
    simpl; intros H; split; try congruence;
    intros p' q' Hp Hq; try discriminate.
  injection Hp as <-. injection Hq as <-. now apply Z.leb_le.
Qed.




(* ================================================================== *)
(** * Room directory: joining and leaving *)
(* ================================================================== *)

Lemma pull_In (v x : ObjectId) (arr : list ObjectId) :
  In x (Mongo.pull v arr) <-> In x arr /\ x <> v.
Proof.
  unfold Mongo.pull. rewrite filter_In, negb_true_iff, oid_eqb_neq. tauto.
Qed.

Lemma pull_absent (v : ObjectId) (arr : list ObjectId) :
  ~ In v arr -> Mongo.pull v arr = arr.
Proof.
  intros Hn. unfold Mongo.pull.
  induction arr as [ | x r IH]; simpl; [reflexivity | ].
  destruct (oid_eqb x v) eqn:E; simpl.
  - apply oid_eqb_eq in E. subst. exfalso. apply Hn. now left.
  - rewrite IH; [reflexivity | ]. intros H. apply Hn. now right.
Qed.

Section UpdateFacts.
Variable doc : Type.

Lemma update_one_noop (q : doc -> bool) (upd : doc -> doc) (c : list doc)
    (r : doc) :
  Mongo.find_one q c = Some r -> upd r = r -> Mongo.update_one q upd c = c.
Proof.
  unfold Mongo.find_one.
  induction c as [ | y t IH]; simpl; [reflexivity | ].
  destruct (q y).
  - intros H Hu. injection H as ->. now rewrite Hu.
  - intros H Hu. now rewrite IH.
Qed.

Lemma In_update_one_found (q : doc -> bool) (upd : doc -> doc)
    (c : list doc) (r : doc) :
  Mongo.find_one q c = Some r -> In (upd r) (Mongo.update_one q upd c).
Proof.
  unfold Mongo.find_one.
  induction c as [ | y t IH]; simpl; [discriminate | ].
  destruct (q y).
  - intros H. injection H as ->. now left.
  - intros H. right. now apply IH.
Qed.

Lemma In_update_one_other (q : doc -> bool) (upd : doc -> doc)
    (c : list doc) (x : doc) :
  In x c -> q x = false -> In x (Mongo.update_one q upd c).
Proof.
  induction c as [ | y t IH]; simpl; [tauto | ].
  intros [-> | Hin] Hq.
  - rewrite Hq. now left.
  - destruct (q y); right; auto.
Qed.

Lemma NoDup_map_In_eq (A : Type) (f : doc -> A) (l : list doc) (x y : doc) :
  NoDup (List.map f l) -> In x l -> In y l -> f x = f y -> x = y.
Proof.
  induction l as [ | z t IH]; simpl; [tauto | ].
  intros Hn. inversion Hn as [ | ? ? Hz Ht]; subst.
  intros [-> | Hx] [-> | Hy] Hf; auto.
  - exfalso. apply Hz. rewrite Hf. now apply in_map.
  - exfalso. apply Hz. rewrite <- Hf. now apply in_map.
Qed.

End UpdateFacts.

Lemma set_rooms_same (d : db) : set_rooms (rooms d) d = d.
Proof. now destruct d. Qed.

Lemma set_members_same (room : Room.t) :
  Room.set_members (fun _ => Room.members room) room = room.
Proof. now destruct room. Qed.

(** With unique room ids, membership in the room with id [R] after an
    update of that room is membership in the updated room. *)
Lemma is_member_after_update (r : string) (R v : ObjectId)
    (upd : Room.t -> Room.t) (c : RoomRepository.collection) (room : Room.t) :
  ObjectId_of r = Some R ->
  (forall x, Room._id (upd x) = Room._id x) ->
  NoDup (List.map Room._id c) ->
  Mongo.find_one (fun x => oid_eqb (Room._id x) R) c = Some room ->
  RoomRepository.is_member r v
    (Mongo.update_one (fun x => oid_eqb (Room._id x) R) upd c)
  = Some (Mongo.contains v (Room.members (upd room))).
Proof.
  intros HR Hid Hnd Hfind. unfold RoomRepository.is_member. rewrite HR.
  pose proof (@In_update_one_found _ _ upd _ _ Hfind) as Hin.
  assert (Room._id (upd room) = R) as HidR.
  { rewrite Hid. apply find_one_Some in Hfind. now apply oid_eqb_eq. }
  assert (NoDup (List.map Room._id
                   (Mongo.update_one (fun x => oid_eqb (Room._id x) R) upd c)))
    as Hnd' by (rewrite map_update_one; assumption).
  destruct (Mongo.contains v (Room.members (upd room))) eqn:Ec.
  - destruct (@find_one_exists _
                (fun x => oid_eqb (Room._id x) R
                          && Mongo.contains v (Room.members x))
                _ (upd room) Hin) as [x ->]; [ | reflexivity].
    rewrite HidR, oid_eqb_refl. exact Ec.
  - assert (Mongo.find_one
              (fun x => oid_eqb (Room._id x) R
                        && Mongo.contains v (Room.members x))
              (Mongo.update_one (fun x => oid_eqb (Room._id x) R) upd c)
            = None) as ->; [ | reflexivity].
    apply find_one_None. intros x Hx.
    destruct (oid_eqb (Room._id x) R) eqn:Ex; [ | reflexivity].
    apply oid_eqb_eq in Ex.
    assert (x = upd room) as ->.
    { apply (@NoDup_map_In_eq _ _ Room._id _ x (upd room) Hnd' Hx Hin).
      congruence. }
    exact Ec.
Qed.

(** X17.  When a member of a group room adds one of their friends,
    [add_room_member] answers 200; the room then lists the new member
    once, keeps every member it had, and no other room changes.  Adding
    someone who is already a member changes nothing. *)
Theorem add_room_member_adds
    (d : db) (u r nm : string) (U R N : ObjectId) (room : Room.t)
    (HU : ObjectId_of u = Some U) (HR : ObjectId_of r = Some R)
    (HN : ObjectId_of nm = Some N)
    (Hroom : Mongo.find_one (fun x => oid_eqb (Room._id x) R) (rooms d)
             = Some room)
    (Hgroup : Room.room_type room = "group")
    (Hmember : RoomRepository.is_member r U (rooms d) = Some true)
    (Hfriends : FriendshipRepository.are_friends U N (friendships d) = true) :
  exists d',
    Chat.add_room_member u r (Some nm) d
      = (Response (Msg "Member added successfully") 200, d')
    /\ RoomRepository.find_by_id r (rooms d')
       = Some (Some (Room.set_members (Mongo.addToSet N) room))
    /\ RoomRepository.is_member r N (rooms d') = Some true
    /\ incl (Room.members room) (Mongo.addToSet N (Room.members room))
    /\ (In N (Room.members room) -> d' = d)
    /\ (~ In N (Room.members room) ->
        Mongo.addToSet N (Room.members room) = Room.members room ++ [N])
    /\ (forall x, In x (rooms d) -> Room._id x <> R -> In x (rooms d')).
Proof.
  assert (truthy (Some nm) = true) as Htruthy.
  { unfold ObjectId_of in HN.
    destruct (String.length nm =? 24) eqn:El; [ | discriminate].
    apply Nat.eqb_eq in El. destruct nm; simpl in *; [discriminate | reflexivity]. }
  unfold Chat.add_room_member, RoomRepository.find_by_id,
    RoomRepository.add_member.
  rewrite (validate_of _ HR), HR, Hroom, Hgroup, HU, Hmember, Htruthy,
    (validate_of _ HN), HN, Hfriends. simpl.
  eexists. split; [reflexivity | ]. simpl.
  split.
  { rewrite (@update_one_find _ (fun x => oid_eqb (Room._id x) R) _ _ room
               Hroom); [reflexivity | ].
    simpl. now apply find_one_Some in Hroom. }
  split.
  { unfold RoomRepository.is_member. rewrite HR.
    pose proof (@In_update_one_found _ _
                  (Room.set_members (Mongo.addToSet N)) _ _ Hroom) as Hin.
    destruct (@find_one_exists _
                (fun x => oid_eqb (Room._id x) R
                          && Mongo.contains N (Room.members x))
                _ _ Hin) as [x ->]; [ | reflexivity].
    simpl. apply find_one_Some in Hroom. destruct Hroom as [_ ->]. simpl.
    apply contains_In, addToSet_In. }
  split; [apply addToSet_incl | ].
  split.
  { intros Hin. rewrite update_one_noop with (r := room);
      [apply set_rooms_same | assumption | ].
    unfold Room.set_members. rewrite addToSet_present by assumption.
    now destruct room. }
  split.
  { intros Hn. unfold Mongo.addToSet. apply contains_false in Hn.
    now rewrite Hn. }
  intros x Hx Hne. apply In_update_one_other; [assumption | ].
  now apply oid_eqb_neq.
Qed.

(** X18.  [leave_room] answers 200 for every existing room, whether or
    not the caller is a member: the caller is removed from the member
    list, every other member stays, and the room stays stored even when
    no member is left.  A caller who was not a member changes nothing. *)
Theorem leave_room_removes
    (d : db) (u r : string) (U R : ObjectId) (room : Room.t)
    (HU : ObjectId_of u = Some U) (HR : ObjectId_of r = Some R)
    (Hroom : Mongo.find_one (fun x => oid_eqb (Room._id x) R) (rooms d)
             = Some room) :
  exists d',
    Chat.leave_room u r d = (Response (Msg "Left room successfully") 200, d')
    /\ RoomRepository.find_by_id r (rooms d')
       = Some (Some (Room.set_members (Mongo.pull U) room))
    /\ (forall v, In v (Mongo.pull U (Room.members room))
                  <-> In v (Room.members room) /\ v <> U)
    /\ length (rooms d') = length (rooms d)
    /\ (NoDup (List.map Room._id (rooms d)) ->
        RoomRepository.is_member r U (rooms d') = Some false)
    /\ (~ In U (Room.members room) -> d' = d)
    /\ (forall x, In x (rooms d) -> Room._id x <> R -> In x (rooms d')).
Proof.
  unfold Chat.leave_room, RoomRepository.find_by_id,
    RoomRepository.remove_member.
  rewrite (validate_of _ HR), HR, Hroom, HU. simpl.
  eexists. split; [reflexivity | ]. simpl.
  split.
  { rewrite (@update_one_find _ (fun x => oid_eqb (Room._id x) R) _ _ room
               Hroom); [reflexivity | ].
    simpl. now apply find_one_Some in Hroom. }
  split; [intros v; apply pull_In | ].
  split; [apply length_update_one | ].
  split.
  { intros Hnd.
    rewrite (@is_member_after_update r R U _ (rooms d) room HR); auto.
    simpl. f_equal. apply contains_false. intros H. apply pull_In in H.
    now destruct H. }
  split.
  { intros Hn. rewrite update_one_noop with (r := room);
      [apply set_rooms_same | assumption | ].
    unfold Room.set_members. rewrite pull_absent by assumption.
    now destruct room. }
  intros x Hx Hne. apply In_update_one_other; [assumption | ].
  now apply oid_eqb_neq.
Qed.

Lemma collect_members_refuses (d : db) (U M : ObjectId)
    (friends_first : list string) (mid : string) (rest : list string)
    (acc : list ObjectId) :
  (forall m, In m (valid_ids friends_first) ->
     FriendshipRepository.are_friends U m (friendships d) = true) ->
  ObjectId_of mid = Some M ->
  FriendshipRepository.are_friends U M (friendships d) = false ->
  Chat.collect_members d U (friends_first ++ mid :: rest) acc
  = inl (Response
           (Error ("You can only create rooms with your friends. You are not friends with "
                   ++ Chat.member_name mid d ++ ".")%string) 403).
Proof.
  intros Hfirst HM Hnot. revert acc.
  induction friends_first as [ | x t IH]; intros acc; simpl.
  - rewrite (validate_of _ HM), HM, Hnot. reflexivity.
  - unfold validate_object_id. simpl in Hfirst.
    destruct (ObjectId_of x) as [m | ] eqn:E.
    + rewrite (Hfirst m (or_introl eq_refl)). simpl.
      apply IH. intros y Hy. apply Hfirst. now right.
    + apply IH. exact Hfirst.
Qed.

(** X19.  [create_room] stores nothing when a requested member is not a
    friend of the caller: the first valid id in the list that is not a
    friend ends the request with 403, and the message names that user by
    the stored username, or "Unknown user" when no such user is stored.
    Ids that do not validate before it play no role. *)
Theorem create_room_refuses_non_friend
    (d : db) (u : string) (U M : ObjectId) (data : Chat.create_room_data)
    (id : ObjectId) (now : Z)
    (friends_first : list string) (mid : string) (rest : list string)
    (HU : ObjectId_of u = Some U)
    (Hmembers : Chat.d_members data = friends_first ++ mid :: rest)
    (Hfirst : forall m, In m (valid_ids friends_first) ->
                FriendshipRepository.are_friends U m (friendships d) = true)
    (HM : ObjectId_of mid = Some M)
    (Hnot : FriendshipRepository.are_friends U M (friendships d) = false) :
  Chat.create_room u data id now d
    = (Response
         (Error ("You can only create rooms with your friends. You are not friends with "
                 ++ Chat.member_name mid d ++ ".")%string) 403, d)
  /\ (forall usr,
        Mongo.find_one (fun x => oid_eqb (User._id x) M) (users d) = Some usr ->
        Chat.member_name mid d = User.username usr)
  /\ (Mongo.find_one (fun x => oid_eqb (User._id x) M) (users d) = None ->
      Chat.member_name mid d = "Unknown user").
Proof.
  split; [ | split].
  - unfold Chat.create_room. rewrite Hmembers.
    destruct (friends_first ++ mid :: rest) as [ | x t] eqn:E.
    { destruct friends_first; discriminate. }
    rewrite HU. rewrite <- E.
    now rewrite (@collect_members_refuses d U M friends_first mid rest [U]
                   Hfirst HM Hnot).
  - intros usr Hf. unfold Chat.member_name, UserRepository.find_by_id.
    now rewrite HM, Hf.
  - intros Hf. unfold Chat.member_name, UserRepository.find_by_id.
    now rewrite HM, Hf.
Qed.

Ltac handler_cases :=
  repeat match goal with
         | |- context [match ?x with _ => _ end] => destruct x eqn:?
         end;
  simpl; try (right; reflexivity); try (left; is_succeeded).

(** X20.  A room handler that does not report success has not written:
    for [create_room], [mark_as_read], [add_room_member] and [leave_room]
    either the response is a 200 or 201 or the database is unchanged, and
    likewise [send_message] either answers 201 or leaves the database
    unchanged. *)
Theorem room_handlers_write_only_on_success (d : db) :
  (forall u data id now,
     FriendGraph.succeeded (fst (Chat.create_room u data id now d))
     \/ snd (Chat.create_room u data id now d) = d)
  /\ (forall u r,
        FriendGraph.succeeded (fst (Chat.mark_as_read u r d))
        \/ snd (Chat.mark_as_read u r d) = d)
  /\ (forall u r nm,
        FriendGraph.succeeded (fst (Chat.add_room_member u r nm d))
        \/ snd (Chat.add_room_member u r nm d) = d)
  /\ (forall u r,
        FriendGraph.succeeded (fst (Chat.leave_room u r d))
        \/ snd (Chat.leave_room u r d) = d)
  /\ (forall u r content message_type id now,
        (exists m,
           fst (ChatMore.send_message u r content message_type id now d)
           = Sent m 201)
        \/ snd (ChatMore.send_message u r content message_type id now d) = d).
Proof.
  split; [ | split; [ | split; [ | split]]].
  - intros u data id now. unfold Chat.create_room. handler_cases.
  - intros u r. unfold Chat.mark_as_read. handler_cases.
  - intros u r nm. unfold Chat.add_room_member. handler_cases.
  - intros u r. unfold Chat.leave_room. handler_cases.
  - intros u r content message_type id now. unfold ChatMore.send_message.
    handler_cases; try (left; eexists; reflexivity);
      unfold UserRepository.find_by_id, RoomRepository.update_last_message
        in *;
      repeat match goal with
             | H : ObjectId_of ?x = Some _, H' : context [ObjectId_of ?x] |- _ =>
                 rewrite H in H'
             end; discriminate.
Qed.

(* ================================================================== *)
(** * Listing friends and requests *)
(* ================================================================== *)

Lemma from_dict_ordered (f : Friendship.t) :
  str_lt (Friendship.user1_id f) (Friendship.user2_id f) = true ->
  Friendship.from_dict f = f.
Proof.
  intros H. unfold Friendship.from_dict, Friendship.init. rewrite H.
  now destruct f.
Qed.

Lemma ordered_lt (a b : ObjectId) :
  str_lt a b = true -> FriendshipRepository.ordered a b = (a, b).
Proof. intros H. unfold FriendshipRepository.ordered. now rewrite H. Qed.

Lemma str_lt_irrefl (a : ObjectId) : str_lt a a = false.
Proof.
  destruct (str_lt a a) eqn:E; [ | reflexivity].
  pose proof (str_lt_asym a a E). congruence.
Qed.

(** X21.  In a reachable friend graph, [get_user_friends] lists a user
    exactly when [are_friends] holds of the two, so the listing is
    symmetric: [b] is among the friends of [a] exactly when [a] is among
    the friends of [b]. *)
Theorem friends_list_matches_are_friends
    (d : db) (a b : ObjectId) (Hinv : FriendGraph.invariant d) :
  (In (str b)
      (List.map Listing.friend_id (Listing.get_user_friends a (friendships d)))
   <-> FriendshipRepository.are_friends a b (friendships d) = true)
  /\ (In (str b)
        (List.map Listing.friend_id
           (Listing.get_user_friends a (friendships d)))
      <-> In (str a)
            (List.map Listing.friend_id
               (Listing.get_user_friends b (friendships d)))).
Proof.
  assert (forall x y,
            In (str y)
              (List.map Listing.friend_id
                 (Listing.get_user_friends x (friendships d)))
            <-> FriendshipRepository.are_friends x y (friendships d) = true)
    as Hiff.
  { intros x y. unfold Listing.get_user_friends, Mongo.find, str.
    rewrite map_map. simpl. rewrite in_map_iff. split.
    - intros [f [Hf Hin]]. apply mongo_sort_desc_In in Hin.
      apply filter_In in Hin. destruct Hin as [Hin Hq].
      pose proof (FriendGraph.rows_ordered Hinv f Hin) as Hlt.
      rewrite (from_dict_ordered f Hlt) in Hf.
      apply are_friends_iff. exists f. split; [assumption | ].
      apply orb_true_iff in Hq.
      destruct (oid_eqb (Friendship.user1_id f) x) eqn:E1.
      + apply oid_eqb_eq in E1. left.
        exists (Friendship._id f), (Friendship.created_at f).
        unfold Friendship.init. rewrite <- E1, <- Hf, Hlt. now destruct f.
      + destruct Hq as [Hq | Hq]; [discriminate | ].
        apply oid_eqb_eq in Hq. right.
        exists (Friendship._id f), (Friendship.created_at f).
        unfold Friendship.init. rewrite <- Hq, <- Hf, Hlt. now destruct f.
    - intros Hfr. unfold FriendshipRepository.are_friends,
        FriendshipRepository.find_friendship in Hfr.
      destruct (Mongo.find_one _ (friendships d)) as [f | ] eqn:E;
        [ | discriminate].
      apply find_one_Some in E. destruct E as [Hin Hq].
      pose proof (FriendGraph.rows_ordered Hinv f Hin) as Hlt.
      unfold FriendshipRepository.pair_filter in Hq.
      apply andb_true_iff in Hq. destruct Hq as [H1 H2].
      apply oid_eqb_eq in H1. apply oid_eqb_eq in H2.
      exists f. split.
      + rewrite (from_dict_ordered f Hlt).
        unfold FriendshipRepository.ordered in H1, H2.
        destruct (str_lt x y) eqn:Exy; simpl in H1, H2.
        * rewrite H1, oid_eqb_refl. exact H2.
        * destruct (oid_eqb (Friendship.user1_id f) x) eqn:E1.
          -- apply oid_eqb_eq in E1. congruence.
          -- exact H1.
      + apply mongo_sort_desc_In. apply filter_In. split; [assumption | ].
        unfold FriendshipRepository.ordered in H1, H2.
        destruct (str_lt x y); simpl in H1, H2.
        * rewrite H1, oid_eqb_refl. reflexivity.
        * rewrite H2, oid_eqb_refl. apply orb_true_r. }
  split; [apply Hiff | ].
  rewrite (Hiff a b), (Hiff b a). now rewrite are_friends_sym.
Qed.

(** X22.  [get_pending_requests_to_user] lists exactly the stored
    requests that are pending and addressed to the user, newest first;
    [get_sent_requests_by_user] lists exactly the stored requests the user
    sent, whatever their status, newest first. *)
Theorem request_listings
    (user : ObjectId) (c : FriendRequestRepository.collection) :
  (forall r, In r (Listing.get_pending_requests_to_user user c)
             <-> In r c /\ FriendRequest.to_user_id r = user
                 /\ FriendRequest.status r = "pending")
  /\ StronglySorted
       (fun x y => (FriendRequest.created_at y <= FriendRequest.created_at x)%Z)
       (Listing.get_pending_requests_to_user user c)
  /\ (forall r, In r (Listing.get_sent_requests_by_user user c)
                <-> In r c /\ FriendRequest.from_user_id r = user)
  /\ StronglySorted
       (fun x y => (FriendRequest.created_at y <= FriendRequest.created_at x)%Z)
       (Listing.get_sent_requests_by_user user c)
  /\ length (Listing.get_sent_requests_by_user user c)
     = Mongo.count_documents
         (fun r => oid_eqb (FriendRequest.from_user_id r) user) c.
Proof.
  unfold Listing.get_pending_requests_to_user,
    Listing.get_sent_requests_by_user, Mongo.find.
  split; [ | split; [ | split; [ | split]]].
  - intros r. rewrite mongo_sort_desc_In, filter_In, andb_true_iff,
      oid_eqb_eq, String.eqb_eq. tauto.
  - apply mongo_sort_desc_sorted.
  - intros r. rewrite mongo_sort_desc_In, filter_In, oid_eqb_eq. tauto.
  - apply mongo_sort_desc_sorted.
  - unfold Mongo.count_documents. symmetry. apply Permutation_length.
    apply mongo_sort_desc_perm.
Qed.

(* ================================================================== *)
(** * The further statements at sample data *)
(* ================================================================== *)

Lemma db_requested_invariant : FriendGraph.invariant Examples.db_requested.
Proof.
  apply send_keeps_invariant. now apply start_invariant.
Qed.

Lemma db_ab_invariant : FriendGraph.invariant Examples.db_ab.
Proof. apply accept_keeps_invariant, db_requested_invariant. Qed.

Lemma reachable_invariant_witness : FriendGraph.invariant Examples.db_ab.
Proof.
  apply reachable_invariant.
  change Examples.db_ab
    with (snd (FriendGraph.handle
                 (FriendGraph.Accept Examples.bob Examples.request1
                    Examples.friendship1 11)
                 (snd (FriendGraph.handle
                         (FriendGraph.Send Examples.alice (Some Examples.bob)
                            Examples.request1 10) Examples.db0)))).
  apply FriendGraph.reach_step, FriendGraph.reach_step.
  apply FriendGraph.reach_start; reflexivity.
Defined.

Lemma remove_friend_unfriends_witness :
  fst (Friends.remove_friend Examples.alice Examples.bob Examples.db_ab)
    = Response (Msg "Friend removed successfully") 200
  /\ FriendshipRepository.are_friends Examples.alice Examples.bob
       (friendships
          (snd (Friends.remove_friend Examples.alice Examples.bob
                  Examples.db_ab))) = false
  /\ FriendshipRepository.are_friends Examples.bob Examples.alice
       (friendships
          (snd (Friends.remove_friend Examples.alice Examples.bob
                  Examples.db_ab))) = false.
Proof.
  destruct (@remove_friend_unfriends Examples.db_ab Examples.alice
              Examples.bob Examples.alice Examples.bob db_ab_invariant
              eq_refl eq_refl eq_refl) as [H1 [H2 [H3 _]]].
  exact (conj H1 (conj H2 H3)).
Defined.

Lemma answered_request_is_final_witness :
  snd (Friends.accept_friend_request Examples.bob Examples.request1
         Examples.friendship2 20 Examples.db_ab) = Examples.db_ab
  /\ snd (Friends.decline_friend_request Examples.bob Examples.request1 20
            Examples.db_ab) = Examples.db_ab
  /\ snd (Friends.cancel_friend_request Examples.alice Examples.request1
            Examples.db_ab) = Examples.db_ab.
Proof.
  assert (FriendGraph.succeeded
            (fst (if true
                  then Friends.accept_friend_request Examples.bob
                         Examples.request1 Examples.friendship1 11
                         Examples.db_requested
                  else Friends.decline_friend_request Examples.bob
                         Examples.request1 11 Examples.db_requested)))
    as Hdone.
  { exists (FriendshipBody "Friend request accepted" Examples.friendship1), 200.
    split; [vm_compute; reflexivity | auto]. }
  pose proof (@answered_request_is_final Examples.db_requested Examples.bob
                Examples.request1 Examples.friendship1 11 true Hdone)
    as Hfinal.
  destruct (Hfinal Examples.bob Examples.friendship2 20%Z)
    as [[_ H1] [[_ H2] _]].
  destruct (Hfinal Examples.alice Examples.friendship2 20%Z)
    as [_ [_ [_ H3]]].
  exact (conj H1 (conj H2 H3)).
Defined.

Lemma only_the_parties_answer_witness :
  Friends.accept_friend_request Examples.carol Examples.request1
    Examples.friendship1 11 Examples.db_requested
  = (Response (Error "Access denied") 403, Examples.db_requested)
  /\ Friends.cancel_friend_request Examples.bob Examples.request1
       Examples.db_requested
     = (Response (Error "Access denied") 403, Examples.db_requested).
Proof.
  split.
  - refine (proj1 (proj1
              (@only_the_parties_answer Examples.db_requested Examples.carol
                 Examples.request1 Examples.carol Examples.request1
                 Samples.pending_request Examples.friendship1 11
                 eq_refl eq_refl eq_refl) _)).
    discriminate.
  - refine (proj2
              (@only_the_parties_answer Examples.db_requested Examples.bob
                 Examples.request1 Examples.bob Examples.request1
                 Samples.pending_request Examples.friendship1 11
                 eq_refl eq_refl eq_refl) _).
    discriminate.
Defined.

Lemma request_id_errors_witness :
  Friends.accept_friend_request Examples.bob "no-id" Examples.friendship1 11
    Examples.db_requested
  = (Response (Error "Invalid request ID") 400, Examples.db_requested)
  /\ Friends.cancel_friend_request Examples.bob Examples.request2
       Examples.db_requested
     = (Response (Error "Friend request not found") 404,
        Examples.db_requested).
Proof.
  split.
  - refine (proj1 (proj1
              (@request_id_errors Examples.db_requested Examples.bob "no-id"
                 Examples.bob Examples.friendship1 11 eq_refl) eq_refl)).
  - refine (proj2 (proj2 (proj2
              (@request_id_errors Examples.db_requested Examples.bob
                 Examples.request2 Examples.bob Examples.friendship1 11
                 eq_refl) Examples.request2 eq_refl _))).
    intros r Hr. vm_compute in Hr. destruct Hr as [<- | []]. discriminate.
Defined.

Lemma withdrawn_request_frees_the_pair_witness :
  FriendGraph.pending_count Examples.alice Examples.bob
    (snd (Friends.cancel_friend_request Examples.alice Examples.request1
            Examples.db_requested)) = 0
  /\ fst (Friends.send_friend_request Examples.bob (Some Examples.alice)
            Examples.request2 20
            (snd (Friends.cancel_friend_request Examples.alice
                    Examples.request1 Examples.db_requested)))
     = Response
         (RequestBody "Friend request sent successfully" Examples.request2)
         201.
Proof.
  assert (FriendGraph.succeeded
            (fst (if true
                  then Friends.cancel_friend_request Examples.alice
                         Examples.request1 Examples.db_requested
                  else Friends.decline_friend_request Examples.alice
                         Examples.request1 0 Examples.db_requested)))
    as Hdone.
  { exists (Msg "Friend request cancelled"), 200.
    split; [vm_compute; reflexivity | auto]. }
  assert (user_exists Examples.alice (users Examples.db_requested)) as Hua.
  { exists (User.mk Examples.alice "alice" "offline").
    split; [simpl; auto | reflexivity]. }
  assert (user_exists Examples.bob (users Examples.db_requested)) as Hub.
  { exists (User.mk Examples.bob "bob" "offline").
    split; [simpl; auto | reflexivity]. }
  destruct (@withdrawn_request_frees_the_pair Examples.db_requested
              Examples.alice Examples.request1 0 true Examples.request1
              Samples.pending_request Examples.alice Examples.bob
              Examples.request2 Examples.request2 20 20
              db_requested_invariant eq_refl eq_refl eq_refl eq_refl
              Hua Hub Hdone _ eq_refl) as [H0 [_ H2]].
  split; [exact H0 | ]. apply H2.
  intros x Hx. vm_compute in Hx. contradiction.
Defined.

Lemma marking_read_is_per_user_witness :
  MessageRepository.get_unread_count Examples.room1 Examples.bob
    (MessageRepository.mark_room_messages_as_read Examples.room1
       Examples.alice (Examples.log 3))
  = MessageRepository.get_unread_count Examples.room1 Examples.bob
      (Examples.log 3)
  /\ MessageRepository.get_unread_count Examples.room1 Examples.bob
       (Examples.log 3) = 3.
Proof.
  split; [ | vm_compute; reflexivity].
  refine (proj1
            (@marking_read_is_per_user Examples.alice Examples.bob
               (Examples.log 3) _) Examples.room1 Examples.room1).
  discriminate.
Defined.

Lemma send_message_stores_witness :
  exists d',
    ChatMore.send_message Examples.bob Examples.room1 (Some "  hello  ") None
      Samples.message1 40 Examples.db_room
    = (Sent
         (Message.mk Samples.message1 Examples.bob Examples.room1 "hello"
            "text" 40 []) 201, d')
    /\ MessageRepository.get_unread_count Examples.room1 Examples.alice
         (messages d') = 1
    /\ MessageRepository.get_unread_count Examples.room1 Examples.bob
         (messages d') = 0.
Proof.
  destruct (@send_message_stores Examples.db_room Examples.bob Examples.room1
              Examples.bob Examples.room1 "  hello  " None Samples.message1
              40 eq_refl eq_refl eq_refl eq_refl)
    as [d' [room [H1 [_ [_ [_ [_ [_ [_ [_ [H9 H10]]]]]]]]]]].
  { intros x Hx. vm_compute in Hx. contradiction. }
  exists d'. split; [exact H1 | ]. split.
  - rewrite (H9 Examples.alice); [reflexivity | discriminate].
  - rewrite H10. reflexivity.
Defined.

Lemma send_message_refusals_witness :
  ChatMore.send_message Examples.carol Examples.room1 (Some "hi") None
    Samples.message1 40 Examples.db_room
  = (Refused "Access denied" 403, Examples.db_room)
  /\ ChatMore.send_message Examples.bob Examples.room1 (Some "   ") None
       Samples.message1 40 Examples.db_room
     = (Refused "Message content is required" 400, Examples.db_room).
Proof.
  split.
  - refine (proj1 (proj2
              (@send_message_refusals Examples.db_room Examples.carol
                 Examples.room1 Examples.carol (Some "hi") None
                 Samples.message1 40 eq_refl)) eq_refl).
  - refine (proj2 (proj2
              (@send_message_refusals Examples.db_room Examples.bob
                 Examples.room1 Examples.bob (Some "   ") None
                 Samples.message1 40 eq_refl)) eq_refl eq_refl).
Defined.

Lemma non_members_are_refused_witness :
  ChatMore.get_room Examples.carol Examples.room2 Samples.db_group
    = Refused "Access denied" 403
  /\ ChatMore.get_messages Examples.carol Examples.room2 None None
       Samples.db_group = Refused "Access denied" 403
  /\ Chat.add_room_member Examples.carol Examples.room2 (Some Examples.alice)
       Samples.db_group
     = (Response (Error "Access denied") 403, Samples.db_group).
Proof.
  destruct (@non_members_are_refused Samples.db_group Examples.carol
              Examples.room2 Examples.carol Examples.room2 Samples.group_room
              eq_refl eq_refl eq_refl eq_refl) as [H1 [H2 [_ [_ H5]]]].
  split; [exact H1 | ]. split; [apply H2 | ]. now apply H5.
Defined.

Lemma get_messages_for_members_witness :
  exists enriched,
    ChatMore.get_messages Examples.bob Examples.room1 (Some 2%Z) None
      Examples.db_log = Sent enriched 200
    /\ List.map (fun e => Message._id (fst e)) enriched
       = [Examples.message_id 1; Examples.message_id 2].
Proof.
  destruct (@get_messages_for_members Examples.db_log Examples.bob
              Examples.room1 Examples.bob Examples.room1 (Some 2%Z) None
              eq_refl eq_refl eq_refl)
    as [enriched [H1 [H2 _]]].
  { simpl. lia. }
  { intros m Hm. vm_compute in Hm.
    destruct Hm as [<- | [<- | [<- | []]]]; reflexivity. }
  exists enriched. split; [exact H1 | ].
  rewrite <- (map_map fst Message._id).
  assert (Some (List.map fst enriched)
          = Some [Examples.message 1; Examples.message 2]) as Heq.
  { rewrite <- H2. vm_compute. reflexivity. }
  injection Heq as ->. reflexivity.
Defined.


Lemma add_room_member_adds_witness :
  exists d',
    Chat.add_room_member Examples.alice Examples.room2 (Some Examples.carol)
      Samples.db_group
    = (Response (Msg "Member added successfully") 200, d')
    /\ RoomRepository.is_member Examples.room2 Examples.carol (rooms d')
       = Some true.
Proof.
  destruct (@add_room_member_adds Samples.db_group Examples.alice
              Examples.room2 Examples.carol Examples.alice Examples.room2
              Examples.carol Samples.group_room eq_refl eq_refl eq_refl
              eq_refl eq_refl eq_refl eq_refl) as [d' [H1 [_ [H3 _]]]].
  exists d'. auto.
Defined.

Lemma leave_room_removes_witness :
  exists d',
    Chat.leave_room Examples.bob Examples.room1 Examples.db_room
    = (Response (Msg "Left room successfully") 200, d')
    /\ RoomRepository.is_member Examples.room1 Examples.bob (rooms d')
       = Some false
    /\ length (rooms d') = 1.
Proof.
  destruct (@leave_room_removes Examples.db_room Examples.bob Examples.room1
              Examples.bob Examples.room1 Samples.private_room eq_refl
              eq_refl eq_refl) as [d' [H1 [_ [_ [H4 [H5 _]]]]]].
  exists d'. split; [exact H1 | ]. split; [ | exact H4].
  apply H5. vm_compute. repeat constructor. simpl. tauto.
Defined.

Lemma create_room_refuses_non_friend_witness :
  Chat.create_room Examples.alice Samples.request_with_stranger
    Examples.room2 30 Examples.db_ab
  = (Response
       (Error "You can only create rooms with your friends. You are not friends with carol.")
       403, Examples.db_ab).
Proof.
  refine (proj1
            (@create_room_refuses_non_friend Examples.db_ab Examples.alice
               Examples.alice Examples.carol Samples.request_with_stranger
               Examples.room2 30 ["junk"; Examples.bob] Examples.carol []
               eq_refl eq_refl _ eq_refl eq_refl)).
  intros m Hm. vm_compute in Hm. destruct Hm as [<- | []].
  vm_compute; reflexivity.
Defined.

Lemma friends_list_matches_are_friends_witness :
  In (str Examples.bob)
    (List.map Listing.friend_id
       (Listing.get_user_friends Examples.alice (friendships Examples.db_ab)))
  /\ In (str Examples.alice)
       (List.map Listing.friend_id
          (Listing.get_user_friends Examples.bob
             (friendships Examples.db_ab))).
Proof.
  assert (FriendshipRepository.are_friends Examples.alice Examples.bob
            (friendships Examples.db_ab) = true) as Hfr
    by (vm_compute; reflexivity).
  pose proof (@friends_list_matches_are_friends Examples.db_ab Examples.alice
                Examples.bob db_ab_invariant) as H.
  exact (conj (proj2 (proj1 H) Hfr) (proj1 (proj2 H) (proj2 (proj1 H) Hfr))).
Defined.

(* ================================================================== *)
(** * Realtime: rooms of the transport *)
(* ================================================================== *)

Lemma truthy_of (s : string) (o : ObjectId) :
  ObjectId_of s = Some o -> truthy (Some s) = true.
Proof.
  unfold ObjectId_of. intros H.
  destruct (String.length s =? 24) eqn:El; [ | discriminate].
  apply Nat.eqb_eq in El. destruct s; simpl in *; [discriminate | reflexivity].
Qed.

Lemma truthy_nonempty (s : string) : truthy (Some s) = true <-> s <> "".
Proof. destruct s; simpl; split; congruence. Qed.

Lemma pair_eqb_eq (p : string * string) (sid room : string) :
  String.eqb (fst p) sid && String.eqb (snd p) room = true <-> p = (sid, room).
Proof.
  destruct p as [a b]. simpl.
  rewrite andb_true_iff, !String.eqb_eq. split.
  - intros [-> ->]. reflexivity.
  - intros H. injection H as -> ->. auto.
Qed.

Lemma in_room_In (sid room : string) (t : list (string * string)) :
  Realtime.in_room sid room t = true <-> In (sid, room) t.
Proof.
  unfold Realtime.in_room. rewrite existsb_exists. split.
  - intros [p [Hin Hp]]. apply pair_eqb_eq in Hp. now subst.
  - intros Hin. exists (sid, room). split; [assumption | ].
    now apply pair_eqb_eq.
Qed.

Lemma sessions_in_In (s room : string) (t : list (string * string)) :
  In s (Realtime.sessions_in room t) <-> In (s, room) t.
Proof.
  unfold Realtime.sessions_in. rewrite in_map_iff. split.
  - intros [[a b] [<- Hin]]. apply filter_In in Hin. simpl in *.
    destruct Hin as [Hin Hb]. apply String.eqb_eq in Hb. now subst.
  - intros Hin. exists (s, room). split; [reflexivity | ].
    apply filter_In. split; [assumption | apply String.eqb_refl].
Qed.

(** With [include_self=False] the caller is never reached; everyone
    else in the room is. *)
Lemma recipients_others (sid s room : string) (t : list (string * string)) :
  In s (Realtime.recipients sid (Realtime.OthersInRoom room) t)
  <-> In (s, room) t /\ s <> sid.
Proof.
  simpl. rewrite filter_In, sessions_in_In, negb_true_iff, String.eqb_neq.
  tauto.
Qed.

Lemma join_room_In (sid room : string) (w : Realtime.world)
    (p : string * string) :
  In p (Realtime.sio_rooms (Realtime.join_room sid room w))
  <-> In p (Realtime.sio_rooms w) \/ p = (sid, room).
Proof.
  unfold Realtime.join_room.
  destruct (Realtime.in_room sid room (Realtime.sio_rooms w)) eqn:E; simpl.
  - apply in_room_In in E. split; [auto | ]. intros [H | ->]; assumption.
  - rewrite in_app_iff. simpl. intuition.
Qed.

Lemma join_room_rest (sid room : string) (w : Realtime.world) :
  Realtime.store (Realtime.join_room sid room w) = Realtime.store w
  /\ Realtime.connected_users (Realtime.join_room sid room w)
     = Realtime.connected_users w
  /\ Realtime.outbox (Realtime.join_room sid room w) = Realtime.outbox w.
Proof.
  unfold Realtime.join_room.
  destruct (Realtime.in_room sid room (Realtime.sio_rooms w)); auto.
Qed.

Lemma leave_room_In (sid room : string) (w : Realtime.world)
    (p : string * string) :
  In p (Realtime.sio_rooms (Realtime.leave_room sid room w))
  <-> In p (Realtime.sio_rooms w) /\ p <> (sid, room).
Proof.
  unfold Realtime.leave_room. simpl. rewrite filter_In, negb_true_iff.
  split; intros [Hin Hp]; split; try assumption.
  - intros Heq. apply pair_eqb_eq in Heq. congruence.
  - destruct (_ && _) eqn:E; [ | reflexivity].
    apply pair_eqb_eq in E. contradiction.
Qed.

(** X23.  [handle_join_room] lets a session into a room only when the
    user named in the payload is a member of it.  A non-member gets the
    error "Access denied" and the room table is unchanged.  For a member
    the session is in the room afterwards, the database is untouched, the
    caller alone receives [joined_room], and [user_joined] reaches exactly
    the sessions that were in the room before, never the caller. *)
Theorem join_room_checks_membership
    (w : Realtime.world) (sid r u : string) (U R : ObjectId)
    (HU : ObjectId_of u = Some U) (HR : ObjectId_of r = Some R) :
  (RoomRepository.is_member r U (rooms (Realtime.store w)) = Some false ->
     Realtime.handle_join_room sid (Some r) (Some u) w
     = Realtime.error sid "Access denied" w)
  /\ (RoomRepository.is_member r U (rooms (Realtime.store w)) = Some true ->
      Realtime.store (Realtime.handle_join_room sid (Some r) (Some u) w)
        = Realtime.store w
      /\ (forall p,
            In p (Realtime.sio_rooms
                    (Realtime.handle_join_room sid (Some r) (Some u) w))
            <-> In p (Realtime.sio_rooms w) \/ p = (sid, r))
      /\ exists others,
           Realtime.outbox
             (Realtime.handle_join_room sid (Some r) (Some u) w)
           = Realtime.outbox w
             ++ [Realtime.mk_emission "joined_room"
                   (Realtime.Fields [("room_id", r)]) Realtime.Caller sid
                   [sid];
                 Realtime.mk_emission "user_joined"
                   (Realtime.Fields [("room_id", r); ("user_id", u)])
                   (Realtime.OthersInRoom r) sid others]
           /\ (forall s, In s others
                         <-> In (s, r) (Realtime.sio_rooms w) /\ s <> sid)).
Proof.
  unfold Realtime.handle_join_room.
  rewrite (truthy_of _ HU), (truthy_of _ HR), HU. simpl.
  split; [now intros -> | ].
  intros ->.
  destruct (join_room_rest sid r w) as [Hs [_ Ho]].
  unfold Realtime.emit. simpl. rewrite Hs, Ho.
  split; [reflexivity | ].
  split; [intros p; apply join_room_In | ].
  eexists. split; [rewrite <- app_assoc; reflexivity | ].
  intros s. rewrite filter_In, sessions_in_In, join_room_In, negb_true_iff,
    String.eqb_neq.
  split.
  - intros [[H | H] Hne]; [auto | ]. injection H as ->. contradiction.
  - intros [H Hne]. auto.
Qed.

(** X24.  [handle_leave_room] takes the session out of the room and
    leaves every other membership and the database as they are; it checks
    neither membership nor the user id it is given: [left_room] goes to
    the caller and [user_left], with whatever user id the payload names,
    to the sessions that remain in the room.  Without a room id it does
    nothing. *)
Theorem leave_room_event
    (w : Realtime.world) (sid r : string) (user_id : option string)
    (Hr : r <> "") :
  Realtime.store (Realtime.handle_leave_room sid (Some r) user_id w)
    = Realtime.store w
  /\ (forall p,
        In p (Realtime.sio_rooms
                (Realtime.handle_leave_room sid (Some r) user_id w))
        <-> In p (Realtime.sio_rooms w) /\ p <> (sid, r))
  /\ (forall u, user_id = Some u -> u <> "" ->
      exists others,
        Realtime.outbox (Realtime.handle_leave_room sid (Some r) user_id w)
        = Realtime.outbox w
          ++ [Realtime.mk_emission "left_room"
                (Realtime.Fields [("room_id", r)]) Realtime.Caller sid [sid];
              Realtime.mk_emission "user_left"
                (Realtime.Fields [("room_id", r); ("user_id", u)])
                (Realtime.OthersInRoom r) sid others]
        /\ (forall s, In s others
                      <-> In (s, r) (Realtime.sio_rooms w) /\ s <> sid))
  /\ (truthy user_id = false ->
      Realtime.outbox (Realtime.handle_leave_room sid (Some r) user_id w)
      = Realtime.outbox w
        ++ [Realtime.mk_emission "left_room"
              (Realtime.Fields [("room_id", r)]) Realtime.Caller sid [sid]])
  /\ (forall uid, Realtime.handle_leave_room sid None uid w = w)
  /\ (forall uid, Realtime.handle_leave_room sid (Some "") uid w = w).
Proof.
  apply truthy_nonempty in Hr.
  unfold Realtime.handle_leave_room. rewrite Hr.
  split; [destruct (truthy user_id); [destruct user_id | ]; reflexivity | ].
  split.
  { intros p.
    destruct (truthy user_id); [destruct user_id | ]; simpl;
      apply leave_room_In. }
  split.
  { intros u -> Hu. apply truthy_nonempty in Hu. rewrite Hu.
    unfold Realtime.emit. simpl.
    eexists. split; [rewrite <- app_assoc; reflexivity | ].
    intros s. rewrite filter_In, sessions_in_In.
    pose proof (leave_room_In sid r w (s, r)) as Hl. simpl in Hl.
    rewrite Hl, negb_true_iff, String.eqb_neq.
    split.
    - intros [[H _] Hne]. auto.
    - intros [H Hne]. repeat split; auto. congruence. }
  split; [intros ->; reflexivity | ].
  split; reflexivity.
Qed.

(** X25.  [handle_typing] never changes the database, the registry or
    the room table.  It emits nothing when the room id or the user id is
    missing or empty; otherwise, without any membership check, it sends
    one [user_typing] event to the other sessions of the room, never to
    the caller, naming the stored user or "Unknown". *)
Theorem typing_is_transient
    (w : Realtime.world) (sid : string) (room_id user_id : option string)
    (is_typing : option bool) :
  Realtime.store (Realtime.handle_typing sid room_id user_id is_typing w)
    = Realtime.store w
  /\ Realtime.sio_rooms (Realtime.handle_typing sid room_id user_id is_typing w)
     = Realtime.sio_rooms w
  /\ Realtime.connected_users
       (Realtime.handle_typing sid room_id user_id is_typing w)
     = Realtime.connected_users w
  /\ (truthy room_id = false \/ truthy user_id = false ->
      Realtime.handle_typing sid room_id user_id is_typing w = w)
  /\ (forall r u U,
        room_id = Some r -> user_id = Some u -> r <> "" ->
        ObjectId_of u = Some U ->
        exists others,
          Realtime.outbox
            (Realtime.handle_typing sid room_id user_id is_typing w)
          = Realtime.outbox w
            ++ [Realtime.mk_emission "user_typing"
                  (Realtime.Typing r u
                     (match Mongo.find_one (fun x => oid_eqb (User._id x) U)
                              (users (Realtime.store w)) with
                      | Some usr => User.username usr
                      | None => "Unknown"
                      end)
                     (match is_typing with Some b => b | None => true end))
                  (Realtime.OthersInRoom r) sid others]
          /\ (forall s, In s others
                        <-> In (s, r) (Realtime.sio_rooms w) /\ s <> sid)).
Proof.
  unfold Realtime.handle_typing.
  split; [ | split; [ | split; [ | split]]].
  - destruct (negb (truthy room_id) || negb (truthy user_id));
      [reflexivity | ].
    destruct room_id, user_id; try reflexivity.
    destruct (UserRepository.find_by_id _ _); reflexivity.
  - destruct (negb (truthy room_id) || negb (truthy user_id));
      [reflexivity | ].
    destruct room_id, user_id; try reflexivity.
    destruct (UserRepository.find_by_id _ _); reflexivity.
  - destruct (negb (truthy room_id) || negb (truthy user_id));
      [reflexivity | ].
    destruct room_id, user_id; try reflexivity.
    destruct (UserRepository.find_by_id _ _); reflexivity.
  - intros [-> | ->]; simpl; [reflexivity | ].
    now rewrite orb_true_r.
  - intros r u U -> -> Hr HU. apply truthy_nonempty in Hr.
    rewrite Hr, (truthy_of _ HU). simpl.
    unfold UserRepository.find_by_id. rewrite HU.
    unfold Realtime.emit. simpl.
    eexists. split; [reflexivity | ].
    intros s. apply recipients_others.
Qed.

(* ================================================================== *)
(** * Realtime: sending a message *)
(* ================================================================== *)

Lemma validate_of_None (s : string) :
  ObjectId_of s = None -> validate_object_id s = false.
Proof. unfold validate_object_id. now intros ->. Qed.

Lemma notify_rest (sid r u : string) (m : Message.t) (sender : option User.t)
    (members : list ObjectId) (w : Realtime.world) :
  Realtime.store (Realtime.notify sid r u m sender members w)
    = Realtime.store w
  /\ Realtime.sio_rooms (Realtime.notify sid r u m sender members w)
     = Realtime.sio_rooms w
  /\ Realtime.connected_users (Realtime.notify sid r u m sender members w)
     = Realtime.connected_users w
  /\ Realtime.outbox (Realtime.notify sid r u m sender members w)
     = Realtime.outbox w
       ++ List.map
            (fun member =>
               Realtime.mk_emission "notification"
                 (Realtime.Notification r m sender)
                 (Realtime.InRoom ("user_" ++ str member)%string) sid
                 (Realtime.sessions_in ("user_" ++ str member)%string
                    (Realtime.sio_rooms w)))
            (List.filter (fun member => negb (String.eqb (str member) u))
               members).
Proof.
  revert w. induction members as [ | member rest IH]; intros w; simpl.
  - now rewrite app_nil_r.
  - destruct (negb (String.eqb (str member) u)); simpl.
    + specialize (IH (Realtime.emit sid "notification"
                        (Realtime.Notification r m sender)
                        (Realtime.InRoom ("user_" ++ str member)%string) w)).
      simpl in IH. destruct IH as [Hs [Ht [Hc Ho]]].
      rewrite Hs, Ht, Hc, Ho. rewrite <- app_assoc. auto.
    + apply IH.
Qed.

(** X26.  The realtime [handle_send_message] leaves the database exactly
    as the REST [send_message] does for the same user, room, content and
    message type, whatever they are: both store the same message and the
    same room preview, or both store nothing. *)
Theorem realtime_send_stores_like_rest
    (w : Realtime.world) (sid r u : string)
    (content message_type : option string) (id : ObjectId) (now : Z) :
  Realtime.store
    (Realtime.handle_send_message sid (Some r) (Some u) content message_type
       id now w)
  = snd (ChatMore.send_message u r content message_type id now
           (Realtime.store w)).
Proof.
  unfold Realtime.handle_send_message, ChatMore.send_message.
  destruct (ObjectId_of r) as [R | ] eqn:HR.
  2:{ rewrite (validate_of_None _ HR).
      match goal with
      | |- context [if ?b then _ else _] => destruct b
      end; [reflexivity | ].
      destruct (ObjectId_of u); reflexivity. }
  rewrite (validate_of _ HR), (truthy_of _ HR).
  destruct (ObjectId_of u) as [U | ] eqn:HU.
  2:{ match goal with
      | |- context [if ?b then _ else _] => destruct b
      end; reflexivity. }
  rewrite (truthy_of _ HU).
  change (negb true) with false. rewrite !orb_false_l. cbv iota.
  set (c := Text.strip match content with Some c => c | None => "" end).
  destruct c as [ | a rest] eqn:Ec.
  { simpl.
    destruct (RoomRepository.is_member r U (rooms (Realtime.store w)))
      as [[ | ] | ]; reflexivity. }
  change (negb (truthy (Some (String a rest)))) with false. cbv iota.
  destruct (RoomRepository.is_member r U (rooms (Realtime.store w)))
    as [[ | ] | ]; try reflexivity.
  destruct (MessageRepository.create _ _) as [[mid messages'] | ];
    [ | reflexivity].
  destruct (UserRepository.find_by_id u _) as [sender | ]; [ | reflexivity].
  destruct (RoomRepository.update_last_message r _ _) as [rooms' | ];
    [ | reflexivity].
  destruct (RoomRepository.find_by_id r _) as [[room | ] | ];
    try reflexivity.
  simpl snd.
  match goal with
  | |- context [Realtime.notify ?a ?b ?c ?d ?e ?f ?g] =>
      destruct (notify_rest a b c d e f g) as [Hs _]
  end.
  rewrite Hs. reflexivity.
Qed.

(** X27.  When a member sends a message that is not blank,
    [handle_send_message] emits [new_message] once, to the sessions of
    the chat room, and then one [notification] for every member of the
    room whose id text differs from the [user_id] of the payload, in the
    order of the member list, each to that member's personal room
    [user_<id>].  The personal room named after the payload's [user_id]
    gets none, and the room table is unchanged. *)
Theorem realtime_send_fans_out
    (w : Realtime.world) (sid r u : string) (U R : ObjectId)
    (content : string) (message_type : option string) (id : ObjectId)
    (now : Z) (room : Room.t)
    (HU : ObjectId_of u = Some U) (HR : ObjectId_of r = Some R)
    (Hmember : RoomRepository.is_member r U (rooms (Realtime.store w))
               = Some true)
    (Hroom : Mongo.find_one (fun x => oid_eqb (Room._id x) R)
               (rooms (Realtime.store w)) = Some room)
    (Hcontent : Text.all_space content = false)
    (Hfresh : fresh Message._id id (messages (Realtime.store w))) :
  let message :=
    Message.mk id U R (Text.strip content)
      (match message_type with Some t => t | None => "text" end) now [] in
  let sender :=
    Mongo.find_one (fun x => oid_eqb (User._id x) U)
      (users (Realtime.store w)) in
  let w' :=
    Realtime.handle_send_message sid (Some r) (Some u) (Some content)
      message_type id now w in
  Realtime.outbox w'
  = Realtime.outbox w
    ++ Realtime.mk_emission "new_message"
         (Realtime.NewMessage message sender) (Realtime.InRoom r) sid
         (Realtime.sessions_in r (Realtime.sio_rooms w))
       :: List.map
            (fun member =>
               Realtime.mk_emission "notification"
                 (Realtime.Notification r message sender)
                 (Realtime.InRoom ("user_" ++ str member)%string) sid
                 (Realtime.sessions_in ("user_" ++ str member)%string
                    (Realtime.sio_rooms w)))
            (List.filter (fun member => negb (String.eqb (str member) u))
               (Room.members room))
  /\ Realtime.sio_rooms w' = Realtime.sio_rooms w
  /\ (forall e, In e (Realtime.outbox w') -> ~ In e (Realtime.outbox w) ->
      Realtime.event e = "notification" ->
      Realtime.scope_of e <> Realtime.InRoom ("user_" ++ u)%string).
Proof.
  intros message sender w'.
  assert (Hout :
    Realtime.outbox w'
    = Realtime.outbox w
      ++ Realtime.mk_emission "new_message"
           (Realtime.NewMessage message sender) (Realtime.InRoom r) sid
           (Realtime.sessions_in r (Realtime.sio_rooms w))
         :: List.map
              (fun member =>
                 Realtime.mk_emission "notification"
                   (Realtime.Notification r message sender)
                   (Realtime.InRoom ("user_" ++ str member)%string) sid
                   (Realtime.sessions_in ("user_" ++ str member)%string
                      (Realtime.sio_rooms w)))
              (List.filter (fun member => negb (String.eqb (str member) u))
                 (Room.members room))
    /\ Realtime.sio_rooms w' = Realtime.sio_rooms w).
  { subst w'. unfold Realtime.handle_send_message.
    rewrite (truthy_of _ HU), (truthy_of _ HR).
    change (negb true) with false. rewrite !orb_false_l.
    destruct (Text.strip content) as [ | a rest] eqn:Es.
    { apply strip_empty in Es. congruence. }
    change (negb (truthy (Some (String a rest)))) with false. cbv iota.
    rewrite HU, HR, Hmember.
    unfold MessageRepository.create.
    rewrite (@insert_one_fresh _ Message._id
               (Message.mk id U R (String a rest)
                  (match message_type with Some t => t | None => "text" end)
                  now []) (messages (Realtime.store w)) Hfresh).
    unfold UserRepository.find_by_id. rewrite HU.
    unfold RoomRepository.update_last_message. rewrite HR.
    unfold RoomRepository.find_by_id. rewrite HR.
    cbn [rooms set_rooms set_messages users messages].
    rewrite (@update_one_find _ (fun x => oid_eqb (Room._id x) R) _ _ room
               Hroom).
    2:{ simpl. apply find_one_Some in Hroom. apply Hroom. }
    match goal with
    | |- context [Realtime.notify ?a ?b ?c ?d ?e ?f ?g] =>
        destruct (notify_rest a b c d e f g) as [_ [Ht [_ Ho]]]
    end.
    rewrite Ht, Ho. subst message sender. simpl.
    rewrite <- app_assoc. split; reflexivity. }
  destruct Hout as [Hout Ht].
  split; [exact Hout | ]. split; [exact Ht | ].
  intros e He Hnew Hev. rewrite Hout in He. apply in_app_or in He.
  destruct He as [He | [<- | He]]; [contradiction | discriminate | ].
  apply in_map_iff in He. destruct He as [member [<- Hm]].
  apply filter_In in Hm. destruct Hm as [_ Hm].
  apply negb_true_iff, String.eqb_neq in Hm.
  simpl. intros Heq. injection Heq as Heq. contradiction.
Qed.

(* ================================================================== *)
(** * Realtime: the registry of connected users *)
(* ================================================================== *)

Lemma get_set_same (k : string) (v : bool) (d : PyDict.t) :
  PyDict.get k (PyDict.set k v d) = Some v.
Proof.
  induction d as [ | [k' v'] r IH]; simpl.
  - now rewrite String.eqb_refl.
  - destruct (String.eqb k' k) eqn:E; simpl; now rewrite E.
Qed.

Lemma get_set_other (k k0 : string) (v : bool) (d : PyDict.t) :
  k0 <> k -> PyDict.get k0 (PyDict.set k v d) = PyDict.get k0 d.
Proof.
  intros Hne. induction d as [ | [k' v'] r IH]; simpl.
  - apply String.eqb_neq in Hne. rewrite String.eqb_sym in Hne.
    now rewrite Hne.
  - destruct (String.eqb k' k) eqn:E; simpl.
    + apply String.eqb_eq in E. subst k'.
      apply not_eq_sym, String.eqb_neq in Hne. now rewrite Hne.
    + now rewrite IH.
Qed.

Lemma keys_set_old (k : string) (v : bool) (d : PyDict.t) :
  In k (PyDict.keys d) -> PyDict.keys (PyDict.set k v d) = PyDict.keys d.
Proof.
  unfold PyDict.keys. induction d as [ | [k' v'] r IH]; simpl;
    [contradiction | ].
  destruct (String.eqb k' k) eqn:E; simpl; [reflexivity | ].
  intros [H | H].
  - apply String.eqb_neq in E. contradiction.
  - now rewrite IH.
Qed.

Lemma keys_set_new (k : string) (v : bool) (d : PyDict.t) :
  ~ In k (PyDict.keys d) ->
  PyDict.keys (PyDict.set k v d) = PyDict.keys d ++ [k].
Proof.
  unfold PyDict.keys. induction d as [ | [k' v'] r IH]; simpl;
    [reflexivity | ].
  intros Hn. destruct (String.eqb k' k) eqn:E; simpl.
  - apply String.eqb_eq in E. tauto.
  - rewrite IH; tauto.
Qed.

Lemma fold_join_rest (sid : string) (rs : list Room.t) (w : Realtime.world) :
  let w' :=
    List.fold_left
      (fun acc room => Realtime.join_room sid (str (Room._id room)) acc)
      rs w in
  Realtime.store w' = Realtime.store w
  /\ Realtime.connected_users w' = Realtime.connected_users w
  /\ Realtime.outbox w' = Realtime.outbox w
  /\ (forall p,
        In p (Realtime.sio_rooms w')
        <-> In p (Realtime.sio_rooms w)
            \/ exists room, In room rs /\ p = (sid, str (Room._id room))).
Proof.
  revert w. induction rs as [ | room rest IH]; intros w; simpl.
  - repeat split; auto. intros [H | [room [[] _]]]. assumption.
  - specialize (IH (Realtime.join_room sid (str (Room._id room)) w)).
    simpl in IH. destruct IH as [Hs [Hc [Ho Ht]]].
    destruct (join_room_rest sid (str (Room._id room)) w) as [Hs' [Hc' Ho']].
    rewrite Hs, Hc, Ho, Hs', Hc', Ho'. repeat split; trivial.
    + rewrite Ht, join_room_In.
      intros [[H | H] | [x [Hx Hp]]]; eauto.
    + rewrite Ht, join_room_In.
      intros [H | [x [[<- | Hx] Hp]]]; eauto.
Qed.

(** X28.  [handle_authenticate] with a token: when decoding fails the
    caller gets an authentication error and nothing changes.  When the
    token names a malformed user id the caller gets the same error, but
    the id stays registered as connected.  Otherwise the user is
    registered, stored as online, and the session is put in the personal
    room [user_<id>] and in the room of every stored chat room that lists
    the user, and in no other; [authenticated] carries the ids of those
    rooms, and the online status is broadcast.  Without a token only
    "Token required" is sent. *)
Theorem authenticate_joins_rooms
    (decode_token : string -> option string)
    (w : Realtime.world) (sid tk : string) (Htk : tk <> "") :
  let w' := Realtime.handle_authenticate decode_token sid (Some tk) w in
  (decode_token tk = None ->
     w' = Realtime.emit sid "error" Realtime.AuthenticationFailed
            Realtime.Caller w)
  /\ (forall u, decode_token tk = Some u -> ObjectId_of u = None ->
        w' = Realtime.emit sid "error" Realtime.AuthenticationFailed
               Realtime.Caller
               (Realtime.with_connected
                  (PyDict.set u true (Realtime.connected_users w)) w)
        /\ PyDict.get u (Realtime.connected_users w') = Some true)
  /\ (forall u U, decode_token tk = Some u -> ObjectId_of u = Some U ->
        PyDict.get u (Realtime.connected_users w') = Some true
        /\ users (Realtime.store w')
           = Mongo.update_one (fun x => oid_eqb (User._id x) U)
               (User.set_status "online") (users (Realtime.store w))
        /\ rooms (Realtime.store w') = rooms (Realtime.store w)
        /\ messages (Realtime.store w') = messages (Realtime.store w)
        /\ (forall p,
              In p (Realtime.sio_rooms w')
              <-> In p (Realtime.sio_rooms w)
                  \/ p = (sid, ("user_" ++ u)%string)
                  \/ exists room,
                       In room (rooms (Realtime.store w))
                       /\ In U (Room.members room)
                       /\ p = (sid, str (Room._id room)))
        /\ exists reached,
             Realtime.outbox w'
             = Realtime.outbox w
               ++ [Realtime.mk_emission "authenticated"
                     (Realtime.Authenticated u
                        (List.map (fun room => str (Room._id room))
                           (Listing.find_user_rooms U
                              (rooms (Realtime.store w)))))
                     Realtime.Caller sid [sid];
                   Realtime.mk_emission "user_status"
                     (Realtime.Fields
                        [("user_id", u); ("status", "online")])
                     Realtime.Everyone sid reached])
  /\ Realtime.handle_authenticate decode_token sid None w
     = Realtime.error sid "Token required" w
  /\ Realtime.handle_authenticate decode_token sid (Some "") w
     = Realtime.error sid "Token required" w.
Proof.
  intros w'. subst w'. apply truthy_nonempty in Htk.
  unfold Realtime.handle_authenticate. rewrite Htk.
  change (negb true) with false. cbv iota.
  split; [now intros -> | ].
  split.
  { intros u -> Hu. unfold UserRepository.update_status. rewrite Hu.
    split; [reflexivity | ]. simpl. apply get_set_same. }
  split; [ | split; reflexivity].
  intros u U -> HU. unfold UserRepository.update_status. rewrite HU.
  cbv zeta.
  match goal with
  | |- context [List.fold_left ?f ?rs (Realtime.join_room sid ?room ?w2)] =>
      destruct (join_room_rest sid room w2) as [Hs' [Hc' Ho']];
      assert (Hrs : rs = Listing.find_user_rooms U (rooms (Realtime.store w)))
        by (rewrite Hs'; reflexivity);
      rewrite Hrs;
      destruct (fold_join_rest sid
                  (Listing.find_user_rooms U (rooms (Realtime.store w)))
                  (Realtime.join_room sid room w2))
        as [Hs [Hc [Ho Ht]]]
  end.
  cbv zeta in Hs, Hc, Ho, Ht.
  unfold Realtime.emit. cbn [Realtime.store Realtime.connected_users
    Realtime.sio_rooms Realtime.outbox].
  rewrite Hs, Hc, Ho, Hs', Hc', Ho'.
  cbn [Realtime.store Realtime.connected_users Realtime.sio_rooms
    Realtime.outbox Realtime.with_store Realtime.with_connected
    users rooms messages set_users].
  split; [apply get_set_same | ].
  split; [reflexivity | ]. split; [reflexivity | ]. split; [reflexivity | ].
  split.
  - intros p. rewrite Ht, join_room_In.
    cbn [Realtime.store Realtime.connected_users Realtime.sio_rooms
      Realtime.outbox Realtime.with_store Realtime.with_connected
      users rooms messages set_users].
    split.
    + intros [[H | H] | [room [Hroom Hp]]]; auto.
      right. right. exists room.
      unfold Listing.find_user_rooms, Mongo.find in Hroom.
      rewrite sort_desc_In, filter_In, contains_In in Hroom. tauto.
    + intros [H | [H | [room [Hin [Hm Hp]]]]]; auto.
      right. exists room. split; [ | assumption].
      unfold Listing.find_user_rooms, Mongo.find.
      rewrite sort_desc_In, filter_In, contains_In. tauto.
  - eexists. rewrite <- app_assoc. reflexivity.
Qed.

Lemma set_all_true (k : string) (d : PyDict.t) :
  Forall (fun p => snd p = true) d ->
  Forall (fun p => snd p = true) (PyDict.set k true d).
Proof.
  induction 1 as [ | [k' v'] r Hx Hr IH]; simpl.
  - repeat constructor.
  - destruct (String.eqb k' k); constructor; auto.
Qed.

Lemma set_keys_NoDup (k : string) (v : bool) (d : PyDict.t) :
  NoDup (PyDict.keys d) -> NoDup (PyDict.keys (PyDict.set k v d)).
Proof.
  intros Hnd. destruct (in_dec string_dec k (PyDict.keys d)) as [Hin | Hout].
  - now rewrite keys_set_old.
  - rewrite keys_set_new by assumption. now apply NoDup_snoc.
Qed.

(** X29.  [handle_connect] with a token that decodes to a user id
    registers that id as connected, once: an id that is already
    registered keeps its single entry and its place, a new one goes to
    the end, and no other entry changes.  For a well-formed id the user
    is stored as online, the session enters the personal room
    [user_<id>] and the status is broadcast; for a malformed id the entry
    stays although nothing else happens.  Without a token, with an empty
    one, or when decoding fails, nothing changes at all. *)
Theorem connect_registers_user
    (decode_token : string -> option string)
    (w : SocketIO.world) (sid tk u : string)
    (Htk : tk <> "") (Hdecode : decode_token tk = Some u) :
  let w' := SocketIO.handle_connect decode_token sid (Some tk) w in
  PyDict.get u (SocketIO.connected_users w') = Some true
  /\ (forall k, k <> u ->
        PyDict.get k (SocketIO.connected_users w')
        = PyDict.get k (SocketIO.connected_users w))
  /\ (In u (PyDict.keys (SocketIO.connected_users w)) ->
      PyDict.keys (SocketIO.connected_users w')
      = PyDict.keys (SocketIO.connected_users w))
  /\ (~ In u (PyDict.keys (SocketIO.connected_users w)) ->
      PyDict.keys (SocketIO.connected_users w')
      = PyDict.keys (SocketIO.connected_users w) ++ [u])
  /\ (NoDup (PyDict.keys (SocketIO.connected_users w)) ->
      NoDup (PyDict.keys (SocketIO.connected_users w')))
  /\ (Forall (fun p => snd p = true) (SocketIO.connected_users w) ->
      Forall (fun p => snd p = true) (SocketIO.connected_users w'))
  /\ (forall U, ObjectId_of u = Some U ->
        users (SocketIO.store w')
        = Mongo.update_one (fun x => oid_eqb (User._id x) U)
            (User.set_status "online") (users (SocketIO.store w))
        /\ SocketIO.sio_rooms w'
           = SocketIO.sio_rooms w ++ [(sid, ("user_" ++ u)%string)]
        /\ SocketIO.outbox w'
           = SocketIO.outbox w ++ [SocketIO.user_status u "online"])
  /\ (ObjectId_of u = None ->
      SocketIO.store w' = SocketIO.store w
      /\ SocketIO.sio_rooms w' = SocketIO.sio_rooms w
      /\ SocketIO.outbox w' = SocketIO.outbox w)
  /\ SocketIO.handle_connect decode_token sid None w = w
  /\ SocketIO.handle_connect decode_token sid (Some "") w = w
  /\ (forall t, decode_token t = None ->
        SocketIO.handle_connect decode_token sid (Some t) w = w).
Proof.
  intros w'.
  assert (Hc : SocketIO.connected_users w'
               = PyDict.set u true (SocketIO.connected_users w)).
  { subst w'. unfold SocketIO.handle_connect.
    apply truthy_nonempty in Htk. rewrite Htk, Hdecode.
    destruct (UserRepository.update_status u "online" _); reflexivity. }
  rewrite Hc.
  split; [apply get_set_same | ].
  split; [intros k Hk; now apply get_set_other | ].
  split; [apply keys_set_old | ].
  split; [apply keys_set_new | ].
  split; [apply set_keys_NoDup | ].
  split; [apply set_all_true | ].
  subst w'. unfold SocketIO.handle_connect.
  pose proof Htk as Ht. apply truthy_nonempty in Ht. rewrite Ht, Hdecode.
  unfold UserRepository.update_status.
  split; [intros U ->; repeat split; reflexivity | ].
  split; [intros ->; repeat split; reflexivity | ].
  split; [reflexivity | ]. split; [reflexivity | ].
  intros t Hnone. destruct (truthy (Some t)); [ | reflexivity].
  now rewrite Hnone.
Qed.

Lemma pop_head (u : string) (v : bool) (rest : PyDict.t) :
  PyDict.pop u ((u, v) :: rest) = rest.
Proof. simpl. now rewrite String.eqb_refl. Qed.

(** X30.  In a registry where every entry is [True], as [handle_connect]
    leaves it, [handle_disconnect] removes exactly the oldest entry, the
    first key of the dictionary, whichever session closed: that user is
    stored as offline and announced offline, the other entries and the
    room table stay.  If that key is no well-formed id the entry is
    removed and nothing is stored or announced.  On an empty registry
    the handler does nothing. *)
Theorem disconnect_removes_oldest_entry
    (w : SocketIO.world)
    (Htrue : Forall (fun p => snd p = true) (SocketIO.connected_users w)) :
  let w' := SocketIO.handle_disconnect w in
  SocketIO.connected_users w' = List.tl (SocketIO.connected_users w)
  /\ SocketIO.sio_rooms w' = SocketIO.sio_rooms w
  /\ Forall (fun p => snd p = true) (SocketIO.connected_users w')
  /\ (NoDup (PyDict.keys (SocketIO.connected_users w)) ->
      NoDup (PyDict.keys (SocketIO.connected_users w')))
  /\ (SocketIO.connected_users w = [] -> w' = w)
  /\ (forall u v rest U,
        SocketIO.connected_users w = (u, v) :: rest ->
        ObjectId_of u = Some U ->
        users (SocketIO.store w')
        = Mongo.update_one (fun x => oid_eqb (User._id x) U)
            (User.set_status "offline") (users (SocketIO.store w))
        /\ SocketIO.outbox w'
           = SocketIO.outbox w ++ [SocketIO.user_status u "offline"])
  /\ (forall u v rest,
        SocketIO.connected_users w = (u, v) :: rest ->
        ObjectId_of u = None ->
        SocketIO.store w' = SocketIO.store w
        /\ SocketIO.outbox w' = SocketIO.outbox w).
Proof.
  intros w'. subst w'. unfold SocketIO.handle_disconnect.
  destruct w as [d c t o]. simpl in *.
  destruct c as [ | [u v] rest].
  { simpl. repeat split; auto; intros; discriminate. }
  inversion Htrue as [ | x l Hv Hrest]; subst. simpl in Hv. subst v.
  cbn [PyDict.keys List.map fst SocketIO.disconnect_loop
    SocketIO.connected_users].
  assert (Hget : PyDict.get u ((u, true) :: rest) = Some true).
  { simpl. now rewrite String.eqb_refl. }
  rewrite Hget, pop_head.
  unfold UserRepository.update_status.
  destruct (ObjectId_of u) as [U | ] eqn:HU; simpl;
    repeat match goal with |- _ /\ _ => split end; auto;
    try (intros Hnd; now inversion Hnd);
    try (intros; discriminate);
    try (intros u0 v0 rest0 U0 Heq HU0; injection Heq as -> -> ->;
         congruence);
    try (intros u0 v0 rest0 Heq HU0; injection Heq as -> -> ->; congruence).
  - intros u0 v0 rest0 U0 Heq HU0. injection Heq as -> -> ->.
    rewrite HU in HU0. now injection HU0 as ->.
Qed.

(* ================================================================== *)
(** * Realtime: the handlers at work *)
(* ================================================================== *)

Lemma join_room_checks_membership_witness :
  Realtime.handle_join_room "sid-c" (Some Examples.room1)
    (Some Examples.carol) Sessions.online
  = Realtime.error "sid-c" "Access denied" Sessions.online
  /\ Realtime.store
       (Realtime.handle_join_room "sid-a" (Some Examples.room1)
          (Some Examples.alice) Sessions.online)
     = Realtime.store Sessions.online.
Proof.
  split.
  - refine (proj1 (@join_room_checks_membership Sessions.online "sid-c"
                     Examples.room1 Examples.carol Examples.carol
                     Examples.room1 eq_refl eq_refl) _).
    vm_compute. reflexivity.
  - refine (proj1 (proj2 (@join_room_checks_membership Sessions.online
                            "sid-a" Examples.room1 Examples.alice
                            Examples.alice Examples.room1 eq_refl eq_refl)
                     _)).
    vm_compute. reflexivity.
Defined.

Lemma leave_room_event_witness :
  Realtime.store
    (Realtime.handle_leave_room "sid-b" (Some Examples.room1)
       (Some Examples.bob) Sessions.online)
  = Realtime.store Sessions.online
  /\ ~ In ("sid-b", Examples.room1)
         (Realtime.sio_rooms
            (Realtime.handle_leave_room "sid-b" (Some Examples.room1)
               (Some Examples.bob) Sessions.online)).
Proof.
  assert (Hr : Examples.room1 <> "") by (vm_compute; discriminate).
  pose proof (@leave_room_event Sessions.online "sid-b" Examples.room1
                (Some Examples.bob) Hr) as [Hs [Ht _]].
  split; [exact Hs | ].
  intros Hin. apply Ht in Hin. destruct Hin as [_ Hne]. now apply Hne.
Defined.

Lemma realtime_send_fans_out_witness :
  List.map (fun e => (Realtime.event e, Realtime.delivered_to e))
    (Realtime.outbox
       (Realtime.handle_send_message "sid-b" (Some Examples.room1)
          (Some Examples.bob) (Some "  hello  ") None Samples.message1 40
          Sessions.online))
  = [("new_message", ["sid-b"]); ("notification", ["sid-a"])].
Proof.
  assert (Hfresh : fresh Message._id Samples.message1
                     (messages (Realtime.store Sessions.online))).
  { intros x Hx. vm_compute in Hx. contradiction. }
  assert (Hmember : RoomRepository.is_member Examples.room1 Examples.bob
                      (rooms (Realtime.store Sessions.online)) = Some true)
    by (vm_compute; reflexivity).
  assert (Hroom : Mongo.find_one
                    (fun x => oid_eqb (Room._id x) Examples.room1)
                    (rooms (Realtime.store Sessions.online))
                  = Some Samples.private_room)
    by (vm_compute; reflexivity).
  assert (Hcontent : Text.all_space "  hello  " = false)
    by (vm_compute; reflexivity).
  pose proof (@realtime_send_fans_out Sessions.online "sid-b" Examples.room1
                Examples.bob Examples.bob Examples.room1 "  hello  " None
                Samples.message1 40 Samples.private_room eq_refl eq_refl
                Hmember Hroom Hcontent Hfresh) as H.
  cbv zeta in H. destruct H as [Hout _].
  etransitivity;
    [exact (f_equal
              (List.map
                 (fun e => (Realtime.event e, Realtime.delivered_to e)))
              Hout)
    | vm_compute; reflexivity].
Defined.

Lemma authenticate_joins_rooms_witness :
  PyDict.get Examples.alice
    (Realtime.connected_users
       (Realtime.handle_authenticate Examples.decode "sid-a"
          (Some Examples.alice) Sessions.connected))
  = Some true
  /\ In ("sid-a", Examples.room1)
       (Realtime.sio_rooms
          (Realtime.handle_authenticate Examples.decode "sid-a"
             (Some Examples.alice) Sessions.connected)).
Proof.
  assert (Htk : Examples.alice <> "") by (vm_compute; discriminate).
  pose proof (@authenticate_joins_rooms Examples.decode Sessions.connected
                "sid-a" Examples.alice Htk) as H.
  cbv zeta in H. destruct H as [_ [_ [H _]]].
  destruct (H Examples.alice Examples.alice eq_refl eq_refl)
    as [Hget [_ [_ [_ [Ht _]]]]].
  split; [exact Hget | ].
  apply Ht. right. right. exists Samples.private_room.
  split; [vm_compute; auto | ]. split; [vm_compute; auto | reflexivity].
Defined.

Lemma connect_registers_user_witness :
  PyDict.keys
    (SocketIO.connected_users
       (SocketIO.handle_connect Examples.decode "sid-2" (Some Examples.alice)
          (SocketIO.handle_connect Examples.decode "sid-1"
             (Some Examples.alice) (SocketIO.initial Examples.db0))))
  = [Examples.alice].
Proof.
  assert (Htk : Examples.alice <> "") by (vm_compute; discriminate).
  pose proof (@connect_registers_user Examples.decode
                (SocketIO.handle_connect Examples.decode "sid-1"
                   (Some Examples.alice) (SocketIO.initial Examples.db0))
                "sid-2" Examples.alice Examples.alice Htk eq_refl) as H.
  cbv zeta in H. destruct H as [_ [_ [H _]]].
  etransitivity; [apply H; vm_compute; auto | vm_compute; reflexivity].
Defined.

Lemma disconnect_removes_oldest_entry_witness :
  SocketIO.connected_users (SocketIO.handle_disconnect Examples.two_users)
  = [(Examples.bob, true)].
Proof.
  assert (Htrue : Forall (fun p => snd p = true)
                    (SocketIO.connected_users Examples.two_users)).
  { vm_compute. repeat constructor. }
  pose proof (@disconnect_removes_oldest_entry Examples.two_users Htrue) as H.
  cbv zeta in H. destruct H as [H _].
  etransitivity; [exact H | vm_compute; reflexivity].
Defined.
